(** * TruthGuard: the analyze-news verdict pipeline

    A shallow embedding of the three generations of the [analyze-news]
    edge function (plain decision + SerpAPI search, tool-calling search,
    grounded analysis with SerpAPI fallback) and the properties their
    design document states about them.

    Conventions of the embedding:
    - a JavaScript value is a term of [value]; numbers are the rationals
      (every finite double is one) extended with the two infinities and
      NaN; a string is the UTF-8 text of its code units, and the text of
      a request is taken to be well-formed Unicode (the one text the
      program itself can make that is not, the cut of [slice(0, 200)]
      through a surrogate pair, is followed to the search it is for);
    - a computation that may throw returns an [outcome]; a computation
      that also talks to the network runs in the monad [M], which threads
      the log of outbound calls and reads each reply from the [World];
    - [JSON.parse] and the string conversion of template literals are
      taken as given, in a [Runtime]. *)

From Stdlib Require Import List String Ascii Bool ZArith QArith Qround Lia.
From Stdlib Require Import DecimalString.
Import ListNotations.

Local Open Scope list_scope.
Local Open Scope string_scope.

(** ** Numbers *)

Module JsNumber.

Inductive number : Type :=
| Fin (q : Q)
| PosInf
| NegInf
| NaN.

(** Order on the numbers that are not NaN. *)
Definition leb (a b : number) : bool :=
  match a, b with
  | NegInf, _ => true
  | _, PosInf => true
  | Fin p, Fin q => Qle_bool p q
  | _, _ => false
  end.

Definition is_nan (n : number) : bool :=
  match n with NaN => true | _ => false end.

(** [Math.round]: the closest integer, ties towards +infinity. *)
Definition Math_round (n : number) : number :=
  match n with
  | Fin q => Fin (inject_Z (Qfloor (q + (1 # 2))))
  | _ => n
  end.

Definition Math_max (a b : number) : number :=
  if is_nan a || is_nan b then NaN else if leb a b then b else a.

Definition Math_min (a b : number) : number :=
  if is_nan a || is_nan b then NaN else if leb a b then a else b.

(** [SameValueZero] restricted to numbers: NaN equals itself. *)
Definition same (a b : number) : bool :=
  match a, b with
  | Fin p, Fin q => Qeq_bool p q
  | PosInf, PosInf | NegInf, NegInf | NaN, NaN => true
  | _, _ => false
  end.

Definition of_Z (z : Z) : number := Fin (inject_Z z).

End JsNumber.
Export JsNumber.

(** ** Strings

    A string is held as the UTF-8 text of its UTF-16 code units (a surrogate
    that stands alone is held as the three bytes of its own number), so the
    string literals of this file are the program's own.  What JavaScript
    counts in code units or iterates in code points goes through [points]. *)

Module JsString.

Definition code (c : ascii) : nat := nat_of_ascii c.

(** The white space of [String.prototype.trim] and of [\s] (WhiteSpace and
    LineTerminator of ECMAScript): below U+0080 these are TAB, LF, VT, FF,
    CR and SPACE; above, U+00A0 is two bytes and U+1680, U+2000 to U+200A,
    U+2028, U+2029, U+202F, U+205F, U+3000 and U+FEFF are three. *)
Definition ascii_ws (a : nat) : bool :=
  ((9 <=? a) && (a <=? 13) || (a =? 32))%nat.

Definition ws2 (a b : nat) : bool :=
  ((a =? 194) && (b =? 160))%nat.

Definition ws3 (a b x : nat) : bool :=
  ((a =? 225) && (b =? 154) && (x =? 128)
   || (a =? 226) && (b =? 128) &&
      ((128 <=? x) && (x <=? 138) || (x =? 168) || (x =? 169) || (x =? 175))
   || (a =? 226) && (b =? 129) && (x =? 159)
   || (a =? 227) && (b =? 128) && (x =? 128)
   || (a =? 239) && (b =? 187) && (x =? 191))%nat.

(** The number of bytes of the white-space character [s] starts with, 0
    when it starts with none. *)
Definition ws_width (s : string) : nat :=
  match s with
  | String c r =>
      if ascii_ws (code c) then 1
      else
        match r with
        | String d r' =>
            if ws2 (code c) (code d) then 2
            else
              match r' with
              | String e _ => if ws3 (code c) (code d) (code e) then 3 else 0
              | EmptyString => 0
              end
        | EmptyString => 0
        end
  | EmptyString => 0
  end.

(** [drop_ws pending s]: [s] without its first [pending] bytes (the rest of
    a white-space character) and without the white space that follows. *)
Fixpoint drop_ws (pending : nat) (s : string) : string :=
  match s with
  | String c r =>
      match pending with
      | S k => drop_ws k r
      | O =>
          match ws_width s with
          | S k => drop_ws k r
          | O => s
          end
      end
  | EmptyString => EmptyString
  end.

Definition trimStart (s : string) : string := drop_ws 0 s.

(** Nothing but white space. *)
Definition blank (s : string) : bool := trimStart s =? EmptyString.

Fixpoint trimEnd (s : string) : string :=
  match s with
  | String c r => if blank s then EmptyString else String c (trimEnd r)
  | EmptyString => EmptyString
  end.

Definition trim (s : string) : string := trimEnd (trimStart s).

(** The code points of a string, a lone surrogate being its own code point.
    [pending] bytes of the current sequence are still to come and [acc]
    holds the bits read so far; a byte out of place stands for itself. *)
Fixpoint points_from (pending : nat) (acc : N) (s : string) : list N :=
  match s with
  | String c r =>
      let b := N_of_ascii c in
      match pending with
      | S k =>
          let acc' := (acc * 64 + b mod 64)%N in
          match k with
          | O => acc' :: points_from 0 0 r
          | S _ => points_from k acc' r
          end
      | O =>
          if (b <? 192)%N then b :: points_from 0 0 r
          else if (b <? 224)%N then points_from 1 (b mod 32)%N r
          else if (b <? 240)%N then points_from 2 (b mod 16)%N r
          else points_from 3 (b mod 8)%N r
      end
  | EmptyString => []
  end.

Definition points (s : string) : list N := points_from 0 0 s.

Definition byte (n : N) : string := String (ascii_of_N n) EmptyString.

Definition of_point (p : N) : string :=
  (if p <? 128 then byte p
   else if p <? 2048 then byte (192 + p / 64) ++ byte (128 + p mod 64)
   else if p <? 65536 then
     byte (224 + p / 4096) ++ byte (128 + (p / 64) mod 64) ++ byte (128 + p mod 64)
   else
     byte (240 + p / 262144) ++ byte (128 + (p / 4096) mod 64) ++
     byte (128 + (p / 64) mod 64) ++ byte (128 + p mod 64))%N.

(** The first [n] code units of a sequence of code points: a code point
    from U+10000 on is two units, and when only one unit is left it gives
    its high surrogate. *)
Fixpoint take_units (n : nat) (ps : list N) : list N :=
  match n, ps with
  | S k, p :: r =>
      if (p <? 65536)%N then p :: take_units k r
      else
        match k with
        | S k' => p :: take_units k' r
        | O => [(55296 + (p - 65536) / 1024)%N]
        end
  | _, _ => []
  end.

(** No surrogate stands alone: the texts [encodeURIComponent] accepts. *)
Definition surrogate (p : N) : bool := ((55296 <=? p) && (p <? 57344))%N.

Definition well_formed (s : string) : bool :=
  forallb (fun p => negb (surrogate p)) (points s).

(** The code units of a code point: two from U+10000 on. *)
Definition width (p : N) : nat := if (p <? 65536)%N then 1 else 2.

(** [s.length] *)
Definition units (s : string) : nat := list_sum (List.map width (points s)).

(** [s.slice(0, n)] for [n] within nat. *)
Definition slice0 (n : nat) (s : string) : string :=
  String.concat EmptyString (List.map of_point (take_units n (points s))).

(** The strings a [for ... of] loop over [s] visits: one per code point. *)
Definition chars (s : string) : list string := List.map of_point (points s).

(** [s.includes(needle)]. *)
Fixpoint includes (needle s : string) : bool :=
  prefix needle s ||
  match s with
  | String _ r => includes needle r
  | EmptyString => false
  end.

(** [split_on sep s]: the text before and after the first occurrence of
    [sep] in [s]. *)
Fixpoint split_on (sep s : string) : option (string * string) :=
  if prefix sep s then Some (EmptyString, substring (length sep) (length s) s)
  else
    match s with
    | String c r =>
        match split_on sep r with
        | Some (before, after) => Some (String c before, after)
        | None => None
        end
    | EmptyString => None
    end.

Definition strip_prefix (p s : string) : string :=
  if prefix p s then substring (length p) (length s) s else s.

Fixpoint join (sep : string) (l : list string) : string :=
  match l with
  | [] => EmptyString
  | [x] => x
  | x :: r => x ++ sep ++ join sep r
  end.

Definition dq : string := String (ascii_of_nat 34) EmptyString.
Definition nl : string := String (ascii_of_nat 10) EmptyString.

End JsString.
Export JsString.

(** ** Values *)

#[warnings="-register-all"]
Inductive value : Type :=
| VUndefined
| VNull
| VBool (b : bool)
| VNum (n : number)
| VStr (s : string)
| VArr (elems : list value)
| VObj (fields : list (string * value))
| VFun (name : string).

(** What was thrown: an [Error] instance (TypeError, SyntaxError, ...) with
    its message, or some other value. *)
Inductive exn : Type :=
| ErrorObj (name message : string)
| Thrown (v : value).

Inductive outcome (A : Type) : Type :=
| Ret (a : A)
| Throw (e : exn).
Arguments Ret {A} a.
Arguments Throw {A} e.

Definition obind {A B} (m : outcome A) (k : A -> outcome B) : outcome B :=
  match m with
  | Ret a => k a
  | Throw e => Throw e
  end.

Notation "'let+' x ':=' m 'in' k" := (obind m (fun x => k))
  (at level 10, x name, m at level 100, k at level 200).

Definition TypeError (msg : string) : exn := ErrorObj "TypeError" msg.

Module Js.

Definition typeof (v : value) : string :=
  match v with
  | VUndefined => "undefined"
  | VNull | VArr _ | VObj _ => "object"
  | VBool _ => "boolean"
  | VNum _ => "number"
  | VStr _ => "string"
  | VFun _ => "function"
  end.

Definition truthy (v : value) : bool :=
  match v with
  | VUndefined | VNull => false
  | VBool b => b
  | VNum (Fin q) => negb (Qeq_bool q 0)
  | VNum NaN => false
  | VNum _ => true
  | VStr s => negb (s =? "")
  | VArr _ | VObj _ | VFun _ => true
  end.

Definition nullish (v : value) : bool :=
  match v with
  | VUndefined | VNull => true
  | _ => false
  end.

(** [a || b] and [a ?? b] on already evaluated operands. *)
Definition or_else (a b : value) : value := if truthy a then a else b.
Definition coalesce (a b : value) : value := if nullish a then b else a.

Fixpoint lookup (k : string) (fields : list (string * value)) : option value :=
  match fields with
  | (k', v) :: r => if k =? k' then Some v else lookup k r
  | [] => None
  end.

(** [v.k] for the property names this program reads.  None of them is
    inherited from a prototype, except [link], which every string has
    (the legacy [String.prototype.link]). *)
Definition get_prop (v : value) (k : string) : outcome value :=
  match v with
  | VUndefined =>
      Throw (TypeError ("Cannot read properties of undefined (reading '" ++ k ++ "')"))
  | VNull =>
      Throw (TypeError ("Cannot read properties of null (reading '" ++ k ++ "')"))
  | VObj fields =>
      Ret (match lookup k fields with Some x => x | None => VUndefined end)
  | VStr _ => Ret (if k =? "link" then VFun "link" else VUndefined)
  | _ => Ret VUndefined
  end.

(** [v?.k] *)
Definition get_opt (v : value) (k : string) : value :=
  match get_prop v k with
  | Ret x => x
  | Throw _ => VUndefined
  end.

(** [v[0]] on a value that is not nullish. *)
Definition first_elem (v : value) : value :=
  match v with
  | VArr (x :: _) => x
  | VStr (String c r) => VStr (slice0 1 (String c r))
  | VObj fields => match lookup "0" fields with Some x => x | None => VUndefined end
  | _ => VUndefined
  end.

(** [v?.[0]] *)
Definition first_opt (v : value) : value :=
  if nullish v then VUndefined else first_elem v.

(** [SameValueZero].  Two objects are the same only when they are one
    object; the comparisons of this program always have a string on one
    side, so distinct objects is all that is modelled. *)
Definition same_value_zero (a b : value) : bool :=
  match a, b with
  | VUndefined, VUndefined | VNull, VNull => true
  | VBool x, VBool y => Bool.eqb x y
  | VNum x, VNum y => JsNumber.same x y
  | VStr x, VStr y => x =? y
  | VFun x, VFun y => x =? y
  | _, _ => false
  end.

Definition Array_includes (l : list value) (x : value) : bool :=
  existsb (fun y => same_value_zero y x) l.

Definition is_string (v : value) : bool :=
  match v with VStr _ => true | _ => false end.

(** The values [JSON.parse] can return: no [undefined], no function, no
    NaN (an overflowing literal parses to an infinity). *)
Fixpoint is_json (v : value) : bool :=
  match v with
  | VUndefined | VFun _ | VNum NaN => false
  | VNull | VBool _ | VNum _ | VStr _ => true
  | VArr l => forallb is_json l
  | VObj fs => forallb (fun kv => is_json (snd kv)) fs
  end.

End Js.
Export Js.

(** ** The response sanitizer

    The object literal that every generation of the handler builds from
    the candidate [analysis] (lines 299-318 of the first handler, 222-235
    of the grounded one, 292-299 of its fallback). *)

Definition verdicts : list value := [VStr "real"; VStr "fake"; VStr "uncertain"].

Definition sanitizeVerdict (v : value) : value :=
  if Array_includes verdicts v then v else VStr "uncertain".

Definition clampRound (n : number) : number :=
  Math_min (of_Z 100) (Math_max (of_Z 0) (Math_round n)).

Definition sanitizeConfidence (c : value) : value :=
  match c with
  | VNum n => VNum (clampRound n)
  | _ => VNum (of_Z 50)
  end.

Definition sanitizeExplanation (e : value) : value :=
  if typeof e =? "string" then e else VStr "Analysis complete.".

Definition sanitizeRedFlags (r : value) : value :=
  match r with
  | VArr l => VArr (filter (fun f => typeof f =? "string") l)
  | _ => VArr []
  end.

Definition sanitize (analysis : value) : outcome (list (string * value)) :=
  let+ verdict := get_prop analysis "verdict" in
  let+ confidence := get_prop analysis "confidence" in
  let+ explanation := get_prop analysis "explanation" in
  let+ redFlags := get_prop analysis "redFlags" in
  Ret [ ("verdict", sanitizeVerdict verdict);
        ("confidence", sanitizeConfidence confidence);
        ("explanation", sanitizeExplanation explanation);
        ("redFlags", sanitizeRedFlags redFlags) ].

(** The spec's wording of the confidence rule: clamp, then round. *)
Definition clamp_then_round (n : number) : number :=
  Math_round (Math_min (of_Z 100) (Math_max (of_Z 0) n)).

(** * The runtime around the handlers *)

(** The reply to one outbound [fetch]: the HTTP status and what reading
    the body as text or as JSON gives (either read may reject). *)
Record upstream : Type := {
  up_status : Z;
  up_text : outcome string;
  up_json : outcome value
}.

Definition up_ok (r : upstream) : bool :=
  ((200 <=? up_status r) && (up_status r <=? 299))%Z.

Inductive fetch_outcome : Type :=
| Rejected (e : exn)
| Resolved (r : upstream).

(** An outbound call: a POST of [payload] to the chat-completion gateway
    with a bearer token, or a GET of the SerpAPI search endpoint. *)
Inductive call : Type :=
| Gateway (apiKey : string) (payload : value)
| SerpApi (query apiKey : string) (num : option nat).

(** The parts of the JavaScript engine taken as given: [JSON.parse] and
    the string conversion a template literal applies to a value that is
    not a string. *)
Record Runtime : Type := {
  JSON_parse : string -> outcome value;
  ToString : value -> outcome string
}.

(** The environment of one request: the two secrets, the date, and the
    outcome of the n-th outbound call of the run. *)
Record World : Type := {
  SERPAPI_KEY : option string;
  LOVABLE_API_KEY : option string;
  today : string;
  net : nat -> fetch_outcome
}.

(** A secret read with [Deno.env.get] is usable when it is set and not
    the empty string. *)
Definition configured (k : option string) : option string :=
  match k with
  | Some s => if s =? "" then None else Some s
  | None => None
  end.

(** Computations that throw and make outbound calls. *)
Definition M (A : Type) : Type := list call -> outcome A * list call.

Definition ret {A} (a : A) : M A := fun log => (Ret a, log).
Definition throw {A} (e : exn) : M A := fun log => (Throw e, log).
Definition lift {A} (o : outcome A) : M A := fun log => (o, log).

Definition bind {A B} (m : M A) (k : A -> M B) : M B :=
  fun log =>
    match m log with
    | (Ret a, log') => k a log'
    | (Throw e, log') => (Throw e, log')
    end.

Definition try_catch {A} (m : M A) (h : exn -> M A) : M A :=
  fun log =>
    match m log with
    | (Ret a, log') => (Ret a, log')
    | (Throw e, log') => h e log'
    end.

Definition otry {A} (m : outcome A) (h : exn -> A) : A :=
  match m with
  | Ret a => a
  | Throw e => h e
  end.

Notation "'let*' x ':=' m 'in' k" := (bind m (fun x => k))
  (at level 10, x name, m at level 100, k at level 200).

Definition fetch (w : World) (c : call) : M upstream :=
  fun log =>
    match net w (List.length log) with
    | Rejected e => (Throw e, (log ++ [c])%list)
    | Resolved r => (Ret r, (log ++ [c])%list)
    end.

Fixpoint mapM {A B} (f : A -> outcome B) (l : list A) : outcome (list B) :=
  match l with
  | [] => Ret []
  | x :: r =>
      let+ y := f x in
      let+ ys := mapM f r in
      Ret (y :: ys)
  end.

Module Method.

(** [v.trim()] *)
Definition trim (v : value) : outcome string :=
  match v with
  | VStr s => Ret (JsString.trim s)
  | _ => Throw (TypeError "trim is not a function")
  end.

(** [v.includes(needle)] for a string [needle]: substring search on a
    string, membership on an array. *)
Definition includes (v : value) (needle : string) : outcome bool :=
  match v with
  | VStr s => Ret (JsString.includes needle s)
  | VArr l => Ret (Array_includes l (VStr needle))
  | _ => Throw (TypeError "includes is not a function")
  end.

(** [v.slice(0, n)] *)
Definition slice0 (n : nat) (v : value) : outcome value :=
  match v with
  | VArr l => Ret (VArr (firstn n l))
  | VStr s => Ret (VStr (JsString.slice0 n s))
  | _ => Throw (TypeError "slice is not a function")
  end.

(** [v.map(f)]: only arrays have it. *)
Definition map {B} (f : value -> outcome B) (v : value) : outcome (list B) :=
  match v with
  | VArr l => mapM f l
  | _ => Throw (TypeError "map is not a function")
  end.

(** The elements [for (const x of v)] visits. *)
Definition iterate (v : value) : outcome (list value) :=
  match v with
  | VArr l => Ret l
  | VStr s => Ret (List.map VStr (chars s))
  | _ => Throw (TypeError "is not iterable")
  end.

End Method.

(** ** Responses *)

Record Response : Type := {
  status : Z;
  headers : list (string * string);
  body : option value       (* [Some v]: the text [JSON.stringify(v)] *)
}.

(** [new Response(body, { status, headers })]; the status is 200 unless
    given. *)
Definition new_Response (b : option value) (st : option Z)
    (h : list (string * string)) : Response :=
  {| status := match st with Some n => n | None => 200%Z end;
     headers := h;
     body := b |}.

Fixpoint header (name : string) (h : list (string * string)) : option string :=
  match h with
  | (k, v) :: r => if name =? k then Some v else header name r
  | [] => None
  end.

Record Request : Type := {
  method : string;
  req_json : outcome value      (* what [await req.json()] gives *)
}.

Definition error_body (msg : string) : option value :=
  Some (VObj [("error", VStr msg)]).

(** [error instanceof Error ? error.message : "Failed to analyze content"] *)
Definition error_message (e : exn) : string :=
  match e with
  | ErrorObj _ m => m
  | Thrown _ => "Failed to analyze content"
  end.

(** ** Reading the model's answer *)

(** The regular expression [```(?:json)?\s*([\s\S]*?)```]: the first
    fence, an optional [json] tag and white space after it, and the
    shortest text up to the next fence.  Neither [json] nor white space
    holds a backtick, so giving them back never finds a closing fence
    the greedy reading misses, and no later opening fence matches when
    the first one does not.  The result is capture group 1. *)
Definition fence : string := "```".

Definition match_fenced (content : string) : option string :=
  match split_on fence content with
  | None => None
  | Some (_, rest) =>
      match split_on fence (trimStart (strip_prefix "json" rest)) with
      | None => None
      | Some (inner, _) => Some inner
      end
  end.

(** [(content.match(re) || [null, content])[1].trim()] *)
Definition jsonStr (content : string) : string :=
  trim (match match_fenced content with
        | Some inner => inner
        | None => content
        end).

Definition uncertain_default (explanation : string) : value :=
  VObj [ ("verdict", VStr "uncertain");
         ("confidence", VNum (of_Z 50));
         ("explanation", VStr explanation);
         ("redFlags", VArr []) ].

(** The [try { ... JSON.parse ... } catch { analysis = default }] block.
    A [content] that is not a string has no [match] method; the TypeError
    is caught like a parse failure. *)
Definition parseAnalysis (rt : Runtime) (explanation : string)
    (content : value) : value :=
  otry (match content with
        | VStr c => JSON_parse rt (jsonStr c)
        | _ => Throw (TypeError "content.match is not a function")
        end)
       (fun _ => uncertain_default explanation).

Definition corsHeaders : list (string * string) :=
  [ ("Access-Control-Allow-Origin", "*");
    ("Access-Control-Allow-Headers",
     "authorization, x-client-info, apikey, content-type") ].

Definition jsonHeaders : list (string * string) :=
  (corsHeaders ++ [("Content-Type", "application/json")])%list.

Definition chat_payload (system user : string) : value :=
  VObj [ ("model", VStr "google/gemini-3-flash-preview");
         ("messages",
          VArr [ VObj [("role", VStr "system"); ("content", VStr system)];
                 VObj [("role", VStr "user"); ("content", VStr user)] ]) ].

(** [!text || typeof text !== "string" || text.trim().length === 0] *)
Definition invalid_text (text : value) : bool :=
  negb (truthy text) || negb (typeof text =? "string") ||
  match text with
  | VStr s => (String.length (trim s) =? 0)%nat
  | _ => false
  end.

Definition string_of (v : value) : string :=
  match v with VStr s => s | _ => EmptyString end.

Definition sentinel : string := "LIVE_SEARCH_REQUIRED".

Definition lines (l : list string) : string := join nl l.

(** What [callGemini] resolves to: [{ error }] or [{ content, ... }]
    with whatever else the generation at hand returns next to the
    content. *)
Inductive gemini_result (X : Type) : Type :=
| GError (error : string)
| GContent (content : value) (extra : X).
Arguments GError {X} error.
Arguments GContent {X} content extra.

(** The gateway's reply before its content is looked at: the message
    for a failed status, or the parsed body. *)
Inductive reply : Type :=
| Refused (error : string)
| Replied (data : value).

(** What [runLiveSearch] resolves to. *)
Record search_result : Type := {
  snippets : string;
  sources : list value;
  error : value
}.

Definition no_search (msg : string) : search_result :=
  {| snippets := ""; sources := []; error := VStr msg |}.

Fixpoint mapM_i {B} (f : nat -> value -> outcome B) (i : nat) (l : list value)
    : outcome (list B) :=
  match l with
  | [] => Ret []
  | x :: r =>
      let+ y := f i x in
      let+ ys := mapM_i f (S i) r in
      Ret (y :: ys)
  end.

Fixpoint foldM {A B} (f : A -> B -> outcome A) (l : list B) (a : A) : outcome A :=
  match l with
  | [] => Ret a
  | x :: r => let+ a' := f a x in foldM f r a'
  end.

(** The grounding metadata of a reply, wherever the provider put it. *)
Definition grounding_meta (data choice : value) : value :=
  let message := get_opt choice "message" in
  coalesce (get_opt message "grounding_metadata")
    (coalesce (get_opt message "groundingMetadata")
       (coalesce (get_opt data "grounding_metadata")
          (get_opt data "groundingMetadata"))).

Section Shared.

Variable rt : Runtime.
Variable w : World.

(** The string a template literal puts in place of [${v}]. *)
Definition to_string (v : value) : outcome string :=
  match v with
  | VStr s => Ret s
  | _ => ToString rt v
  end.

(** The part of [callGemini] both generations that have it share: the
    POST, the classification of a failed status, and the reply's JSON. *)
Definition gateway_reply (apiKey system user : string) : M reply :=
  let* res := fetch w (Gateway apiKey (chat_payload system user)) in
  if negb (up_ok res) then
    let* errorText := lift (up_text res) in
    if (up_status res =? 429)%Z then
      ret (Refused "Rate limit exceeded. Please try again later.")
    else if (up_status res =? 402)%Z then
      ret (Refused "AI service quota exceeded. Please try again later.")
    else ret (Refused "Failed to analyze content")
  else
    let* data := lift (up_json res) in
    ret (Replied data).

(** One entry of the evidence block:
    [`${i + 1}. ${title}\n${snippet}\n${link}`]. *)
Definition snippet_line (i : nat) (r : value) : outcome string :=
  let+ t := get_prop r "title" in
  let title := or_else t (VStr "Untitled") in
  let+ l := get_prop r "link" in
  let link := or_else l (VStr "") in
  let+ s := get_prop r "snippet" in
  let snippet := or_else s (VStr "") in
  let+ title' := to_string title in
  let+ snippet' := to_string snippet in
  let+ link' := to_string link in
  Ret (NilEmpty.string_of_uint (Nat.to_uint (i + 1)) ++ ". " ++ title' ++ nl
       ++ snippet' ++ nl ++ link').

Definition source_of (r : value) : outcome value :=
  let+ t := get_prop r "title" in
  let+ l := get_prop r "link" in
  Ret (VObj [("title", or_else t (VStr "")); ("link", or_else l (VStr ""))]).

(** [runLiveSearch], which the first and the third generation share up
    to the message for a missing key. *)
Definition serpSearch (missing : string) (query : string) : M search_result :=
  match configured (SERPAPI_KEY w) with
  | None => ret (no_search missing)
  | Some key =>
      let* res := fetch w (SerpApi query key None) in
      if negb (up_ok res) then
        let* t := lift (up_text res) in
        ret (no_search "Live search failed.")
      else
        let* data := lift (up_json res) in
        let* found := lift (get_prop data "organic_results") in
        let organic := or_else found (VArr []) in
        let* top := lift (Method.slice0 5 organic) in
        let* numbered :=
          lift (match top with
                | VArr l => mapM_i snippet_line 0 l
                | _ => Throw (TypeError "top.map is not a function")
                end) in
        let* srcs := lift (Method.map source_of top) in
        ret {| snippets := join (nl ++ nl) numbered;
               sources := srcs;
               error := VNull |}
  end.

Definition error_Response (st : Z) (msg : string) : Response :=
  new_Response (error_body msg) (Some st) jsonHeaders.

Definition ok_Response (fields : list (string * value)) : Response :=
  new_Response (Some (VObj fields)) None jsonHeaders.

End Shared.

(** * First handler: decision, SerpAPI search, analysis *)

Module Plain.

Definition decisionSystem : string := lines
  [ "You are a strict classifier for a fact-checking system.";
    "";
    "Task:";
    "Decide whether the user's claim requires LIVE WEB SEARCH to verify.";
    "";
    "Rules:";
    "- Output ONLY ONE of these two tokens:";
    "  1) LIVE_SEARCH_REQUIRED";
    "  2) STATIC_ANALYSIS_OK";
    "";
    "Choose LIVE_SEARCH_REQUIRED if the claim depends on:";
    "- recent events, breaking news, elections, resignations";
    "- dates, time-sensitive facts, current office holders";
    "- current prices, statistics, reports, or new announcements";
    "- anything that could change after 2024";
    "";
    "Choose STATIC_ANALYSIS_OK if the claim is:";
    "- general knowledge, science, history, definitions";
    "- not time-dependent";
    "- can be verified without needing latest updates" ].

Definition decisionUser (userInput : string) : string :=
  "User claim:" ++ nl ++ dq ++ userInput ++ dq.

Definition analysisSystem : string := lines
  [ "You are an expert fact-checker and misinformation analyst.";
    "";
    "Your job:";
    "Analyze the user's news content and return a credibility verdict.";
    "";
    "If live web evidence is provided, you MUST ground your verdict only on it.";
    "If evidence is missing or conflicting, return UNCERTAIN.";
    "";
    "You MUST respond with valid JSON exactly in this format:";
    "{";
    "  " ++ dq ++ "verdict" ++ dq ++ ": " ++ dq ++ "real" ++ dq ++ " | "
         ++ dq ++ "fake" ++ dq ++ " | " ++ dq ++ "uncertain" ++ dq ++ ",";
    "  " ++ dq ++ "confidence" ++ dq ++ ": <number 0-100>,";
    "  " ++ dq ++ "explanation" ++ dq ++ ": " ++ dq ++ "<clear explanation>" ++ dq ++ ",";
    "  " ++ dq ++ "redFlags" ++ dq ++ ": [" ++ dq ++ "<flag1>" ++ dq ++ ", "
         ++ dq ++ "<flag2>" ++ dq ++ "]";
    "}" ].

Definition analysisUser (needsLiveSearch : bool) (webSnippets userInput : string)
    : string :=
  if needsLiveSearch && negb (webSnippets =? "") then
    "User claim:" ++ nl ++ dq ++ userInput ++ dq ++ nl ++ nl ++
    "Live web evidence (top results):" ++ nl ++ webSnippets ++ nl ++ nl ++
    "Rules:" ++ nl ++ "1) Base verdict ONLY on evidence above." ++ nl ++
    "2) If evidence is insufficient/conflicting → UNCERTAIN." ++ nl ++
    "3) Never guess." ++ nl ++ "4) Keep explanation clear."
  else
    "Analyze this news content for credibility:" ++ nl ++ nl ++
    dq ++ userInput ++ dq.

Definition parse_default : string :=
  "Unable to fully analyze this content. Please try again.".

(** The evidence state of the handler after its second step. *)
Record evidence : Type := {
  webSnippets : string;
  found : list value;
  sourceMode : string
}.

Definition no_evidence : evidence :=
  {| webSnippets := ""; found := []; sourceMode := "static" |}.

Section WithRuntime.

Variable rt : Runtime.
Variable w : World.

Definition callGemini (apiKey system user : string) : M (gemini_result unit) :=
  let* answer := gateway_reply w apiKey system user in
  match answer with
  | Refused msg => ret (GError msg)
  | Replied data =>
      let* choices := lift (get_prop data "choices") in
      let content := get_opt (get_opt (first_opt choices) "message") "content" in
      if negb (truthy content) then ret (GError "Invalid AI response")
      else ret (GContent content tt)
  end.

Definition runLiveSearch : string -> M search_result :=
  serpSearch rt w "Live search is not configured (missing SERPAPI_KEY).".

(** [needsLiveSearch], from the classifier's answer. *)
Definition needsLiveSearch (content : value) : outcome bool :=
  let+ decisionRaw := Method.trim content in
  Ret (JsString.includes sentinel decisionRaw).

(** Step 2 of the handler. *)
Definition gather (needs : bool) (userInput : string) : M evidence :=
  if needs then
    let* search := runLiveSearch userInput in
    if truthy (error search) then ret no_evidence
    else ret {| webSnippets := snippets search;
                found := sources search;
                sourceMode := "live-web" |}
  else ret no_evidence.

(** The end of the handler: the answer of the Verdict Stage is parsed,
    sanitized and sent. *)
Definition conclude (ev : evidence) (content : value) : M Response :=
  let analysis := parseAnalysis rt parse_default content in
  let* fields := lift (sanitize analysis) in
  ret (ok_Response
         (fields ++ [ ("sourceMode", VStr (sourceMode ev));
                      ("sources", VArr (found ev)) ])%list).

(** The body of the handler's [try] block. *)
Definition analyze (req : Request) : M Response :=
  let* parsed := lift (req_json req) in
  let* text := lift (get_prop parsed "text") in
  if invalid_text text then
    ret (error_Response 400 "Please provide text to analyze")
  else
    match configured (LOVABLE_API_KEY w) with
    | None => throw (ErrorObj "Error" "AI service is not configured")
    | Some apiKey =>
        let userInput := trim (string_of text) in
        let* decisionRes := callGemini apiKey decisionSystem (decisionUser userInput) in
        match decisionRes with
        | GError msg => ret (error_Response 500 msg)
        | GContent decision _ =>
            let* needs := lift (needsLiveSearch decision) in
            let* ev := gather needs userInput in
            let* analysisRes :=
              callGemini apiKey analysisSystem
                (analysisUser needs (webSnippets ev) userInput) in
            match analysisRes with
            | GError msg => ret (error_Response 500 msg)
            | GContent content _ => conclude ev content
            end
        end
    end.

Definition handler (req : Request) : M Response :=
  if method req =? "OPTIONS" then ret (new_Response None None corsHeaders)
  else
    try_catch (analyze req)
      (fun e => ret (error_Response 500 (error_message e))).

End WithRuntime.

End Plain.

(** * Third handler: grounded analysis, SerpAPI fallback *)

Module Grounded.

Definition quoted (s : string) : string := dq ++ s ++ dq.

Definition decisionSystem (today : string) : string := lines
  [ "Today's date is " ++ today ++ ". You are a strict classifier.";
    "Output ONLY one token: LIVE_SEARCH_REQUIRED or STATIC_ANALYSIS_OK.";
    "Choose LIVE_SEARCH_REQUIRED if the claim involves recent events, current office holders, 2024-2026 facts, prices, statistics, or anything time-sensitive.";
    "Choose STATIC_ANALYSIS_OK for timeless general knowledge." ].

Definition decisionUser (userInput : string) : string :=
  "Claim: " ++ quoted userInput.

Definition analysisSystem (today : string) : string := lines
  [ "Today's date is " ++ today ++ ". You are an expert fact-checker.";
    "You have access to Google Search to verify claims in real-time. USE IT for any time-sensitive or verifiable claim.";
    "Never assume your training data is current — always ground your answer in search results when available.";
    "";
    "Respond with valid JSON exactly in this format:";
    "{";
    "  " ++ quoted "verdict" ++ ": " ++ quoted "real" ++ " | "
         ++ quoted "fake" ++ " | " ++ quoted "uncertain" ++ ",";
    "  " ++ quoted "confidence" ++ ": <number 0-100>,";
    "  " ++ quoted "explanation" ++ ": "
         ++ quoted "<clear explanation grounded in evidence>" ++ ",";
    "  " ++ quoted "redFlags" ++ ": [" ++ quoted "<flag1>" ++ ", "
         ++ quoted "<flag2>" ++ "]";
    "}" ].

Definition analysisUser (userInput : string) : string :=
  "Fact-check this claim thoroughly:" ++ nl ++ quoted userInput.

Definition fallbackSystem (today webSnippets : string) : string := lines
  [ "Today's date is " ++ today ++ ". You are an expert fact-checker.";
    (if negb (webSnippets =? "")
     then "Base your verdict ONLY on the provided web evidence."
     else "Analyze using your knowledge.");
    "If evidence is insufficient → verdict must be " ++ quoted "uncertain" ++ ".";
    "Respond with valid JSON: { " ++ quoted "verdict" ++ ": " ++ quoted "real"
      ++ "|" ++ quoted "fake" ++ "|" ++ quoted "uncertain" ++ ", "
      ++ quoted "confidence" ++ ": <0-100>, " ++ quoted "explanation" ++ ": "
      ++ quoted "<text>" ++ ", " ++ quoted "redFlags" ++ ": ["
      ++ quoted "..." ++ "] }" ].

Definition fallbackUser (webSnippets userInput : string) : string :=
  if negb (webSnippets =? "") then
    "Claim: " ++ quoted userInput ++ nl ++ nl ++ "Web evidence:" ++ nl ++ webSnippets
  else "Fact-check: " ++ quoted userInput.

Definition parse_default : string :=
  "Unable to fully analyze this content. Please try again.".

Definition fallback_parse_default : string := "Parse error.".

(** One round of the loop over the grounding chunks. *)
Definition push_grounded (acc : list value) (chunk : value)
    : outcome (list value) :=
  let+ inner := get_prop chunk "web" in
  let web := coalesce inner chunk in
  if truthy (or_else (get_opt web "uri") (get_opt web "url")) then
    Ret (acc ++ [ VObj [ ("title", coalesce (get_opt web "title") (VStr "Source"));
                         ("url", coalesce (get_opt web "uri") (get_opt web "url")) ] ])%list
  else Ret acc.

Definition groundedSources_of (data choice : value) : outcome (list value) :=
  let meta := grounding_meta data choice in
  if truthy (or_else (get_opt meta "grounding_chunks") (get_opt meta "groundingChunks"))
  then
    let chunks :=
      coalesce (get_opt meta "grounding_chunks")
        (coalesce (get_opt meta "groundingChunks") (VArr [])) in
    let+ visited := Method.iterate chunks in
    foldM push_grounded visited []
  else Ret [].

Section WithRuntime.

Variable rt : Runtime.
Variable w : World.

Definition callGemini (apiKey system user : string)
    : M (gemini_result (list value)) :=
  let* answer := gateway_reply w apiKey system user in
  match answer with
  | Refused msg => ret (GError msg)
  | Replied data =>
      let* choices := lift (get_prop data "choices") in
      let choice := first_opt choices in
      let content := get_opt (get_opt choice "message") "content" in
      if negb (truthy content) then ret (GError "Invalid AI response")
      else
        let* groundedSources := lift (groundedSources_of data choice) in
        ret (GContent content groundedSources)
  end.

Definition runLiveSearch : string -> M search_result :=
  serpSearch rt w "no-key".

Definition needsLiveSearch (content : value) : outcome bool :=
  Method.includes content sentinel.

(** [sources.map(s => ({ title: s.title, url: s.link }))] *)
Definition retitle (s : value) : value :=
  VObj [("title", get_opt s "title"); ("url", get_opt s "link")].

(** The end of [fallbackAnalysis]. *)
Definition fallback_conclude (sourceMode : string) (sources : list value)
    (content : value) : M Response :=
  let analysis := parseAnalysis rt fallback_parse_default content in
  let* fields := lift (sanitize analysis) in
  ret (ok_Response
         (fields ++ [ ("sourceMode", VStr sourceMode);
                      ("sources", VArr (List.map retitle sources)) ])%list).

(** The end of the handler proper. *)
Definition conclude (groundedSources : list value) (content : value)
    : M Response :=
  let analysis := parseAnalysis rt parse_default content in
  let* fields := lift (sanitize analysis) in
  let grounded := (0 <? List.length groundedSources)%nat in
  ret (ok_Response
         (fields ++
          [ ("sourceMode", VStr (if grounded then "grounded" else "static"));
            ("sources", VArr (if grounded then groundedSources else [])) ])%list).

Definition fallbackAnalysis (apiKey userInput : string) (needs : bool)
    : M Response :=
  let* ev :=
    (if needs then
       let* search := runLiveSearch userInput in
       if negb (truthy (error search)) then
         ret (snippets search, sources search, "live-web")
       else ret ("", [], "static")
     else ret ("", [], "static")) in
  let webSnippets := fst (fst ev) in
  let* res := callGemini apiKey (fallbackSystem (today w) webSnippets)
                (fallbackUser webSnippets userInput) in
  match res with
  | GError msg => ret (error_Response 500 msg)
  | GContent content _ => fallback_conclude (snd ev) (snd (fst ev)) content
  end.

Definition analyze (req : Request) : M Response :=
  let* parsed := lift (req_json req) in
  let* text := lift (get_prop parsed "text") in
  if invalid_text text then
    ret (error_Response 400 "Please provide text to analyze")
  else
    match configured (LOVABLE_API_KEY w) with
    | None => throw (ErrorObj "Error" "AI service is not configured")
    | Some apiKey =>
        let userInput := trim (string_of text) in
        let* decisionRes :=
          callGemini apiKey (decisionSystem (today w)) (decisionUser userInput) in
        match decisionRes with
        | GError msg => ret (error_Response 500 msg)
        | GContent decision _ =>
            let* needs := lift (needsLiveSearch decision) in
            let* analysisRes :=
              callGemini apiKey (analysisSystem (today w)) (analysisUser userInput) in
            match analysisRes with
            | GError _ => fallbackAnalysis apiKey userInput needs
            | GContent content groundedSources => conclude groundedSources content
            end
        end
    end.

Definition handler (req : Request) : M Response :=
  if method req =? "OPTIONS" then ret (new_Response None None corsHeaders)
  else
    try_catch (analyze req)
      (fun e => ret (error_Response 500 (error_message e))).

End WithRuntime.

End Grounded.

(** * Second handler: the search behind the tool call *)

Module ToolCalling.

(** [interface Source]; the records are built from replies typed [any],
    so a field holds whatever the reply held. *)
Record Source : Type := {
  title : value;
  url : value;
  snippet : value
}.

(** [a === b].  Two records never hold one and the same object, so
    objects and arrays compare as different. *)
Definition strict_equals (a b : value) : bool :=
  match a, b with
  | VUndefined, VUndefined | VNull, VNull => true
  | VBool x, VBool y => Bool.eqb x y
  | VNum x, VNum y => negb (is_nan x) && JsNumber.same x y
  | VStr x, VStr y => x =? y
  | VFun x, VFun y => x =? y
  | _, _ => false
  end.

(** The regular expression [\[[\s\S]*\]]: from the first opening bracket
    to the last closing bracket after it. *)
Fixpoint upto_last (c : ascii) (s : string) : option string :=
  match s with
  | EmptyString => None
  | String a r =>
      match upto_last c r with
      | Some t => Some (String a t)
      | None => if Ascii.eqb a c then Some (String a EmptyString) else None
      end
  end.

Fixpoint match_brackets (s : string) : option string :=
  match s with
  | EmptyString => None
  | String a r =>
      if Ascii.eqb a "["%char then
        match upto_last "]"%char r with
        | Some t => Some (String a t)
        | None => None
        end
      else match_brackets r
  end.

Definition searchPayload (query : string) : value :=
  VObj [ ("model", VStr "google/gemini-3-flash-preview");
         ("messages",
          VArr [ VObj [ ("role", VStr "system");
                        ("content", VStr "You are a web search assistant. Return exactly 5 search results as JSON array.") ];
                 VObj [ ("role", VStr "user");
                        ("content",
                         VStr ("Search for: " ++ dq ++ query ++ dq ++ nl ++ nl
                               ++ "Return JSON array: [{" ++ dq ++ "title" ++ dq
                               ++ ":" ++ dq ++ "..." ++ dq ++ "," ++ dq ++ "url"
                               ++ dq ++ ":" ++ dq ++ "..." ++ dq ++ "," ++ dq
                               ++ "snippet" ++ dq ++ ":" ++ dq ++ "..." ++ dq
                               ++ "}]")) ] ]);
         ("tools", VArr [ VObj [("googleSearch", VObj [])] ]) ].

(** A SerpAPI organic result as a [Source]. *)
Definition serp_record (r : value) : outcome Source :=
  let+ t := get_prop r "title" in
  let+ l := get_prop r "link" in
  let+ s := get_prop r "snippet" in
  Ret {| title := or_else t (VStr "Untitled");
         url := or_else l (VStr "");
         snippet := or_else s (VStr "") |}.

(** One round of the loop over the grounding chunks. *)
Definition push_chunk (acc : list Source) (chunk : value) : outcome (list Source) :=
  let+ inner := get_prop chunk "web" in
  let web := coalesce inner chunk in
  if truthy (or_else (get_opt web "uri") (get_opt web "url")) then
    Ret (acc ++ [ {| title := coalesce (get_opt web "title") (VStr "Source");
                     url := coalesce (get_opt web "uri") (get_opt web "url");
                     snippet := coalesce (get_opt web "snippet") (VStr "") |} ])%list
  else Ret acc.

(** An entry of the array the model wrote in its answer, as a [Source]. *)
Definition listed_record (r : value) : outcome Source :=
  let+ t := get_prop r "title" in
  let+ u := get_prop r "url" in
  let+ l := get_prop r "link" in
  let+ s := get_prop r "snippet" in
  let+ d := get_prop r "description" in
  Ret {| title := or_else t (VStr "Source");
         url := or_else (or_else u l) (VStr "");
         snippet := or_else (or_else s d) (VStr "") |}.

(** The merge state of [callGeminiWithSearch]. *)
Record merged : Type := {
  allSources : list Source;
  allSnippets : list string
}.

Definition nothing_merged : merged := {| allSources := []; allSnippets := [] |}.

Definition topSources (st : merged) : list Source := firstn 8 (allSources st).

Definition evidenceText (st : merged) : string :=
  join nl (firstn 8 (allSnippets st)).

Section WithRuntime.

Variable rt : Runtime.
Variable w : World.

(** The keyed search: [Some] results when SerpAPI answered, [None] when
    the function goes on to the fallback. *)
Definition primarySearch (query : string) : M (option (list Source)) :=
  match configured (SERPAPI_KEY w) with
  | None => ret None
  | Some key =>
      try_catch
        (let* res := fetch w (SerpApi query key (Some 5%nat)) in
         if up_ok res then
           let* data := lift (up_json res) in
           let* found := lift (get_prop data "organic_results") in
           let* results := lift (Method.slice0 5 (or_else found (VArr []))) in
           let* mapped := lift (Method.map serp_record results) in
           ret (Some mapped)
         else
           let* consumed := lift (up_text res) in
           ret None)
        (fun e => ret None)
  end.

(** The inner [try] of the fallback: the array the model wrote out. *)
Definition listed_sources (content : value) : outcome (list Source) :=
  match content with
  | VStr c =>
      match match_brackets c with
      | Some m =>
          let+ parsed := JSON_parse rt m in
          match parsed with
          | VArr l => mapM listed_record (firstn 5 l)
          | _ => Ret []
          end
      | None => Ret []
      end
  | _ => Throw (TypeError "content.match is not a function")
  end.

Definition fallbackSearch (query : string) : M (list Source) :=
  match configured (LOVABLE_API_KEY w) with
  | None => ret []
  | Some key =>
      try_catch
        (let* res := fetch w (Gateway key (searchPayload query)) in
         if negb (up_ok res) then
           let* consumed := lift (up_text res) in
           ret []
         else
           let* data := lift (up_json res) in
           let* choices := lift (get_prop data "choices") in
           let choice := first_opt choices in
           let content :=
             or_else (get_opt (get_opt choice "message") "content") (VStr "") in
           let meta := grounding_meta data choice in
           let* cited :=
             lift (if truthy (or_else (get_opt meta "grounding_chunks")
                                      (get_opt meta "groundingChunks"))
                   then
                     let+ visited :=
                       Method.iterate
                         (coalesce (get_opt meta "grounding_chunks")
                            (coalesce (get_opt meta "groundingChunks") (VArr []))) in
                     foldM push_chunk visited []
                   else Ret []) in
           if (0 <? List.length cited)%nat then ret (firstn 5 cited)
           else ret (otry (listed_sources content) (fun _ => [])))
        (fun e => ret [])
  end.

(** [performWebSearch(query)] for a text that [encodeURIComponent]
    accepts. *)
Definition performWebSearch (query : string) : M (list Source) :=
  let* primary := primarySearch query in
  match primary with
  | Some results => ret results
  | None => fallbackSearch query
  end.

(** [performWebSearch(query)] for a query of any type.  Each [try] block
    of the function turns the query into a string before the call it is
    about to make: a query that cannot be turned into a string makes it
    return no result without any call, and a text that
    [encodeURIComponent] rejects (it holds half a surrogate pair) goes to
    the fallback without a SerpAPI call. *)
Definition performWebSearch_of (query : value) : M (list Source) :=
  match to_string rt query with
  | Ret q =>
      if well_formed q then performWebSearch q else fallbackSearch q
  | Throw _ => ret []
  end.

(** [`- ${r.title}: ${r.snippet} (${r.url})`] *)
Definition render (r : Source) : outcome string :=
  let+ t := to_string rt (title r) in
  let+ s := to_string rt (snippet r) in
  let+ u := to_string rt (url r) in
  Ret ("- " ++ t ++ ": " ++ s ++ " (" ++ u ++ ")").

(** The body of the inner loop: a record whose URL is new is pushed,
    with its line of the evidence block. *)
Definition push_unique (st : merged) (r : Source) : outcome merged :=
  if existsb (fun s => strict_equals (url s) (url r)) (allSources st) then Ret st
  else
    let+ line := render r in
    Ret {| allSources := (allSources st ++ [r])%list;
           allSnippets := (allSnippets st ++ [line])%list |}.

(** The two nested loops, run over the results each query returned. *)
Definition mergeResults (resultss : list (list Source)) : outcome merged :=
  foldM (fun st results => foldM push_unique results st) resultss nothing_merged.

End WithRuntime.

End ToolCalling.

(** * Arithmetic of the confidence *)

Section ConfidenceFacts.

Lemma leb_of_Z (a b : Z) : JsNumber.leb (of_Z a) (of_Z b) = (a <=? b)%Z.
Proof.
  unfold of_Z; simpl.
  destruct (Z.leb_spec a b) as [H | H].
  - apply Qle_bool_iff. rewrite <- Zle_Qle. exact H.
  - destruct (Qle_bool (inject_Z a) (inject_Z b)) eqn:E; [| reflexivity].
    apply Qle_bool_iff in E. rewrite <- Zle_Qle in E. lia.
Qed.

Definition clampZ (z : Z) : Z := Z.min 100 (Z.max 0 z).

Lemma clampZ_range (z : Z) : (0 <= clampZ z <= 100)%Z.
Proof. unfold clampZ. lia. Qed.

Lemma clamp_of_Z (z : Z) :
  Math_min (of_Z 100) (Math_max (of_Z 0) (of_Z z)) = of_Z (clampZ z).
Proof.
  unfold Math_max. cbn [is_nan of_Z orb]. fold (of_Z 0) (of_Z z).
  rewrite leb_of_Z. unfold clampZ.
  destruct (Z.leb_spec 0 z) as [H | H];
    unfold Math_min; cbn [is_nan of_Z orb];
    [fold (of_Z 100) (of_Z z) | fold (of_Z 100) (of_Z 0)];
    rewrite leb_of_Z;
    [destruct (Z.leb_spec 100 z) | destruct (Z.leb_spec 100 0)];
    unfold of_Z; do 2 f_equal; lia.
Qed.

Lemma clampRound_Fin (q : Q) :
  clampRound (Fin q) = of_Z (clampZ (Qfloor (q + (1 # 2)))).
Proof. unfold clampRound. cbn [Math_round]. apply clamp_of_Z. Qed.

Lemma clampRound_cases (n : number) :
  match n with
  | Fin q => clampRound n = of_Z (clampZ (Qfloor (q + (1 # 2))))
  | PosInf => clampRound n = of_Z 100
  | NegInf => clampRound n = of_Z 0
  | NaN => clampRound n = NaN
  end.
Proof. destruct n; [apply clampRound_Fin | reflexivity ..]. Qed.

Lemma Qfloor_half_of_Z (z : Z) : Qfloor (inject_Z z + (1 # 2)) = z.
Proof.
  assert (L : (z <= Qfloor (inject_Z z + (1 # 2)))%Z).
  { rewrite <- (Qfloor_Z z) at 1. apply Qfloor_resp_le.
    rewrite <- (Qplus_0_r (inject_Z z)) at 1.
    apply Qplus_le_r. discriminate. }
  assert (U : (Qfloor (inject_Z z + (1 # 2)) < z + 1)%Z).
  { apply Z.lt_le_trans with (m := (Qfloor (inject_Z (z + 1)))).
    2: rewrite Qfloor_Z; lia.
    rewrite Qfloor_Z.
    rewrite Zlt_Qlt.
    apply Qle_lt_trans with (y := (inject_Z z + (1 # 2))%Q).
    - apply Qfloor_le.
    - rewrite inject_Z_plus. apply Qplus_lt_r. reflexivity. }
  lia.
Qed.

(** Clamping is idempotent: a value that went through [clampRound] is
    left as it is by a second pass. *)
Lemma clampRound_idempotent (n : number) :
  clampRound (clampRound n) = clampRound n.
Proof.
  destruct n; try reflexivity.
  rewrite clampRound_Fin. unfold of_Z at 1. rewrite clampRound_Fin.
  rewrite Qfloor_half_of_Z. unfold of_Z. do 2 f_equal.
  unfold clampZ. lia.
Qed.

Lemma Math_round_of_Z (z : Z) : Math_round (of_Z z) = of_Z z.
Proof. unfold of_Z. cbn [Math_round]. rewrite Qfloor_half_of_Z. reflexivity. Qed.

Lemma Math_max_0_Fin (q : Q) :
  Math_max (of_Z 0) (Fin q) = if Qle_bool (inject_Z 0) q then Fin q else of_Z 0.
Proof. reflexivity. Qed.

Lemma Math_min_100_Fin (q : Q) :
  Math_min (of_Z 100) (Fin q) = if Qle_bool (inject_Z 100) q then of_Z 100 else Fin q.
Proof. reflexivity. Qed.

Lemma Qfloor_half_ge (z : Z) (q : Q) :
  (inject_Z z <= q)%Q -> (z <= Qfloor (q + (1 # 2)))%Z.
Proof.
  intros H. rewrite <- (Qfloor_Z z). apply Qfloor_resp_le.
  apply Qle_trans with (y := q); [exact H |].
  rewrite <- (Qplus_0_r q) at 1. apply Qplus_le_r. discriminate.
Qed.

Lemma Qfloor_half_le (z : Z) (q : Q) :
  Qle_bool (inject_Z z) q = false -> (Qfloor (q + (1 # 2)) <= z)%Z.
Proof.
  intros E.
  destruct (Z.le_gt_cases (Qfloor (q + (1 # 2))) z) as [L | G]; [exact L | exfalso].
  assert (C : Qle_bool (inject_Z z) q = true); [| congruence].
  apply Qle_bool_iff.
  assert (G' : (z + 1 <= Qfloor (q + (1 # 2)))%Z) by lia.
  rewrite Zle_Qle in G'.
  pose proof (Qfloor_le (q + (1 # 2))) as F.
  assert (T : (inject_Z (z + 1) <= q + (1 # 2))%Q) by (eapply Qle_trans; eassumption).
  apply Qplus_le_l with (z := (1 # 2)%Q).
  eapply Qle_trans; [| exact T].
  rewrite inject_Z_plus. apply Qplus_le_r. discriminate.
Qed.

(** An integer of the range is a fixed point. *)
Lemma clampRound_fixed (z : Z) :
  (0 <= z <= 100)%Z -> clampRound (of_Z z) = of_Z z.
Proof.
  intros R. unfold of_Z at 1. rewrite clampRound_Fin, Qfloor_half_of_Z.
  unfold of_Z, clampZ. do 2 f_equal. lia.
Qed.

(** Rounding first and clamping afterwards, as the code does, is the
    same as clamping first and rounding afterwards, as the spec words it. *)
Lemma clampRound_is_clamp_then_round (n : number) :
  clampRound n = clamp_then_round n.
Proof.
  destruct n; try reflexivity.
  rewrite clampRound_Fin. unfold clamp_then_round.
  rewrite Math_max_0_Fin.
  destruct (Qle_bool (inject_Z 0) q) eqn:E0.
  - rewrite Math_min_100_Fin.
    pose proof (Qfloor_half_ge 0 q (proj1 (Qle_bool_iff _ _) E0)) as L0.
    destruct (Qle_bool (inject_Z 100) q) eqn:E1.
    + rewrite Math_round_of_Z.
      pose proof (Qfloor_half_ge 100 q (proj1 (Qle_bool_iff _ _) E1)) as L1.
      unfold of_Z, clampZ. do 2 f_equal. lia.
    + pose proof (Qfloor_half_le 100 q E1) as U1.
      unfold of_Z, clampZ. cbn [Math_round]. do 2 f_equal. lia.
  - pose proof (Qfloor_half_le 0 q E0) as U0.
    change (Math_min (of_Z 100) (of_Z 0)) with (of_Z 0).
    rewrite Math_round_of_Z.
    unfold of_Z, clampZ. do 2 f_equal. lia.
Qed.

(** [Math.round] picks an integer at distance at most one half. *)
Lemma Math_round_nearest (q : Q) :
  (q - (1 # 2) < inject_Z (Qfloor (q + (1 # 2))) /\
   inject_Z (Qfloor (q + (1 # 2))) <= q + (1 # 2))%Q.
Proof.
  split.
  - pose proof (Qlt_floor (q + (1 # 2))) as H.
    rewrite inject_Z_plus in H.
    apply Qplus_lt_l with (z := inject_Z 1).
    eapply Qle_lt_trans; [| exact H].
    unfold Qminus. rewrite <- Qplus_assoc.
    apply Qplus_le_r. discriminate.
  - apply Qfloor_le.
Qed.

End ConfidenceFacts.

(** * The sanitized verdict and confidence *)

Section SanitizerFacts.

Lemma is_json_lookup (k : string) (fs : list (string * value)) (v : value) :
  forallb (fun kv => is_json (snd kv)) fs = true ->
  lookup k fs = Some v -> is_json v = true.
Proof.
  induction fs as [| [k' v'] fs IH]; simpl; [discriminate |].
  intros H. apply andb_true_iff in H as [Hv Hfs].
  destruct (k =? k').
  - intros E. injection E as <-. exact Hv.
  - apply IH, Hfs.
Qed.

(** A field read from a parsed candidate is never NaN. *)
Lemma json_field_not_nan (candidate : value) (k : string) :
  is_json candidate = true -> get_opt candidate k <> VNum NaN.
Proof.
  intros J. unfold get_opt.
  destruct candidate; simpl in *; try discriminate.
  - destruct (k =? "link"); discriminate.
  - destruct (lookup k fields) eqn:E; [| discriminate].
    intros ->. apply (is_json_lookup _ _ _ J) in E. discriminate.
Qed.

Lemma get_prop_get_opt (candidate : value) (k : string) :
  nullish candidate = false -> get_prop candidate k = Ret (get_opt candidate k).
Proof.
  unfold get_opt. destruct candidate; simpl; try discriminate; reflexivity.
Qed.

Lemma sanitize_fields (candidate : value) :
  nullish candidate = false ->
  sanitize candidate =
  Ret [ ("verdict", sanitizeVerdict (get_opt candidate "verdict"));
        ("confidence", sanitizeConfidence (get_opt candidate "confidence"));
        ("explanation", sanitizeExplanation (get_opt candidate "explanation"));
        ("redFlags", sanitizeRedFlags (get_opt candidate "redFlags")) ].
Proof.
  intros N. unfold sanitize. rewrite !(get_prop_get_opt _ _ N). reflexivity.
Qed.

Lemma sanitizeConfidence_range (c : value) :
  c <> VNum NaN ->
  exists z : Z, sanitizeConfidence c = VNum (of_Z z) /\ (0 <= z <= 100)%Z.
Proof.
  intros H. destruct c as [| | b | n | s | l | fs | f];
    try (exists 50%Z; split; [reflexivity | lia]).
  pose proof (clampRound_cases n) as C.
  destruct n as [q | | |]; simpl.
  - rewrite C. eexists; split; [reflexivity | apply clampZ_range].
  - exists 100%Z. split; [rewrite C; reflexivity | lia].
  - exists 0%Z. split; [rewrite C; reflexivity | lia].
  - contradiction H; reflexivity.
Qed.

Lemma same_value_zero_string (v : value) (s : string) :
  same_value_zero (VStr s) v = true <-> v = VStr s.
Proof.
  destruct v; simpl; split; try discriminate; intros H.
  - apply String.eqb_eq in H. congruence.
  - injection H as ->. apply String.eqb_refl.
Qed.

Lemma verdicts_includes (v : value) :
  Array_includes verdicts v = true <-> In v verdicts.
Proof.
  unfold Array_includes, verdicts. cbn [existsb In].
  rewrite !orb_true_iff, !same_value_zero_string.
  intuition (auto; try discriminate).
Qed.

End SanitizerFacts.

(** C1: the confidence of the sanitized response is an integer between 0
    and 100 for every candidate [JSON.parse] can produce on which the
    sanitizer runs (any parsed value but [null]).  A numeric candidate
    confidence is clamped to [0,100] and rounded to the nearest integer,
    anything else becomes 50, and sanitizing the result again leaves it
    as it is. *)
Theorem confidence_sanitized (candidate : value) :
  is_json candidate = true ->
  candidate <> VNull ->
  exists (fields : list (string * value)) (z : Z),
    sanitize candidate = Ret fields /\
    lookup "confidence" fields = Some (VNum (of_Z z)) /\
    (0 <= z <= 100)%Z /\
    (forall n, get_opt candidate "confidence" = VNum n ->
               of_Z z = clamp_then_round n) /\
    (typeof (get_opt candidate "confidence") <> "number" -> z = 50%Z) /\
    sanitizeConfidence (VNum (of_Z z)) = VNum (of_Z z).
Proof.
  intros J NN.
  assert (N : nullish candidate = false).
  { destruct candidate; try reflexivity; [discriminate J | contradiction NN; reflexivity]. }
  pose proof (json_field_not_nan candidate "confidence" J) as NaNfree.
  destruct (sanitizeConfidence_range _ NaNfree) as [z [Ez Rz]].
  exists [ ("verdict", sanitizeVerdict (get_opt candidate "verdict"));
           ("confidence", sanitizeConfidence (get_opt candidate "confidence"));
           ("explanation", sanitizeExplanation (get_opt candidate "explanation"));
           ("redFlags", sanitizeRedFlags (get_opt candidate "redFlags")) ], z.
  split; [apply sanitize_fields, N |].
  split; [simpl; rewrite Ez; reflexivity |].
  split; [exact Rz |].
  split; [| split].
  - intros n En. rewrite En in Ez. simpl in Ez.
    rewrite <- clampRound_is_clamp_then_round. congruence.
  - intros T. destruct (get_opt candidate "confidence");
      try (simpl in Ez; unfold of_Z, inject_Z in Ez; injection Ez; lia).
    contradiction T; reflexivity.
  - change (VNum (clampRound (of_Z z)) = VNum (of_Z z)).
    rewrite (clampRound_fixed z Rz). reflexivity.
Qed.

Definition sample_candidate : value :=
  VObj [ ("verdict", VStr "fake");
         ("confidence", VNum (Fin (873 # 10)));
         ("explanation", VStr "No outlet reports it.");
         ("redFlags", VArr [VStr "anonymous source"; VNum (of_Z 3)]) ].

Lemma confidence_sanitized_witness :
  exists (fields : list (string * value)) (z : Z),
    sanitize sample_candidate = Ret fields /\
    lookup "confidence" fields = Some (VNum (of_Z z)) /\
    (0 <= z <= 100)%Z /\
    (forall n, get_opt sample_candidate "confidence" = VNum n ->
               of_Z z = clamp_then_round n) /\
    (typeof (get_opt sample_candidate "confidence") <> "number" -> z = 50%Z) /\
    sanitizeConfidence (VNum (of_Z z)) = VNum (of_Z z).
Proof.
  apply (confidence_sanitized sample_candidate); [reflexivity | discriminate].
Defined.

(** C2: the verdict of the sanitized response is the candidate's verdict
    when that is one of the strings real, fake and uncertain, and
    uncertain for every other candidate value (another string, a number,
    no field at all); so it is always one of the three. *)
Theorem verdict_sanitized (candidate : value) :
  nullish candidate = false ->
  exists fields : list (string * value),
    sanitize candidate = Ret fields /\
    (In (get_opt candidate "verdict") verdicts ->
     lookup "verdict" fields = Some (get_opt candidate "verdict")) /\
    (~ In (get_opt candidate "verdict") verdicts ->
     lookup "verdict" fields = Some (VStr "uncertain")) /\
    (exists v, lookup "verdict" fields = Some v /\ In v verdicts).
Proof.
  intros N. eexists. split; [apply sanitize_fields, N |].
  cbn [lookup String.eqb Ascii.eqb Bool.eqb]. unfold sanitizeVerdict.
  destruct (Array_includes verdicts (get_opt candidate "verdict")) eqn:E.
  - apply verdicts_includes in E.
    split; [reflexivity |]. split; [contradiction |]. eauto.
  - assert (NI : ~ In (get_opt candidate "verdict") verdicts).
    { intros I. apply verdicts_includes in I. congruence. }
    split; [contradiction |]. split; [reflexivity |].
    exists (VStr "uncertain"). split; [reflexivity | simpl; auto].
Qed.

Lemma verdict_sanitized_witness :
  exists fields : list (string * value),
    sanitize sample_candidate = Ret fields /\
    (In (get_opt sample_candidate "verdict") verdicts ->
     lookup "verdict" fields = Some (get_opt sample_candidate "verdict")) /\
    (~ In (get_opt sample_candidate "verdict") verdicts ->
     lookup "verdict" fields = Some (VStr "uncertain")) /\
    (exists v, lookup "verdict" fields = Some v /\ In v verdicts).
Proof.
  apply (verdict_sanitized sample_candidate). reflexivity.
Defined.

(** * Reasoning about runs *)

(** [returns P m]: whatever [m] returns satisfies [P]. *)
Definition returns {A} (P : A -> Prop) (m : M A) : Prop :=
  forall log a log', m log = (Ret a, log') -> P a.

Section Returns.

Context {A B : Type}.

Lemma returns_ret (P : A -> Prop) (a : A) : P a -> returns P (ret a).
Proof. intros H log a' log' E. injection E as <- _. exact H. Qed.

Lemma returns_throw (P : A -> Prop) (e : exn) : returns P (throw e).
Proof. intros log a log' E. discriminate E. Qed.

Lemma returns_bind (P : B -> Prop) (m : M A) (k : A -> M B) :
  (forall a, returns P (k a)) -> returns P (bind m k).
Proof.
  intros H log b log'. unfold bind.
  destruct (m log) as [[a | e] l]; [apply H | discriminate].
Qed.

(** A [try] whose handler returns always returns. *)
Lemma try_catch_total (P : A -> Prop) (m : M A) (h : exn -> A) :
  returns P m -> (forall e, P (h e)) ->
  forall log, exists a log', try_catch m (fun e => ret (h e)) log = (Ret a, log') /\ P a.
Proof.
  intros Hm Hh log. unfold try_catch.
  destruct (m log) as [[a | e] l] eqn:E.
  - exists a, l. split; [reflexivity | apply (Hm _ _ _ E)].
  - exists (h e), l. split; [reflexivity | apply Hh].
Qed.

End Returns.

Ltac returns_step :=
  lazymatch goal with
  | |- returns _ (ret _) => apply returns_ret
  | |- returns _ (throw _) => apply returns_throw
  | |- returns _ (bind _ _) => apply returns_bind; intros ?
  | |- returns _ (if ?b then _ else _) => destruct b
  | |- returns _ (match ?x with _ => _ end) => destruct x
  end.

(** ** The CORS policy *)

Fixpoint split_commas (s cur : string) : list string :=
  match s with
  | EmptyString => [trim cur]
  | String c r =>
      if Ascii.eqb c ","%char then trim cur :: split_commas r EmptyString
      else split_commas r (cur ++ String c EmptyString)
  end.

(** The names a comma-separated header value lists. *)
Definition header_tokens (v : string) : list string := split_commas v EmptyString.

Definition allow_origin_any (r : Response) : Prop :=
  header "Access-Control-Allow-Origin" (headers r) = Some "*".

Definition permissive_cors (r : Response) : Prop :=
  allow_origin_any r /\
  exists allowed,
    header "Access-Control-Allow-Headers" (headers r) = Some allowed /\
    incl ["authorization"; "content-type"; "apikey"] (header_tokens allowed).

Lemma corsHeaders_permissive (b : option value) (st : option Z) :
  permissive_cors (new_Response b st corsHeaders).
Proof.
  split; [reflexivity |].
  eexists. split; [reflexivity |].
  intros t [<- | [<- | [<- | []]]]; vm_compute; tauto.
Qed.

(** Sample runtime and requests for the closed instances below. *)
Definition sample_runtime : Runtime :=
  {| JSON_parse := fun s =>
       if s =? "{}" then Ret (VObj [])
       else if s =? "null" then Ret VNull
       else Throw (ErrorObj "SyntaxError" "Unexpected token");
     ToString := fun _ => Ret "[object Object]" |}.

Definition gateway_answer (content : value) : fetch_outcome :=
  Resolved {| up_status := 200;
              up_text := Ret "";
              up_json := Ret (VObj [ ("choices",
                                      VArr [ VObj [ ("message",
                                                     VObj [("content", content)]) ] ]) ]) |}.

Definition offline : World :=
  {| SERPAPI_KEY := None;
     LOVABLE_API_KEY := Some "gateway-key";
     today := "2026-02-06";
     net := fun _ => Rejected (ErrorObj "TypeError" "error sending request") |}.

Definition preflight : Request :=
  {| method := "OPTIONS";
     req_json := Throw (ErrorObj "SyntaxError" "Unexpected end of JSON input") |}.

Definition post (parsed : value) : Request :=
  {| method := "POST"; req_json := Ret parsed |}.

(** C3, as the code has it: a request whose method is OPTIONS is
    answered, by the first and by the third handler, without any outbound
    call, with an empty body, the permissive CORS headers (any origin;
    authorization, content-type and apikey among the allowed headers) and
    the status a response has when none is given, 200. *)
Theorem options_preflight (rt : Runtime) (w : World) (req : Request)
    (log : list call) :
  method req = "OPTIONS" ->
  exists resp,
    Plain.handler rt w req log = (Ret resp, log) /\
    Grounded.handler rt w req log = (Ret resp, log) /\
    status resp = 200%Z /\
    body resp = None /\
    permissive_cors resp.
Proof.
  intros E. exists (new_Response None None corsHeaders).
  unfold Plain.handler, Grounded.handler. rewrite E. cbn [String.eqb Ascii.eqb Bool.eqb].
  repeat split; try reflexivity.
  apply corsHeaders_permissive.
Qed.

Lemma options_preflight_witness :
  exists resp,
    Plain.handler sample_runtime offline preflight [] = (Ret resp, []) /\
    Grounded.handler sample_runtime offline preflight [] = (Ret resp, []) /\
    status resp = 200%Z /\
    body resp = None /\
    permissive_cors resp.
Proof.
  apply (options_preflight sample_runtime offline preflight []). reflexivity.
Defined.

(** C3 as stated fails: the preflight response has status 200, not 204. *)
Lemma options_preflight_is_not_204 :
  method preflight = "OPTIONS" /\
  ~ (exists resp log,
       Plain.handler sample_runtime offline preflight [] = (Ret resp, log) /\
       status resp = 204%Z).
Proof.
  split; [reflexivity |].
  intros [resp [log [E S]]]. vm_compute in E. injection E as <- _.
  discriminate S.
Qed.

(** ** Input validation *)

Lemma invalid_text_iff (text : value) :
  invalid_text text = true <-> (forall s, text = VStr s -> trim s = EmptyString).
Proof.
  unfold invalid_text. split.
  - intros H s ->. simpl in H.
    destruct (trim s) eqn:E; [reflexivity |].
    destruct s; [discriminate E | simpl in H; discriminate H].
  - intros H. destruct text as [| | b | n | s | l | fs | f]; try reflexivity.
    + destruct b; reflexivity.
    + simpl. rewrite orb_true_r. reflexivity.
    + rewrite (H s eq_refl). simpl. apply orb_true_r.
Qed.

Definition bad_request : Response :=
  {| status := 400;
     headers := jsonHeaders;
     body := Some (VObj [("error", VStr "Please provide text to analyze")]) |}.

(** A text of white space only, none of it ASCII: IDEOGRAPHIC SPACE,
    NO-BREAK SPACE, EM SPACE and the byte order mark. *)
Definition wide_blank : string :=
  (of_point 12288 ++ of_point 160 ++ of_point 8195 ++ of_point 65279)%string.

(** C7, as the code has it: when the body of a request is a JSON value
    other than [null] and has no [text], a [text] that is not a string,
    or one that is blank after trimming, the first and the third handler
    answer 400 with the body [{ error: "Please provide text to analyze" }]
    and make no outbound call: the log of calls is as it was. *)
Theorem blank_text_rejected (rt : Runtime) (w : World) (req : Request)
    (parsed : value) (log : list call) :
  method req <> "OPTIONS" ->
  req_json req = Ret parsed ->
  nullish parsed = false ->
  (forall s, get_opt parsed "text" = VStr s -> trim s = EmptyString) ->
  Plain.handler rt w req log = (Ret bad_request, log) /\
  Grounded.handler rt w req log = (Ret bad_request, log).
Proof.
  intros Hm Hj Hn Ht.
  apply String.eqb_neq in Hm. apply invalid_text_iff in Ht.
  unfold Plain.handler, Grounded.handler. rewrite Hm.
  unfold try_catch, Plain.analyze, Grounded.analyze, bind, lift.
  rewrite Hj, (get_prop_get_opt _ _ Hn), Ht.
  split; reflexivity.
Qed.

Lemma blank_text_rejected_witness :
  Plain.handler sample_runtime offline
    (post (VObj [("text", VStr wide_blank)])) [] = (Ret bad_request, []) /\
  Grounded.handler sample_runtime offline
    (post (VObj [("text", VStr wide_blank)])) [] = (Ret bad_request, []).
Proof.
  apply (blank_text_rejected sample_runtime offline
           (post (VObj [("text", VStr wide_blank)]))
           (VObj [("text", VStr wide_blank)]) []).
  - discriminate.
  - reflexivity.
  - reflexivity.
  - intros s E. vm_compute in E. injection E as <-. reflexivity.
Defined.

(** C7 as stated fails at the body [null]: it is valid JSON and has no
    [text], but reading [text] from it throws, and the catch-all of both
    handlers answers 500, not 400, with the message of the TypeError. *)
Lemma null_body_is_not_400 :
  method (post VNull) <> "OPTIONS" /\
  req_json (post VNull) = Ret VNull /\
  get_opt VNull "text" = VUndefined /\
  (exists msg,
     Plain.handler sample_runtime offline (post VNull) [] =
     (Ret (error_Response 500 msg), [])) /\
  (exists msg,
     Grounded.handler sample_runtime offline (post VNull) [] =
     (Ret (error_Response 500 msg), [])) /\
  Plain.handler sample_runtime offline (post VNull) [] <> (Ret bad_request, []) /\
  Grounded.handler sample_runtime offline (post VNull) [] <> (Ret bad_request, []).
Proof.
  split; [discriminate |]. split; [reflexivity |]. split; [reflexivity |].
  split; [eexists; reflexivity |]. split; [eexists; reflexivity |].
  split; discriminate.
Qed.

(** The same holds of every body that has no fields to read, and of a
    body that is no JSON: the error the read throws is answered 500. *)
Lemma unreadable_body_is_500 (rt : Runtime) (w : World) (req : Request)
    (log : list call) :
  method req <> "OPTIONS" ->
  (exists e, req_json req = Throw e) \/
  (exists parsed, req_json req = Ret parsed /\ nullish parsed = true) ->
  exists msg,
    Plain.handler rt w req log = (Ret (error_Response 500 msg), log) /\
    Grounded.handler rt w req log = (Ret (error_Response 500 msg), log).
Proof.
  intros Hm H. apply String.eqb_neq in Hm.
  unfold Plain.handler, Grounded.handler. rewrite Hm.
  unfold try_catch, Plain.analyze, Grounded.analyze, bind, lift.
  destruct H as [[e E] | [parsed [E N]]]; rewrite E.
  - eexists. split; reflexivity.
  - destruct parsed; try discriminate N; eexists; split; reflexivity.
Qed.

(** ** Every response carries the CORS header *)

Definition cors_and_status (r : Response) : Prop :=
  allow_origin_any r /\ In (status r) [200%Z; 400%Z; 500%Z].

Lemma cors_and_status_ok (fields : list (string * value)) :
  cors_and_status (ok_Response fields).
Proof. split; [reflexivity | simpl; auto]. Qed.

Lemma cors_and_status_400 (msg : string) :
  cors_and_status (error_Response 400 msg).
Proof. split; [reflexivity | simpl; auto]. Qed.

Lemma cors_and_status_500 (msg : string) :
  cors_and_status (error_Response 500 msg).
Proof. split; [reflexivity | simpl; auto]. Qed.

#[local] Hint Resolve cors_and_status_ok cors_and_status_400 cors_and_status_500 : core.

Ltac returns_all :=
  repeat first
    [ returns_step
    | progress cbv zeta
    | progress unfold Grounded.fallbackAnalysis, Grounded.fallback_conclude,
        Grounded.conclude, Plain.conclude ];
  auto.

Lemma Plain_analyze_cors (rt : Runtime) (w : World) (req : Request) :
  returns cors_and_status (Plain.analyze rt w req).
Proof. unfold Plain.analyze. returns_all. Qed.

Lemma Grounded_analyze_cors (rt : Runtime) (w : World) (req : Request) :
  returns cors_and_status (Grounded.analyze rt w req).
Proof. unfold Grounded.analyze. returns_all. Qed.

(** C9: whatever the request, the runtime and the network do, the first
    and the third handler return a response (no exception leaves them),
    its status is 200, 400 or 500, and it carries
    [Access-Control-Allow-Origin: *]. *)
Theorem every_response_allows_any_origin (rt : Runtime) (w : World)
    (req : Request) (log : list call) :
  (exists resp log',
     Plain.handler rt w req log = (Ret resp, log') /\ cors_and_status resp) /\
  (exists resp log',
     Grounded.handler rt w req log = (Ret resp, log') /\ cors_and_status resp).
Proof.
  split.
  - unfold Plain.handler. destruct (method req =? "OPTIONS").
    + eexists _, _. split; [reflexivity |]. split; [reflexivity | simpl; auto].
    + apply (try_catch_total cors_and_status (Plain.analyze rt w req)
               (fun e => error_Response 500 (error_message e))).
      * apply Plain_analyze_cors.
      * intros e. apply cors_and_status_500.
  - unfold Grounded.handler. destruct (method req =? "OPTIONS").
    + eexists _, _. split; [reflexivity |]. split; [reflexivity | simpl; auto].
    + apply (try_catch_total cors_and_status (Grounded.analyze rt w req)
               (fun e => error_Response 500 (error_message e))).
      * apply Grounded_analyze_cors.
      * intros e. apply cors_and_status_500.
Qed.

(** * The decision rule *)

Section Includes.

(** A byte that some white-space character contains. *)
Definition ws_byte (c : ascii) : bool :=
  ascii_ws (code c) || (128 <=? code c)%nat.

Fixpoint no_ws (s : string) : bool :=
  match s with
  | String c r => negb (ws_byte c) && no_ws r
  | EmptyString => true
  end.

(** The first [k] bytes of [s], as many of them as it has, are bytes of
    white space. *)
Fixpoint ws_bytes (k : nat) (s : string) : bool :=
  match k, s with
  | S k', String c r => ws_byte c && ws_bytes k' r
  | _, _ => true
  end.

Lemma ws2_bytes (a b : nat) :
  ws2 a b = true -> (128 <= a /\ 128 <= b)%nat.
Proof.
  unfold ws2. intros H.
  repeat (rewrite andb_true_iff in H || rewrite Nat.eqb_eq in H).
  lia.
Qed.

Lemma ws3_bytes (a b x : nat) :
  ws3 a b x = true -> (128 <= a /\ 128 <= b /\ 128 <= x)%nat.
Proof.
  unfold ws3. intros H.
  repeat (rewrite orb_true_iff in H || rewrite andb_true_iff in H ||
          rewrite Nat.eqb_eq in H || rewrite Nat.leb_le in H).
  lia.
Qed.

Lemma ws_byte_high (c : ascii) : (128 <= code c)%nat -> ws_byte c = true.
Proof.
  intros H. unfold ws_byte. apply Nat.leb_le in H. rewrite H. apply orb_true_r.
Qed.

Lemma ws_width_bytes (s : string) : ws_bytes (ws_width s) s = true.
Proof.
  destruct s as [| c r]; [reflexivity |]. cbn [ws_width].
  destruct (ascii_ws (code c)) eqn:A.
  { cbn [ws_bytes]. unfold ws_byte. rewrite A. destruct r; reflexivity. }
  destruct r as [| d r]; [reflexivity |].
  destruct (ws2 (code c) (code d)) eqn:B.
  { apply ws2_bytes in B as [Hc Hd]. cbn [ws_bytes].
    rewrite (ws_byte_high _ Hc), (ws_byte_high _ Hd). destruct r; reflexivity. }
  destruct r as [| e r]; [reflexivity |].
  destruct (ws3 (code c) (code d) (code e)) eqn:C; [| reflexivity].
  apply ws3_bytes in C as [Hc [Hd He]]. cbn [ws_bytes].
  rewrite (ws_byte_high _ Hc), (ws_byte_high _ Hd), (ws_byte_high _ He).
  destruct r; reflexivity.
Qed.

Lemma ws_width_le (s : string) : (ws_width s <= String.length s)%nat.
Proof.
  destruct s as [| c [| d [| e r]]]; cbn [ws_width String.length].
  - lia.
  - destruct (ascii_ws (code c)); lia.
  - destruct (ascii_ws (code c)); [lia |].
    destruct (ws2 (code c) (code d)); lia.
  - destruct (ascii_ws (code c)); [lia |].
    destruct (ws2 (code c) (code d)); [lia |].
    destruct (ws3 (code c) (code d) (code e)); lia.
Qed.

Lemma append_empty_r (s : string) : s ++ EmptyString = s.
Proof. induction s as [| c s IH]; simpl; [reflexivity | rewrite IH; reflexivity]. Qed.

Lemma append_assoc (a b c : string) : (a ++ b) ++ c = a ++ b ++ c.
Proof. induction a as [| x a IH]; simpl; [reflexivity | rewrite IH; reflexivity]. Qed.

Lemma prefix_app (n rest : string) : prefix n (n ++ rest) = true.
Proof.
  induction n as [| c n IH]; simpl; [destruct rest; reflexivity |].
  destruct (ascii_dec c c) as [_ | N]; [exact IH | contradiction N; reflexivity].
Qed.

Lemma prefix_split (n s : string) :
  prefix n s = true -> exists rest, s = n ++ rest.
Proof.
  revert s. induction n as [| c n IH]; intros s H.
  - exists s. reflexivity.
  - destruct s as [| d s]; simpl in H; [discriminate |].
    destruct (ascii_dec c d) as [<- | _]; [| discriminate].
    destruct (IH s H) as [rest ->]. exists rest. reflexivity.
Qed.

(** [includes] is substring search. *)
Lemma includes_spec (n s : string) :
  includes n s = true <-> exists before after, s = before ++ n ++ after.
Proof.
  split.
  - induction s as [| c s IH]; cbn [includes]; intros H.
    + rewrite orb_false_r in H. destruct (prefix_split _ _ H) as [rest E].
      exists EmptyString, rest. exact E.
    + apply orb_true_iff in H as [H | H].
      * destruct (prefix_split _ _ H) as [rest E].
        exists EmptyString, rest. exact E.
      * destruct (IH H) as [before [after ->]].
        exists (String c before), after. reflexivity.
  - intros [before [after ->]].
    induction before as [| c before IH].
    + change (EmptyString ++ n ++ after) with (n ++ after).
      destruct (n ++ after) eqn:E; cbn [includes];
        rewrite <- E, prefix_app; reflexivity.
    + change (String c before ++ n ++ after) with (String c (before ++ n ++ after)).
      cbn [includes]. rewrite IH. apply orb_true_r.
Qed.

Lemma prefix_cons_ws (c : ascii) (n r : string) :
  no_ws n = true -> n <> EmptyString -> ws_byte c = true ->
  prefix n (String c r) = false.
Proof.
  intros W NE Hc. destruct n as [| a n]; [contradiction NE; reflexivity |].
  simpl in *. destruct (ascii_dec a c) as [-> | _]; [| reflexivity].
  rewrite Hc in W. discriminate W.
Qed.

Lemma includes_drop_ws (n : string) :
  no_ws n = true -> n <> EmptyString ->
  forall s pending, ws_bytes pending s = true ->
    includes n (drop_ws pending s) = includes n s.
Proof.
  intros W NE. induction s as [| c s IH]; intros pending Hp; [reflexivity |].
  assert (step : forall k, ws_bytes (S k) (String c s) = true ->
                           includes n (drop_ws k s) = includes n (String c s)).
  { intros k Hk. cbn [ws_bytes] in Hk. apply andb_true_iff in Hk as [Hc Hk].
    rewrite (IH _ Hk). cbn [includes].
    rewrite (prefix_cons_ws c n s W NE Hc). reflexivity. }
  destruct pending as [| k]; cbn [drop_ws].
  - destruct (ws_width (String c s)) as [| k] eqn:E; [reflexivity |].
    apply step. rewrite <- E. apply ws_width_bytes.
  - apply step, Hp.
Qed.

Lemma includes_trimStart (n s : string) :
  no_ws n = true -> n <> EmptyString ->
  includes n (trimStart s) = includes n s.
Proof.
  intros W NE. apply (includes_drop_ws n W NE s 0). reflexivity.
Qed.

(** A word without white space does not occur in white space. *)
Lemma includes_blank (n s : string) :
  no_ws n = true -> n <> EmptyString -> blank s = true ->
  includes n s = false.
Proof.
  intros W NE B. unfold blank in B. apply String.eqb_eq in B.
  rewrite <- (includes_trimStart n s W NE), B.
  destruct n; [contradiction NE |]; reflexivity.
Qed.

Lemma prefix_blank (n s : string) :
  no_ws n = true -> n <> EmptyString -> blank s = true ->
  prefix n s = false.
Proof.
  intros W NE B. pose proof (includes_blank n s W NE B) as I.
  destruct s; cbn [includes] in I; apply orb_false_iff in I; apply I.
Qed.

Lemma prefix_trimEnd (n s : string) :
  no_ws n = true -> prefix n (trimEnd s) = prefix n s.
Proof.
  revert n. induction s as [| c s IH]; intros n W; [reflexivity |].
  destruct n as [| a n]; [cbn [trimEnd]; destruct (blank (String c s)); reflexivity |].
  cbn [trimEnd]. destruct (blank (String c s)) eqn:B.
  - symmetry. apply prefix_blank; [exact W | discriminate | exact B].
  - simpl in W. apply andb_true_iff in W as [Wa Wn].
    simpl. destruct (ascii_dec a c); [apply IH, Wn | reflexivity].
Qed.

Lemma includes_trimEnd (n s : string) :
  no_ws n = true -> n <> EmptyString ->
  includes n (trimEnd s) = includes n s.
Proof.
  intros W NE. induction s as [| c s IH]; [reflexivity |].
  cbn [trimEnd]. destruct (blank (String c s)) eqn:B.
  - rewrite (includes_blank n _ W NE B).
    destruct n; [contradiction NE |]; reflexivity.
  - cbn [includes]. rewrite IH.
    pose proof (prefix_trimEnd n (String c s) W) as P.
    cbn [trimEnd] in P. rewrite B in P. rewrite P. reflexivity.
Qed.

(** Trimming neither removes nor creates an occurrence of a word that
    has no white space in it. *)
Lemma includes_trim (n s : string) :
  no_ws n = true -> n <> EmptyString ->
  includes n (trim s) = includes n s.
Proof.
  intros W NE. unfold trim.
  rewrite (includes_trimEnd _ _ W NE). apply (includes_trimStart _ _ W NE).
Qed.

End Includes.

Lemma Plain_needsLiveSearch_text (answer : string) :
  Plain.needsLiveSearch (VStr answer) = Ret (includes sentinel answer).
Proof.
  unfold Plain.needsLiveSearch. cbn [Method.trim obind].
  rewrite includes_trim; [reflexivity | reflexivity | discriminate].
Qed.

(** C5: whatever text the classifier answers, the claim is taken to need
    live evidence exactly when that text contains LIVE_SEARCH_REQUIRED
    somewhere; this is so in the first handler, which trims the answer
    first, and in the third. *)
Theorem needsLiveSearch_iff_sentinel (answer : string) :
  Plain.needsLiveSearch (VStr answer) = Ret (includes sentinel answer) /\
  Grounded.needsLiveSearch (VStr answer) = Ret (includes sentinel answer) /\
  (includes sentinel answer = true <->
   exists before after, answer = before ++ sentinel ++ after).
Proof.
  split; [| split].
  - apply Plain_needsLiveSearch_text.
  - reflexivity.
  - apply includes_spec.
Qed.

(** The static path, which every answer without the sentinel takes,
    makes no search. *)
Lemma static_path_makes_no_search (rt : Runtime) (w : World)
    (userInput : string) (log : list call) :
  Plain.gather rt w false userInput log = (Ret Plain.no_evidence, log).
Proof. reflexivity. Qed.

(** * An answer that is not JSON *)

Definition default_fields (explanation : string) : list (string * value) :=
  [ ("verdict", VStr "uncertain");
    ("confidence", VNum (of_Z 50));
    ("explanation", VStr explanation);
    ("redFlags", VArr []) ].

Lemma sanitize_default (explanation : string) :
  sanitize (uncertain_default explanation) = Ret (default_fields explanation).
Proof. reflexivity. Qed.

Lemma parseAnalysis_unparsable (rt : Runtime) (explanation content : string)
    (e : exn) :
  JSON_parse rt (jsonStr content) = Throw e ->
  parseAnalysis rt explanation (VStr content) = uncertain_default explanation.
Proof. intros H. unfold parseAnalysis. rewrite H. reflexivity. Qed.

(** C4, as the code has it: when the answer of the Verdict Stage, fences
    stripped, does not parse as JSON, the stage goes on with the default
    candidate (verdict uncertain, confidence 50, no red flags) and the
    handler answers 200 with it.  The explanation of the default is the
    handler's own fixed message, [Plain.parse_default] in the first and
    third handler and [Grounded.fallback_parse_default] in the fallback
    of the third. *)
Theorem unparsable_verdict_defaults (rt : Runtime) (content : string)
    (e : exn) :
  JSON_parse rt (jsonStr content) = Throw e ->
  parseAnalysis rt Plain.parse_default (VStr content) =
    VObj (default_fields "Unable to fully analyze this content. Please try again.") /\
  parseAnalysis rt Grounded.fallback_parse_default (VStr content) =
    VObj (default_fields "Parse error.") /\
  (forall ev log,
     Plain.conclude rt ev (VStr content) log =
     (Ret (ok_Response
             (default_fields "Unable to fully analyze this content. Please try again."
              ++ [ ("sourceMode", VStr (Plain.sourceMode ev));
                   ("sources", VArr (Plain.found ev)) ])%list), log)) /\
  (forall gs log,
     Grounded.conclude rt gs (VStr content) log =
     (Ret (ok_Response
             (default_fields "Unable to fully analyze this content. Please try again."
              ++ [ ("sourceMode",
                    VStr (if (0 <? List.length gs)%nat then "grounded" else "static"));
                   ("sources",
                    VArr (if (0 <? List.length gs)%nat then gs else [])) ])%list),
      log)) /\
  (forall mode srcs log,
     Grounded.fallback_conclude rt mode srcs (VStr content) log =
     (Ret (ok_Response
             (default_fields "Parse error."
              ++ [ ("sourceMode", VStr mode);
                   ("sources", VArr (List.map Grounded.retitle srcs)) ])%list),
      log)).
Proof.
  intros H.
  pose proof (parseAnalysis_unparsable rt Plain.parse_default content e H) as P.
  pose proof (parseAnalysis_unparsable rt Grounded.fallback_parse_default content e H) as F.
  split; [exact P |]. split; [exact F |].
  split; [| split].
  - intros ev log. unfold Plain.conclude. rewrite P. reflexivity.
  - intros gs log. unfold Grounded.conclude.
    change Grounded.parse_default with Plain.parse_default. rewrite P. reflexivity.
  - intros mode srcs log. unfold Grounded.fallback_conclude. rewrite F. reflexivity.
Qed.

Definition prose_answer : string := "I think it is fake.".

Lemma unparsable_verdict_defaults_witness :
  parseAnalysis sample_runtime Plain.parse_default (VStr prose_answer) =
    VObj (default_fields "Unable to fully analyze this content. Please try again.") /\
  parseAnalysis sample_runtime Grounded.fallback_parse_default (VStr prose_answer) =
    VObj (default_fields "Parse error.") /\
  (forall ev log,
     Plain.conclude sample_runtime ev (VStr prose_answer) log =
     (Ret (ok_Response
             (default_fields "Unable to fully analyze this content. Please try again."
              ++ [ ("sourceMode", VStr (Plain.sourceMode ev));
                   ("sources", VArr (Plain.found ev)) ])%list), log)) /\
  (forall gs log,
     Grounded.conclude sample_runtime gs (VStr prose_answer) log =
     (Ret (ok_Response
             (default_fields "Unable to fully analyze this content. Please try again."
              ++ [ ("sourceMode",
                    VStr (if (0 <? List.length gs)%nat then "grounded" else "static"));
                   ("sources",
                    VArr (if (0 <? List.length gs)%nat then gs else [])) ])%list),
      log)) /\
  (forall mode srcs log,
     Grounded.fallback_conclude sample_runtime mode srcs (VStr prose_answer) log =
     (Ret (ok_Response
             (default_fields "Parse error."
              ++ [ ("sourceMode", VStr mode);
                   ("sources", VArr (List.map Grounded.retitle srcs)) ])%list),
      log)).
Proof.
  apply (unparsable_verdict_defaults sample_runtime prose_answer
           (ErrorObj "SyntaxError" "Unexpected token")).
  reflexivity.
Defined.

(** C4 as stated fails on the explanation: the default candidate of the
    first handler explains itself with the handler's message, which is
    not the text [unable to analyze]. *)
Lemma unparsable_verdict_explanation_differs :
  JSON_parse sample_runtime (jsonStr prose_answer)
    = Throw (ErrorObj "SyntaxError" "Unexpected token") /\
  get_opt (parseAnalysis sample_runtime Plain.parse_default (VStr prose_answer))
    "explanation"
    = VStr "Unable to fully analyze this content. Please try again." /\
  get_opt (parseAnalysis sample_runtime Plain.parse_default (VStr prose_answer))
    "explanation"
    <> VStr "unable to analyze".
Proof.
  split; [reflexivity |]. split; [reflexivity |]. discriminate.
Qed.

(** A whole run of the first handler on such an answer. *)
Definition static_world : World :=
  {| SERPAPI_KEY := None;
     LOVABLE_API_KEY := Some "gateway-key";
     today := "2026-02-06";
     net := fun i =>
       match i with
       | O => gateway_answer (VStr "STATIC_ANALYSIS_OK")
       | _ => gateway_answer (VStr prose_answer)
       end |}.

Example prose_answer_run :
  exists log,
    Plain.handler sample_runtime static_world
      (post (VObj [("text", VStr "The moon is made of cheese")])) [] =
    (Ret (ok_Response
            (default_fields "Unable to fully analyze this content. Please try again."
             ++ [ ("sourceMode", VStr "static"); ("sources", VArr []) ])%list),
     log) /\
    List.length log = 2%nat.
Proof. eexists. split; vm_compute; reflexivity. Qed.

(** * Degrading to the static mode *)

(** The text of a gateway reply: [data.choices?.[0]?.message?.content]. *)
Definition reply_content (data : value) : value :=
  get_opt (get_opt (first_opt (get_opt data "choices")) "message") "content".

(** The [i]-th outbound call of the run is a gateway call that succeeds
    with [content]. *)
Definition answers (w : World) (i : nat) (content : value) : Prop :=
  exists r data,
    net w i = Resolved r /\ up_ok r = true /\ up_json r = Ret data /\
    nullish data = false /\ reply_content data = content /\
    truthy content = true.


Section PlainRuns.

Variable rt : Runtime.
Variable w : World.

Lemma Plain_callGemini_answers (apiKey system user : string) (content : value)
    (log : list call) :
  answers w (List.length log) content ->
  Plain.callGemini w apiKey system user log =
  (Ret (GContent content tt),
   (log ++ [Gateway apiKey (chat_payload system user)])%list).
Proof.
  intros [r [data [Hn [Hok [Hj [Hd [Hc Ht]]]]]]].
  unfold Plain.callGemini, gateway_reply, bind, fetch, lift.
  rewrite Hn, Hok. cbn [negb]. rewrite Hj.
  unfold ret. cbv beta iota.
  rewrite (get_prop_get_opt _ _ Hd).
  fold (reply_content data). rewrite Hc, Ht. reflexivity.
Qed.


End PlainRuns.


Definition live_world : World :=
  {| SERPAPI_KEY := None;
     LOVABLE_API_KEY := Some "gateway-key";
     today := "2026-02-06";
     net := fun i =>
       match i with
       | O => gateway_answer (VStr "LIVE_SEARCH_REQUIRED")
       | _ => gateway_answer (VStr "{}")
       end |}.

Definition election_claim : value :=
  VObj [("text", VStr "The minister resigned this morning")].


(** * The search of the second handler *)

Section SearchTotal.

Variable rt : Runtime.
Variable w : World.

Lemma returns_lift_bind {A B} (P : B -> Prop) (o : outcome A) (k : A -> M B) :
  (forall a, o = Ret a -> returns P (k a)) -> returns P (bind (lift o) k).
Proof.
  intros H log b log'. unfold bind, lift.
  destruct o as [a | e]; [apply (H a eq_refl) | discriminate].
Qed.

Lemma mapM_length {A B} (f : A -> outcome B) (l : list A) (l' : list B) :
  mapM f l = Ret l' -> List.length l' = List.length l.
Proof.
  revert l'. induction l as [| x l IH]; intros l' H; simpl in H.
  - injection H as <-. reflexivity.
  - destruct (f x) as [y | e]; [| discriminate]. simpl in H.
    destruct (mapM f l) as [ys | e]; [| discriminate]. simpl in H.
    injection H as <-. simpl. f_equal. apply IH. reflexivity.
Qed.

Lemma sliced_map_length {B} (f : value -> outcome B) (v results : value)
    (mapped : list B) :
  Method.slice0 5 v = Ret results ->
  Method.map f results = Ret mapped ->
  (List.length mapped <= 5)%nat.
Proof.
  intros Hs Hm. destruct v; try discriminate; injection Hs as <-.
  - discriminate Hm.
  - unfold Method.map in Hm. rewrite (mapM_length _ _ _ Hm).
    change (List.length (firstn 5 elems) <= 5)%nat.
    apply firstn_le_length.
Qed.

Lemma listed_sources_length (content : value) (l : list ToolCalling.Source) :
  ToolCalling.listed_sources rt content = Ret l -> (List.length l <= 5)%nat.
Proof.
  unfold ToolCalling.listed_sources.
  destruct content; try discriminate.
  destruct (ToolCalling.match_brackets s); [| intros [= <-]; simpl; lia].
  destruct (JSON_parse rt s0) as [parsed | e]; [| discriminate]. simpl.
  destruct parsed; try (intros [= <-]; simpl; lia).
  intros H. rewrite (mapM_length _ _ _ H).
  change (List.length (firstn 5 elems) <= 5)%nat.
  apply firstn_le_length.
Qed.

Definition at_most_5 (p : option (list ToolCalling.Source)) : Prop :=
  forall l, p = Some l -> (List.length l <= 5)%nat.

Lemma primarySearch_total (query : string) (log : list call) :
  exists p log',
    ToolCalling.primarySearch w query log = (Ret p, log') /\ at_most_5 p.
Proof.
  unfold ToolCalling.primarySearch.
  destruct (configured (SERPAPI_KEY w)) as [key |].
  - apply (try_catch_total at_most_5 _ (fun _ => None)).
    + apply returns_bind. intros res. destruct (up_ok res).
      * apply returns_bind. intros data.
        apply returns_bind. intros found.
        apply returns_lift_bind. intros results Hs.
        apply returns_lift_bind. intros mapped Hm.
        apply returns_ret. intros l [= <-].
        apply (sliced_map_length _ _ _ _ Hs Hm).
      * apply returns_bind. intros consumed.
        apply returns_ret. intros l E. discriminate E.
    + intros e l E. discriminate E.
  - exists None, log. split; [reflexivity |]. intros l E. discriminate E.
Qed.

Lemma fallbackSearch_total (query : string) (log : list call) :
  exists l log',
    ToolCalling.fallbackSearch rt w query log = (Ret l, log') /\
    (List.length l <= 5)%nat.
Proof.
  unfold ToolCalling.fallbackSearch.
  destruct (configured (LOVABLE_API_KEY w)) as [key |].
  - apply (try_catch_total (fun l => (List.length l <= 5)%nat) _ (fun _ => [])).
    + apply returns_bind. intros res. destruct (negb (up_ok res)).
      * apply returns_bind. intros consumed. apply returns_ret. simpl. lia.
      * apply returns_bind. intros data.
        apply returns_bind. intros choices. cbv zeta.
        apply returns_bind. intros cited.
        destruct (0 <? List.length cited)%nat.
        -- apply returns_ret. apply firstn_le_length.
        -- apply returns_ret. unfold otry.
           destruct (ToolCalling.listed_sources rt _) as [l | e] eqn:E.
           ++ apply (listed_sources_length _ _ E).
           ++ simpl. lia.
    + intros e. simpl. lia.
  - exists [], log. split; [reflexivity | simpl; lia].
Qed.

End SearchTotal.

(** C10: for every query, whatever keys are configured and whatever the
    upstream services do (reject the call, answer with a failure status,
    answer with a body that is not JSON or not of the expected shape),
    [performWebSearch] returns, and returns at most 5 records; no
    exception leaves it.  This is so for a query that is text, and for
    any other value the caller passes for one. *)
Theorem performWebSearch_total (rt : Runtime) (w : World) (query : string)
    (log : list call) :
  (exists results log',
     ToolCalling.performWebSearch rt w query log = (Ret results, log') /\
     (List.length results <= 5)%nat) /\
  (forall passed : value,
   exists results log',
     ToolCalling.performWebSearch_of rt w passed log = (Ret results, log') /\
     (List.length results <= 5)%nat).
Proof.
  assert (T : forall q,
            exists results log',
              ToolCalling.performWebSearch rt w q log = (Ret results, log') /\
              (List.length results <= 5)%nat).
  { intros q. unfold ToolCalling.performWebSearch, bind.
    destruct (primarySearch_total w q log) as [p [log1 [E B]]].
    rewrite E. destruct p as [results |].
    - exists results, log1. split; [reflexivity | apply B; reflexivity].
    - apply fallbackSearch_total. }
  split; [apply T |].
  intros passed. unfold ToolCalling.performWebSearch_of.
  destruct (to_string rt passed) as [q | e].
  - destruct (well_formed q); [apply T | apply fallbackSearch_total].
  - exists [], log. split; [reflexivity | simpl; lia].
Qed.

(** Two runs of the search: seven organic results are cut to five; a
    reply of [null] throws inside the [try], and the fallback, whose call
    is rejected, yields nothing. *)
Definition organic (n : nat) : value :=
  VObj [ ("title", VStr ("Result " ++ NilEmpty.string_of_uint (Nat.to_uint n)));
         ("link", VStr ("https://example.org/" ++ NilEmpty.string_of_uint (Nat.to_uint n)));
         ("snippet", VStr "...") ].

Definition serp_world (reply : value) : World :=
  {| SERPAPI_KEY := Some "serp-key";
     LOVABLE_API_KEY := Some "gateway-key";
     today := "2026-02-06";
     net := fun i =>
       match i with
       | O => Resolved {| up_status := 200; up_text := Ret ""; up_json := Ret reply |}
       | _ => Rejected (ErrorObj "TypeError" "error sending request")
       end |}.

Example search_cuts_to_five :
  exists results log,
    ToolCalling.performWebSearch sample_runtime
      (serp_world (VObj [("organic_results", VArr (List.map organic (seq 1 7)))]))
      "minister resigned" [] = (Ret results, log) /\
    List.map ToolCalling.title results =
      [VStr "Result 1"; VStr "Result 2"; VStr "Result 3"; VStr "Result 4"; VStr "Result 5"] /\
    log = [SerpApi "minister resigned" "serp-key" (Some 5%nat)].
Proof. eexists. eexists. split; [vm_compute; reflexivity |]. split; reflexivity. Qed.

Example search_survives_null_reply :
  exists log,
    ToolCalling.performWebSearch sample_runtime (serp_world VNull)
      "minister resigned" [] = (Ret [], log) /\
    List.length log = 2%nat.
Proof. eexists. split; vm_compute; reflexivity. Qed.

(** The text of a default query cut in the middle of a character
    outside the basic plane: [encodeURIComponent] rejects it, so SerpAPI
    is not called, and the fallback is. *)
Example half_pair_goes_to_fallback :
  well_formed (slice0 2 "a😀b") = false /\
  snd (ToolCalling.performWebSearch_of sample_runtime (serp_world VNull)
         (VStr (slice0 2 "a😀b")) []) =
  [Gateway "gateway-key" (ToolCalling.searchPayload (slice0 2 "a😀b"))].
Proof. split; reflexivity. Qed.

(** * Merging the evidence *)

Inductive subsequence {A : Type} : list A -> list A -> Prop :=
| subsequence_nil : subsequence [] []
| subsequence_skip (x : A) (l1 l2 : list A) :
    subsequence l1 l2 -> subsequence l1 (x :: l2)
| subsequence_keep (x : A) (l1 l2 : list A) :
    subsequence l1 l2 -> subsequence (x :: l1) (x :: l2).

Module MergeFacts.

Import ToolCalling.

(** A record as [interface Source] declares it: three strings. *)
Definition typed (r : Source) : bool :=
  is_string (title r) && is_string (url r) && is_string (snippet r).

(** The line of the evidence block of a typed record. *)
Definition line_of (r : Source) : string :=
  "- " ++ string_of (title r) ++ ": " ++ string_of (snippet r)
  ++ " (" ++ string_of (url r) ++ ")".

Definition same_url (r x : Source) : bool := strict_equals (url x) (url r).

Lemma subsequence_In {A} (l1 l2 : list A) (x : A) :
  subsequence l1 l2 -> In x l1 -> In x l2.
Proof.
  induction 1 as [| y l1 l2 _ IH | y l1 l2 _ IH]; simpl; intuition.
Qed.

Lemma foldM_app {A B} (f : A -> B -> outcome A) (l1 l2 : list B) (a : A) :
  foldM f (l1 ++ l2) a = obind (foldM f l1 a) (foldM f l2).
Proof.
  revert a. induction l1 as [| x l1 IH]; intros a; simpl; [reflexivity |].
  destruct (f a x) as [a' | e]; simpl; [apply IH | reflexivity].
Qed.

Lemma foldM_concat {A B} (f : A -> B -> outcome A) (ls : list (list B)) (a : A) :
  foldM (fun st l => foldM f l st) ls a = foldM f (List.concat ls) a.
Proof.
  revert a. induction ls as [| l ls IH]; intros a; simpl; [reflexivity |].
  rewrite foldM_app. destruct (foldM f l a) as [a' | e]; simpl;
    [apply IH | reflexivity].
Qed.

Lemma typed_url (r : Source) :
  typed r = true -> exists u, url r = VStr u.
Proof.
  unfold typed. intros H.
  apply andb_true_iff in H as [H _]. apply andb_true_iff in H as [_ H].
  destruct (url r); try discriminate. eauto.
Qed.

Lemma strict_equals_string (v : value) (u : string) :
  strict_equals v (VStr u) = true <-> v = VStr u.
Proof.
  destruct v; simpl; split; try discriminate; intros H.
  - apply String.eqb_eq in H. congruence.
  - injection H as ->. apply String.eqb_refl.
Qed.

Lemma seen_url (r : Source) (seen : list Source) :
  typed r = true ->
  existsb (same_url r) seen = true <-> In (url r) (List.map url seen).
Proof.
  intros T. destruct (typed_url r T) as [u Eu]. unfold same_url. rewrite Eu.
  rewrite existsb_exists, in_map_iff. split.
  - intros [x [I S]]. apply strict_equals_string in S. eauto.
  - intros [x [E I]]. exists x. split; [exact I |].
    apply strict_equals_string, E.
Qed.

Lemma same_url_false (r x : Source) :
  typed r = true -> url x <> url r -> same_url r x = false.
Proof.
  intros T N. destruct (same_url r x) eqn:E; [| reflexivity].
  destruct (typed_url r T) as [u Eu]. unfold same_url in E. rewrite Eu in *.
  apply strict_equals_string in E. contradiction.
Qed.

Lemma same_url_refl (r : Source) : typed r = true -> same_url r r = true.
Proof.
  intros T. destruct (typed_url r T) as [u Eu]. unfold same_url. rewrite Eu.
  apply strict_equals_string. reflexivity.
Qed.

Section WithRuntime.

Variable rt : Runtime.

Lemma render_typed (r : Source) : typed r = true -> render rt r = Ret (line_of r).
Proof.
  unfold typed, render, line_of. intros H.
  apply andb_true_iff in H as [H Hs]. apply andb_true_iff in H as [Ht Hu].
  destruct (title r); try discriminate.
  destruct (url r); try discriminate.
  destruct (snippet r); try discriminate.
  reflexivity.
Qed.

Lemma push_unique_seen (st : merged) (r : Source) :
  existsb (same_url r) (allSources st) = true -> push_unique rt st r = Ret st.
Proof. unfold push_unique, same_url. intros ->. reflexivity. Qed.

Lemma push_unique_new (st : merged) (r : Source) :
  typed r = true ->
  existsb (same_url r) (allSources st) = false ->
  push_unique rt st r =
  Ret {| allSources := (allSources st ++ [r])%list;
         allSnippets := (allSnippets st ++ [line_of r])%list |}.
Proof.
  unfold push_unique, same_url. intros T ->. rewrite (render_typed r T). reflexivity.
Qed.

(** What the inner loop adds to a state [st] when run over [l]. *)
Record added (st : merged) (l new : list Source) : Prop := {
  added_order : subsequence new l;
  added_fresh : forall r, In r new -> ~ In (url r) (List.map url (allSources st));
  added_once : NoDup (List.map url new);
  added_first : forall r, In r new -> find (same_url r) l = Some r;
  added_all : forall r, In r l ->
                In (url r) (List.map url (allSources st ++ new)%list)
}.

Lemma push_all (l : list Source) :
  forallb typed l = true ->
  forall st,
  exists new,
    foldM (push_unique rt) l st =
    Ret {| allSources := (allSources st ++ new)%list;
           allSnippets := (allSnippets st ++ List.map line_of new)%list |} /\
    added st l new.
Proof.
  induction l as [| r l IH]; intros T st.
  - exists []. split.
    + simpl. rewrite !app_nil_r. destruct st; reflexivity.
    + split; simpl; try contradiction; constructor.
  - cbn [forallb] in T. apply andb_true_iff in T as [Tr Tl].
    assert (Typed : forall x, In x l -> typed x = true)
      by (apply forallb_forall, Tl).
    cbn [foldM].
    destruct (existsb (same_url r) (allSources st)) eqn:Seen.
    + rewrite (push_unique_seen st r Seen). cbn [obind].
      destruct (IH Tl st) as [new [E [Ho Hf Hn Hfi Ha]]].
      exists new. split; [exact E |].
      apply (seen_url r _ Tr) in Seen.
      split; auto.
      * apply subsequence_skip, Ho.
      * intros x I. cbn [find].
        rewrite same_url_false; [apply Hfi, I | | ].
        -- apply Typed. eapply subsequence_In; eassumption.
        -- intros Eq. apply (Hf x I). rewrite <- Eq. exact Seen.
      * intros x [<- | I]; [| apply Ha, I].
        rewrite map_app. apply in_or_app. left. exact Seen.
    + rewrite (push_unique_new st r Tr Seen). cbn [obind].
      destruct (IH Tl {| allSources := (allSources st ++ [r])%list;
                         allSnippets := (allSnippets st ++ [line_of r])%list |})
        as [new [E [Ho Hf Hn Hfi Ha]]].
      cbn [allSources allSnippets] in *.
      exists (r :: new). split.
      * rewrite E. cbn [List.map]. rewrite <- !app_assoc. reflexivity.
      * assert (Fresh : ~ In (url r) (List.map url (allSources st))).
        { intros I. apply (seen_url r _ Tr) in I. congruence. }
        assert (Other : forall x, In x new -> url x <> url r).
        { intros x I Eq. apply (Hf x I). rewrite map_app. apply in_or_app.
          right. simpl. auto. }
        split.
        -- apply subsequence_keep, Ho.
        -- intros x [<- | I]; [exact Fresh |].
           intros J. apply (Hf x I). rewrite map_app. apply in_or_app. left. exact J.
        -- cbn [List.map]. constructor; [| exact Hn].
           intros I. apply in_map_iff in I as [x [Eq I]]. apply (Other x I Eq).
        -- intros x [<- | I]; cbn [find].
           ++ rewrite (same_url_refl r Tr). reflexivity.
           ++ rewrite same_url_false; [apply Hfi, I | | ].
              ** apply Typed. eapply subsequence_In; eassumption.
              ** intros Eq. apply (Other x I). symmetry. exact Eq.
        -- intros x [<- | I].
           ++ rewrite map_app. apply in_or_app. right. simpl. auto.
           ++ specialize (Ha x I). rewrite <- app_assoc in Ha. exact Ha.
Qed.

End WithRuntime.

End MergeFacts.

Section MergedEvidence.

Import ToolCalling MergeFacts.

Lemma forallb_concat {A} (p : A -> bool) (ls : list (list A)) :
  forallb (forallb p) ls = true -> forallb p (List.concat ls) = true.
Proof.
  induction ls as [| l ls IH]; simpl; [reflexivity |].
  intros H. apply andb_true_iff in H as [Hl Hls].
  rewrite forallb_app, Hl. apply IH, Hls.
Qed.

Lemma NoDup_firstn {A} (n : nat) (l : list A) : NoDup l -> NoDup (firstn n l).
Proof.
  revert n. induction l as [| x l IH]; intros n H.
  - rewrite firstn_nil. constructor.
  - destruct n as [| n]; [constructor |].
    inversion H as [| ? ? Hx Hl]; subst. cbn [firstn]. constructor.
    + intros I. apply Hx. rewrite <- (firstn_skipn n l).
      apply in_or_app. left. exact I.
    + apply IH, Hl.
Qed.

End MergedEvidence.

(** The two loops on their own: for every sequence of per-query result
    lists (of records made of strings, as [interface Source] declares
    them) they end, and in the merged list no URL occurs twice, every
    entry is the first record with its URL among all results taken in
    query order, the entries stand in the order in which the results
    came, and no returned URL is lost; the first 8 entries are rendered
    one line each. *)
Lemma mergeResults_unique_ordered_capped (rt : Runtime)
    (resultss : list (list ToolCalling.Source)) :
  forallb (forallb MergeFacts.typed) resultss = true ->
  exists st,
    ToolCalling.mergeResults rt resultss = Ret st /\
    NoDup (List.map ToolCalling.url (ToolCalling.allSources st)) /\
    (forall r, In r (ToolCalling.allSources st) ->
               find (MergeFacts.same_url r) (List.concat resultss) = Some r) /\
    subsequence (ToolCalling.allSources st) (List.concat resultss) /\
    (forall r, In r (List.concat resultss) ->
               In (ToolCalling.url r)
                  (List.map ToolCalling.url (ToolCalling.allSources st))) /\
    ToolCalling.topSources st = firstn 8 (ToolCalling.allSources st) /\
    NoDup (List.map ToolCalling.url (ToolCalling.topSources st)) /\
    (List.length (ToolCalling.topSources st) <= 8)%nat /\
    ToolCalling.evidenceText st =
      join nl (List.map MergeFacts.line_of (ToolCalling.topSources st)).
Proof.
  intros T. apply forallb_concat in T.
  destruct (MergeFacts.push_all rt _ T ToolCalling.nothing_merged)
    as [new [E [Ho Hf Hn Hfi Ha]]].
  cbn [ToolCalling.nothing_merged ToolCalling.allSources
       ToolCalling.allSnippets app] in *.
  eexists. split.
  { unfold ToolCalling.mergeResults. rewrite MergeFacts.foldM_concat. exact E. }
  cbn [ToolCalling.allSources ToolCalling.allSnippets].
  unfold ToolCalling.topSources, ToolCalling.evidenceText.
  cbn [ToolCalling.allSources ToolCalling.allSnippets].
  repeat split; auto.
  - rewrite <- firstn_map. apply NoDup_firstn, Hn.
  - apply firstn_le_length.
  - rewrite firstn_map. reflexivity.
Qed.

Definition src (t u s : string) : ToolCalling.Source :=
  {| ToolCalling.title := VStr t;
     ToolCalling.url := VStr u;
     ToolCalling.snippet := VStr s |}.

Definition two_queries : list (list ToolCalling.Source) :=
  [ [ src "Minister resigns" "https://a.example/1" "first report";
      src "Cabinet reshuffle" "https://b.example/2" "analysis" ];
    [ src "Resignation confirmed" "https://a.example/1" "second report";
      src "Statement" "https://c.example/3" "press office" ] ].

(** The run on these two queries: the URL both return is kept once, with
    the title and snippet of the first query. *)
Example two_queries_merged :
  option_map ToolCalling.allSources
    (match ToolCalling.mergeResults sample_runtime two_queries with
     | Ret st => Some st
     | Throw _ => None
     end) =
  Some [ src "Minister resigns" "https://a.example/1" "first report";
         src "Cabinet reshuffle" "https://b.example/2" "analysis";
         src "Statement" "https://c.example/3" "press office" ].
Proof. reflexivity. Qed.

(** Twenty results with twenty URLs: eight lines reach the prompt. *)
Example twenty_results_capped :
  match ToolCalling.mergeResults sample_runtime
          [ List.map (fun n => src "t" (NilEmpty.string_of_uint (Nat.to_uint n)) "s")
                     (seq 0 20) ] with
  | Ret st =>
      List.length (ToolCalling.allSources st) = 20%nat /\
      List.length (ToolCalling.topSources st) = 8%nat
  | Throw _ => False
  end.
Proof. vm_compute. split; reflexivity. Qed.

(** * The embedding on concrete inputs *)

Example fenced_json_is_unwrapped :
  jsonStr ("```json" ++ nl ++ "{}" ++ nl ++ "```") = "{}" /\
  jsonStr ("Here it is: ```{}``` as asked") = "{}" /\
  jsonStr ("  {} " ++ nl) = "{}" /\
  jsonStr "```json {}" = "```json {}".
Proof. repeat split; reflexivity. Qed.

Example brackets_are_matched_greedily :
  ToolCalling.match_brackets "see [1, [2]] and ] done" = Some "[1, [2]] and ]" /\
  ToolCalling.match_brackets "no closing [ bracket" = None.
Proof. split; reflexivity. Qed.

Example trim_cases :
  trim ("  a b " ++ nl) = "a b" /\ trim "   " = "" /\ trim "" = "".
Proof. repeat split; reflexivity. Qed.

(** White space above U+007F is trimmed as the characters it is, and a
    letter that shares a byte with one is left alone. *)
Example trim_wide_cases :
  trim (of_point 12288 ++ "a b" ++ of_point 8195 ++ of_point 8232) = "a b" /\
  trim wide_blank = "" /\
  trim "Voilà" = "Voilà" /\
  trim (" Voilà" ++ of_point 160) = "Voilà" /\
  trim (of_point 8203 ++ "a") = (of_point 8203 ++ "a")%string /\
  invalid_text (VStr wide_blank) = true.
Proof. repeat split; reflexivity. Qed.

Example round_cases :
  clampRound (Fin (873 # 10)) = of_Z 87 /\
  clampRound (Fin (5 # 2)) = of_Z 3 /\
  clampRound (Fin (- (5 # 2))) = of_Z 0 /\
  clampRound (Fin (1005 # 10)) = of_Z 100 /\
  clampRound PosInf = of_Z 100 /\
  clampRound NegInf = of_Z 0.
Proof. repeat split; reflexivity. Qed.

(** NaN, which [JSON.parse] never returns, is a number to [typeof] and
    would pass through the clamp as it is. *)
Remark nan_is_not_clamped : sanitizeConfidence (VNum NaN) = VNum NaN.
Proof. reflexivity. Qed.

(** A candidate that parses to [null] has no fields to read: the
    sanitizer throws, and the handler's catch-all answers 500. *)
Definition null_world : World :=
  {| SERPAPI_KEY := None;
     LOVABLE_API_KEY := Some "gateway-key";
     today := "2026-02-06";
     net := fun i =>
       match i with
       | O => gateway_answer (VStr "STATIC_ANALYSIS_OK")
       | _ => gateway_answer (VStr "null")
       end |}.

Example null_candidate_run :
  exists resp log,
    Plain.handler sample_runtime null_world
      (post (VObj [("text", VStr "The moon is made of cheese")])) [] =
    (Ret resp, log) /\
    status resp = 500%Z /\
    body resp =
      error_body "Cannot read properties of null (reading 'verdict')".
Proof. eexists. eexists. split; [vm_compute; reflexivity |]. split; reflexivity. Qed.

(** A body that is [null], or no JSON at all, is answered 500 by the
    catch-all, not 400. *)
Example null_body_run :
  exists resp,
    Plain.handler sample_runtime offline (post VNull) [] = (Ret resp, []) /\
    status resp = 500%Z.
Proof. eexists. split; [vm_compute; reflexivity | reflexivity]. Qed.

(** A run of the first handler with evidence from SerpAPI. *)
Definition searching_world : World :=
  {| SERPAPI_KEY := Some "serp-key";
     LOVABLE_API_KEY := Some "gateway-key";
     today := "2026-02-06";
     net := fun i =>
       match i with
       | O => gateway_answer (VStr (" LIVE_SEARCH_REQUIRED" ++ nl))
       | S O => Resolved {| up_status := 200; up_text := Ret "";
                            up_json := Ret (VObj [("organic_results",
                                                   VArr [organic 1; organic 2])]) |}
       | _ => gateway_answer (VStr ("```json" ++ nl ++ "{}" ++ nl ++ "```"))
       end |}.

Example live_run :
  exists resp log,
    Plain.handler sample_runtime searching_world (post election_claim) [] =
    (Ret resp, log) /\
    status resp = 200%Z /\
    body resp =
      Some (VObj [ ("verdict", VStr "uncertain");
                   ("confidence", VNum (of_Z 50));
                   ("explanation", VStr "Analysis complete.");
                   ("redFlags", VArr []);
                   ("sourceMode", VStr "live-web");
                   ("sources",
                    VArr [ VObj [ ("title", VStr "Result 1");
                                  ("link", VStr "https://example.org/1") ];
                           VObj [ ("title", VStr "Result 2");
                                  ("link", VStr "https://example.org/2") ] ]) ]) /\
    List.length log = 3%nat.
Proof.
  eexists. eexists. split; [vm_compute; reflexivity |].
  split; [reflexivity |]. split; reflexivity.
Qed.

(** * More of the sanitizer *)

Section SanitizerShape.

Lemma filter_strings_idempotent (l : list value) :
  filter (fun f => typeof f =? "string")
    (filter (fun f => typeof f =? "string") l) =
  filter (fun f => typeof f =? "string") l.
Proof.
  induction l as [| x l IH]; [reflexivity |].
  cbn [filter]. destruct (typeof x =? "string") eqn:E; [| exact IH].
  cbn [filter]. rewrite E, IH. reflexivity.
Qed.

Lemma typeof_string (v : value) :
  (typeof v =? "string") = true <-> exists s, v = VStr s.
Proof.
  destruct v; simpl; split; try discriminate;
    try (intros [s0 E]; discriminate E); eauto.
Qed.

Lemma sanitizeVerdict_in (v : value) : In (sanitizeVerdict v) verdicts.
Proof.
  unfold sanitizeVerdict.
  destruct (Array_includes verdicts v) eqn:E.
  - apply verdicts_includes, E.
  - simpl. auto.
Qed.

Lemma sanitizeVerdict_fixed (v : value) :
  In v verdicts -> sanitizeVerdict v = v.
Proof.
  intros I. unfold sanitizeVerdict.
  apply verdicts_includes in I. rewrite I. reflexivity.
Qed.

End SanitizerShape.

(** The explanation and the red flags of the sanitized response: the
    explanation is the candidate's when that is a string and the text
    [Analysis complete.] otherwise; the red flags are the strings among
    the entries of the candidate's array, in their order, and none when
    the candidate has no array there. *)
Theorem explanation_and_redFlags_sanitized (candidate : value) :
  nullish candidate = false ->
  exists fields e flags,
    sanitize candidate = Ret fields /\
    lookup "explanation" fields = Some (VStr e) /\
    (forall s, get_opt candidate "explanation" = VStr s -> e = s) /\
    ((forall s, get_opt candidate "explanation" <> VStr s) ->
     e = "Analysis complete.") /\
    lookup "redFlags" fields = Some (VArr flags) /\
    Forall (fun f => exists s, f = VStr s) flags /\
    (forall l, get_opt candidate "redFlags" = VArr l ->
               flags = filter is_string l) /\
    ((forall l, get_opt candidate "redFlags" <> VArr l) -> flags = []).
Proof.
  intros N. rewrite (sanitize_fields _ N).
  destruct (get_opt candidate "explanation") as [| | b | n | s | l | fs | f] eqn:Ee;
    destruct (get_opt candidate "redFlags") as [| | b' | n' | s' | l' | fs' | f'] eqn:Er;
    eexists; eexists; eexists;
    (split; [reflexivity |]);
    (split; [reflexivity |]);
    (split; [intros s0 E0; try discriminate E0; injection E0 as <-; reflexivity |]);
    (split; [intros H0; try reflexivity; exfalso; eapply H0; reflexivity |]);
    (split; [reflexivity |]);
    (split; [try (constructor; fail);
             apply Forall_forall; intros x Hx; apply filter_In in Hx as [_ Hx];
             apply typeof_string, Hx |]);
    (split; [intros l0 E0; try discriminate E0; injection E0 as <-;
             apply filter_ext; intros x; destruct x; reflexivity |]);
    intros H0; try reflexivity; exfalso; eapply H0; reflexivity.
Qed.

Lemma explanation_and_redFlags_sanitized_witness :
  exists fields e flags,
    sanitize sample_candidate = Ret fields /\
    lookup "explanation" fields = Some (VStr e) /\
    (forall s, get_opt sample_candidate "explanation" = VStr s -> e = s) /\
    ((forall s, get_opt sample_candidate "explanation" <> VStr s) ->
     e = "Analysis complete.") /\
    lookup "redFlags" fields = Some (VArr flags) /\
    Forall (fun f => exists s, f = VStr s) flags /\
    (forall l, get_opt sample_candidate "redFlags" = VArr l ->
               flags = filter is_string l) /\
    ((forall l, get_opt sample_candidate "redFlags" <> VArr l) -> flags = []).
Proof.
  apply (explanation_and_redFlags_sanitized sample_candidate). reflexivity.
Defined.

(** Sanitizing is idempotent: the object the sanitizer builds is a
    candidate that the sanitizer returns unchanged. *)
Theorem sanitize_idempotent (candidate : value)
    (fields : list (string * value)) :
  sanitize candidate = Ret fields ->
  sanitize (VObj fields) = Ret fields.
Proof.
  intros H.
  assert (N : nullish candidate = false).
  { destruct candidate; try reflexivity; discriminate H. }
  rewrite (sanitize_fields _ N) in H. injection H as <-.
  generalize (get_opt candidate "verdict") (get_opt candidate "confidence")
             (get_opt candidate "explanation") (get_opt candidate "redFlags").
  intros v c e r.
  rewrite sanitize_fields by reflexivity.
  cbn [get_opt get_prop lookup String.eqb Ascii.eqb Bool.eqb].
  rewrite (sanitizeVerdict_fixed _ (sanitizeVerdict_in v)).
  assert (C : sanitizeConfidence (sanitizeConfidence c) = sanitizeConfidence c).
  { destruct c; try reflexivity.
    unfold sanitizeConfidence. rewrite clampRound_idempotent. reflexivity. }
  assert (E : sanitizeExplanation (sanitizeExplanation e) = sanitizeExplanation e).
  { unfold sanitizeExplanation.
    destruct (typeof e =? "string") eqn:T; [rewrite T |]; reflexivity. }
  assert (R : sanitizeRedFlags (sanitizeRedFlags r) = sanitizeRedFlags r).
  { destruct r; try reflexivity.
    unfold sanitizeRedFlags. rewrite filter_strings_idempotent. reflexivity. }
  rewrite C, E, R. reflexivity.
Qed.

Lemma sanitize_idempotent_witness :
  sanitize (VObj [ ("verdict", VStr "fake");
                   ("confidence", VNum (of_Z 87));
                   ("explanation", VStr "No outlet reports it.");
                   ("redFlags", VArr [VStr "anonymous source"]) ]) =
  Ret [ ("verdict", VStr "fake");
        ("confidence", VNum (of_Z 87));
        ("explanation", VStr "No outlet reports it.");
        ("redFlags", VArr [VStr "anonymous source"]) ].
Proof.
  apply (sanitize_idempotent sample_candidate). reflexivity.
Defined.

(** * The outbound calls of a run *)

(** [makes P n m]: from any log, [m] appends at most [n] calls to it,
    each satisfying [P], whether it returns or throws. *)
Definition makes {A} (P : call -> Prop) (n : nat) (m : M A) : Prop :=
  forall log, exists added,
    snd (m log) = (log ++ added)%list /\
    (List.length added <= n)%nat /\
    Forall P added.

(** A call that carries the key configured for its service. *)
Definition keyed (w : World) (c : call) : Prop :=
  match c with
  | Gateway k _ => configured (LOVABLE_API_KEY w) = Some k
  | SerpApi _ k _ => configured (SERPAPI_KEY w) = Some k
  end.

Section Makes.

Context {A B : Type}.
Variable P : call -> Prop.

Lemma makes_silent (n : nat) (m : M A) :
  (forall log, snd (m log) = log) -> makes P n m.
Proof.
  intros H log. exists []. rewrite H, app_nil_r.
  split; [reflexivity |]. split; [simpl; lia | constructor].
Qed.

Lemma makes_ret (n : nat) (a : A) : makes P n (ret a).
Proof. apply makes_silent. reflexivity. Qed.

Lemma makes_throw (n : nat) (e : exn) : makes P n (@throw A e).
Proof. apply makes_silent. reflexivity. Qed.

Lemma makes_lift (n : nat) (o : outcome A) : makes P n (lift o).
Proof. apply makes_silent. reflexivity. Qed.

Lemma makes_mono (n n' : nat) (m : M A) :
  makes P n m -> (n <= n')%nat -> makes P n' m.
Proof.
  intros H L log. destruct (H log) as [added [E [Hl Hp]]].
  exists added. split; [exact E |]. split; [lia | exact Hp].
Qed.

Lemma makes_bind (n1 n2 : nat) (m : M A) (k : A -> M B) :
  makes P n1 m -> (forall a, makes P n2 (k a)) ->
  makes P (n1 + n2) (bind m k).
Proof.
  intros Hm Hk log. unfold bind.
  destruct (Hm log) as [a1 [E1 [L1 P1]]].
  destruct (m log) as [[a | e] log1]; simpl in E1; subst log1.
  - destruct (Hk a (log ++ a1)%list) as [a2 [E2 [L2 P2]]].
    exists (a1 ++ a2)%list. rewrite E2, app_assoc.
    split; [reflexivity |]. split; [rewrite length_app; lia |].
    apply Forall_app. split; assumption.
  - exists a1. split; [reflexivity |]. split; [lia | exact P1].
Qed.

Lemma makes_bind_lift (n : nat) (o : outcome A) (k : A -> M B) :
  (forall a, makes P n (k a)) -> makes P n (bind (lift o) k).
Proof.
  intros H. apply (makes_bind 0 n); [apply makes_lift | exact H].
Qed.

End Makes.

Lemma makes_try {A} (P : call -> Prop) (n1 n2 : nat) (m : M A)
    (h : exn -> M A) :
  makes P n1 m -> (forall e, makes P n2 (h e)) ->
  makes P (n1 + n2) (try_catch m h).
Proof.
  intros Hm Hh log. unfold try_catch.
  destruct (Hm log) as [a1 [E1 [L1 P1]]].
  destruct (m log) as [[a | e] log1]; simpl in E1; subst log1.
  - exists a1. split; [reflexivity |]. split; [lia | exact P1].
  - destruct (Hh e (log ++ a1)%list) as [a2 [E2 [L2 P2]]].
    exists (a1 ++ a2)%list. rewrite E2, app_assoc.
    split; [reflexivity |]. split; [rewrite length_app; lia |].
    apply Forall_app. split; assumption.
Qed.

Lemma makes_fetch (P : call -> Prop) (w : World) (c : call) :
  P c -> makes P 1 (fetch w c).
Proof.
  intros H log. exists [c]. unfold fetch.
  destruct (net w (List.length log)); simpl;
    (split; [reflexivity |]); (split; [lia | constructor; [exact H | constructor]]).
Qed.

(** Steps that make no call: reads of already fetched data, branches,
    returns. *)
Ltac makes_pure :=
  repeat first
    [ apply makes_ret
    | apply makes_throw
    | apply makes_bind_lift; intros ?
    | progress cbv zeta
    | lazymatch goal with
      | |- makes _ _ (if ?b then _ else _) => destruct b
      | |- makes _ _ (match ?x with _ => _ end) => destruct x
      end ].

Section CallBounds.

Variable rt : Runtime.
Variable w : World.

Lemma gateway_reply_makes (apiKey system user : string) :
  configured (LOVABLE_API_KEY w) = Some apiKey ->
  makes (keyed w) 1 (gateway_reply w apiKey system user).
Proof.
  intros K. unfold gateway_reply.
  apply (makes_bind _ 1 0); [apply makes_fetch, K |].
  intros res. makes_pure.
Qed.

Lemma Plain_callGemini_makes (apiKey system user : string) :
  configured (LOVABLE_API_KEY w) = Some apiKey ->
  makes (keyed w) 1 (Plain.callGemini w apiKey system user).
Proof.
  intros K. unfold Plain.callGemini.
  apply (makes_bind _ 1 0); [apply gateway_reply_makes, K |].
  intros answer. makes_pure.
Qed.

Lemma Grounded_callGemini_makes (apiKey system user : string) :
  configured (LOVABLE_API_KEY w) = Some apiKey ->
  makes (keyed w) 1 (Grounded.callGemini w apiKey system user).
Proof.
  intros K. unfold Grounded.callGemini.
  apply (makes_bind _ 1 0); [apply gateway_reply_makes, K |].
  intros answer. makes_pure.
Qed.

Lemma serpSearch_makes (missing query : string) :
  makes (keyed w) 1 (serpSearch rt w missing query).
Proof.
  unfold serpSearch. destruct (configured (SERPAPI_KEY w)) as [key |] eqn:K.
  - apply (makes_bind _ 1 0); [apply makes_fetch, K |].
    intros res. makes_pure.
  - apply makes_ret.
Qed.

Lemma Plain_gather_makes (needs : bool) (userInput : string) :
  makes (keyed w) 1 (Plain.gather rt w needs userInput).
Proof.
  unfold Plain.gather. destruct needs; [| apply makes_ret].
  apply (makes_bind _ 1 0); [apply serpSearch_makes |].
  intros search. makes_pure.
Qed.

Lemma Plain_analyze_makes (req : Request) :
  makes (keyed w) 3 (Plain.analyze rt w req).
Proof.
  unfold Plain.analyze.
  apply makes_bind_lift. intros parsed.
  apply makes_bind_lift. intros text.
  destruct (invalid_text text); [apply makes_ret |].
  destruct (configured (LOVABLE_API_KEY w)) as [apiKey |] eqn:K;
    [| apply makes_throw].
  cbv zeta.
  apply (makes_bind _ 1 2); [apply Plain_callGemini_makes, K |].
  intros [msg | decision u]; [apply makes_ret |].
  apply makes_bind_lift. intros needs.
  apply (makes_bind _ 1 1); [apply Plain_gather_makes |].
  intros ev.
  apply (makes_bind _ 1 0); [apply Plain_callGemini_makes, K |].
  intros [msg | content u']; [apply makes_ret |].
  unfold Plain.conclude. makes_pure.
Qed.

Lemma Grounded_fallbackAnalysis_makes (apiKey userInput : string) (needs : bool) :
  configured (LOVABLE_API_KEY w) = Some apiKey ->
  makes (keyed w) 2 (Grounded.fallbackAnalysis rt w apiKey userInput needs).
Proof.
  intros K. unfold Grounded.fallbackAnalysis.
  apply (makes_bind _ 1 1).
  - destruct needs; [| apply makes_ret].
    apply (makes_bind _ 1 0); [apply serpSearch_makes |].
    intros search. makes_pure.
  - intros ev. cbv zeta.
    apply (makes_bind _ 1 0); [apply Grounded_callGemini_makes, K |].
    intros [msg | content gs]; [apply makes_ret |].
    unfold Grounded.fallback_conclude. makes_pure.
Qed.

Lemma Grounded_analyze_makes (req : Request) :
  makes (keyed w) 4 (Grounded.analyze rt w req).
Proof.
  unfold Grounded.analyze.
  apply makes_bind_lift. intros parsed.
  apply makes_bind_lift. intros text.
  destruct (invalid_text text); [apply makes_ret |].
  destruct (configured (LOVABLE_API_KEY w)) as [apiKey |] eqn:K;
    [| apply makes_throw].
  cbv zeta.
  apply (makes_bind _ 1 3); [apply Grounded_callGemini_makes, K |].
  intros [msg | decision gs]; [apply makes_ret |].
  apply makes_bind_lift. intros needs.
  apply (makes_bind _ 1 2); [apply Grounded_callGemini_makes, K |].
  intros [msg | content gs'].
  - apply Grounded_fallbackAnalysis_makes, K.
  - unfold Grounded.conclude. makes_pure.
Qed.

End CallBounds.

Lemma makes_impl {A} (P Q : call -> Prop) (n : nat) (m : M A) :
  (forall c, P c -> Q c) -> makes P n m -> makes Q n m.
Proof.
  intros I H log. destruct (H log) as [added [E [L F]]].
  exists added. split; [exact E |]. split; [exact L |].
  eapply Forall_impl; eassumption.
Qed.

Definition is_gateway (c : call) : Prop :=
  match c with
  | Gateway _ _ => True
  | SerpApi _ _ _ => False
  end.

(** A request costs the first handler at most three outbound calls
    (decision, search, verdict) and the third at most four (decision,
    grounded verdict, search, fallback verdict), whatever happens
    upstream, and each call carries the key configured for its service. *)
Theorem handler_calls_bounded_and_keyed (rt : Runtime) (w : World)
    (req : Request) :
  makes (keyed w) 3 (Plain.handler rt w req) /\
  makes (keyed w) 4 (Grounded.handler rt w req).
Proof.
  split.
  - unfold Plain.handler. destruct (method req =? "OPTIONS"); [apply makes_ret |].
    apply (makes_try _ 3 0); [apply Plain_analyze_makes | intros e; apply makes_ret].
  - unfold Grounded.handler. destruct (method req =? "OPTIONS"); [apply makes_ret |].
    apply (makes_try _ 4 0); [apply Grounded_analyze_makes | intros e; apply makes_ret].
Qed.

(** Without a search key neither handler ever calls SerpAPI: every
    outbound call of the run goes to the gateway. *)
Theorem no_search_key_no_search_call (rt : Runtime) (w : World)
    (req : Request) :
  configured (SERPAPI_KEY w) = None ->
  makes is_gateway 3 (Plain.handler rt w req) /\
  makes is_gateway 4 (Grounded.handler rt w req).
Proof.
  intros K.
  assert (G : forall c, keyed w c -> is_gateway c).
  { intros [k p | q k n] H; simpl in *; [exact I | congruence]. }
  split.
  - apply (makes_impl (keyed w)); [exact G |].
    unfold Plain.handler. destruct (method req =? "OPTIONS"); [apply makes_ret |].
    apply (makes_try _ 3 0); [apply Plain_analyze_makes | intros e; apply makes_ret].
  - apply (makes_impl (keyed w)); [exact G |].
    unfold Grounded.handler. destruct (method req =? "OPTIONS"); [apply makes_ret |].
    apply (makes_try _ 4 0); [apply Grounded_analyze_makes | intros e; apply makes_ret].
Qed.

Lemma no_search_key_no_search_call_witness :
  makes is_gateway 3 (Plain.handler sample_runtime live_world (post election_claim)) /\
  makes is_gateway 4 (Grounded.handler sample_runtime live_world (post election_claim)).
Proof.
  apply (no_search_key_no_search_call sample_runtime live_world (post election_claim)).
  reflexivity.
Defined.

(** * Failures before and at the Decision Stage *)

(** The message [callGemini] gives for a failure status. *)
Definition upstream_error (st : Z) : string :=
  if (st =? 429)%Z then "Rate limit exceeded. Please try again later."
  else if (st =? 402)%Z then "AI service quota exceeded. Please try again later."
  else "Failed to analyze content".

(** A request that passes validation: a method other than OPTIONS and a
    body with a [text] that is a string and not blank. *)
Definition carries (req : Request) (text : string) : Prop :=
  method req <> "OPTIONS" /\
  exists parsed,
    req_json req = Ret parsed /\ nullish parsed = false /\
    get_opt parsed "text" = VStr text /\ trim text <> EmptyString.

Section EarlyFailures.

Variable rt : Runtime.
Variable w : World.

Lemma valid_text (text : string) :
  trim text <> EmptyString -> invalid_text (VStr text) = false.
Proof.
  intros H. destruct (invalid_text (VStr text)) eqn:E; [| reflexivity].
  contradiction (H (proj1 (invalid_text_iff _) E text eq_refl)).
Qed.

(** Both handlers up to the point where the key is read. *)
Lemma Plain_handler_validated (req : Request) (text : string) (log : list call) :
  carries req text ->
  Plain.handler rt w req log =
  try_catch
    (match configured (LOVABLE_API_KEY w) with
     | None => throw (ErrorObj "Error" "AI service is not configured")
     | Some apiKey =>
         let* decisionRes :=
           Plain.callGemini w apiKey Plain.decisionSystem
             (Plain.decisionUser (trim text)) in
         match decisionRes with
         | GError msg => ret (error_Response 500 msg)
         | GContent decision _ =>
             let* needs := lift (Plain.needsLiveSearch decision) in
             let* ev := Plain.gather rt w needs (trim text) in
             let* analysisRes :=
               Plain.callGemini w apiKey Plain.analysisSystem
                 (Plain.analysisUser needs (Plain.webSnippets ev) (trim text)) in
             match analysisRes with
             | GError msg => ret (error_Response 500 msg)
             | GContent content _ => Plain.conclude rt ev content
             end
         end
     end)
    (fun e => ret (error_Response 500 (error_message e))) log.
Proof.
  intros [Hm [parsed [Hj [Hn [Ht Hb]]]]].
  apply String.eqb_neq in Hm.
  unfold Plain.handler. rewrite Hm.
  unfold try_catch, Plain.analyze.
  unfold bind at 1, lift at 1. rewrite Hj.
  unfold bind at 1, lift at 1.
  rewrite (get_prop_get_opt _ _ Hn), Ht, (valid_text _ Hb).
  reflexivity.
Qed.

Lemma Grounded_handler_validated (req : Request) (text : string) (log : list call) :
  carries req text ->
  Grounded.handler rt w req log =
  try_catch
    (match configured (LOVABLE_API_KEY w) with
     | None => throw (ErrorObj "Error" "AI service is not configured")
     | Some apiKey =>
         let* decisionRes :=
           Grounded.callGemini w apiKey (Grounded.decisionSystem (today w))
             (Grounded.decisionUser (trim text)) in
         match decisionRes with
         | GError msg => ret (error_Response 500 msg)
         | GContent decision _ =>
             let* needs := lift (Grounded.needsLiveSearch decision) in
             let* analysisRes :=
               Grounded.callGemini w apiKey (Grounded.analysisSystem (today w))
                 (Grounded.analysisUser (trim text)) in
             match analysisRes with
             | GError _ => Grounded.fallbackAnalysis rt w apiKey (trim text) needs
             | GContent content groundedSources =>
                 Grounded.conclude rt groundedSources content
             end
         end
     end)
    (fun e => ret (error_Response 500 (error_message e))) log.
Proof.
  intros [Hm [parsed [Hj [Hn [Ht Hb]]]]].
  apply String.eqb_neq in Hm.
  unfold Grounded.handler. rewrite Hm.
  unfold try_catch, Grounded.analyze.
  unfold bind at 1, lift at 1. rewrite Hj.
  unfold bind at 1, lift at 1.
  rewrite (get_prop_get_opt _ _ Hn), Ht, (valid_text _ Hb).
  reflexivity.
Qed.

Lemma gateway_reply_refused (apiKey system user t : string) (r : upstream)
    (log : list call) :
  net w (List.length log) = Resolved r ->
  up_ok r = false ->
  up_text r = Ret t ->
  gateway_reply w apiKey system user log =
  (Ret (Refused (upstream_error (up_status r))),
   (log ++ [Gateway apiKey (chat_payload system user)])%list).
Proof.
  intros Hn Hok Ht. unfold gateway_reply, bind, fetch, lift.
  rewrite Hn, Hok. cbn [negb]. rewrite Ht. unfold upstream_error.
  destruct (up_status r =? 429)%Z; [reflexivity |].
  destruct (up_status r =? 402)%Z; reflexivity.
Qed.

Lemma gateway_reply_replied (apiKey system user : string) (r : upstream)
    (data : value) (log : list call) :
  net w (List.length log) = Resolved r ->
  up_ok r = true ->
  up_json r = Ret data ->
  gateway_reply w apiKey system user log =
  (Ret (Replied data), (log ++ [Gateway apiKey (chat_payload system user)])%list).
Proof.
  intros Hn Hok Hj. unfold gateway_reply, bind, fetch, lift.
  rewrite Hn, Hok. cbn [negb]. rewrite Hj. reflexivity.
Qed.

End EarlyFailures.

(** A valid request that finds no gateway key configured is answered 500
    with [AI service is not configured], by either handler, and no
    outbound call is made. *)
Theorem missing_gateway_key_is_500 (rt : Runtime) (w : World) (req : Request)
    (text : string) (log : list call) :
  carries req text ->
  configured (LOVABLE_API_KEY w) = None ->
  Plain.handler rt w req log =
    (Ret (error_Response 500 "AI service is not configured"), log) /\
  Grounded.handler rt w req log =
    (Ret (error_Response 500 "AI service is not configured"), log).
Proof.
  intros C K.
  rewrite (Plain_handler_validated rt w req text log C).
  rewrite (Grounded_handler_validated rt w req text log C).
  rewrite K. split; reflexivity.
Qed.

Definition keyless : World :=
  {| SERPAPI_KEY := Some "serp-key";
     LOVABLE_API_KEY := Some "";
     today := "2026-02-06";
     net := fun _ => gateway_answer (VStr "STATIC_ANALYSIS_OK") |}.

Lemma election_claim_carries :
  carries (post election_claim) "The minister resigned this morning".
Proof.
  split; [discriminate |]. exists election_claim.
  split; [reflexivity |]. split; [reflexivity |].
  split; [reflexivity | discriminate].
Defined.

Lemma missing_gateway_key_is_500_witness :
  Plain.handler sample_runtime keyless (post election_claim) [] =
    (Ret (error_Response 500 "AI service is not configured"), []) /\
  Grounded.handler sample_runtime keyless (post election_claim) [] =
    (Ret (error_Response 500 "AI service is not configured"), []).
Proof.
  apply (missing_gateway_key_is_500 sample_runtime keyless (post election_claim)
           "The minister resigned this morning" []).
  - exact election_claim_carries.
  - reflexivity.
Defined.

(** When the gateway answers the decision call with a failure status,
    either handler answers 500 with the message of that status (rate
    limit for 429, quota for 402, a generic failure otherwise), and the
    decision call is the only outbound call of the run: no search and no
    verdict call follow. *)
Theorem decision_failure_is_500 (rt : Runtime) (w : World) (req : Request)
    (text apiKey t : string) (r : upstream) (log : list call) :
  carries req text ->
  configured (LOVABLE_API_KEY w) = Some apiKey ->
  net w (List.length log) = Resolved r ->
  up_ok r = false ->
  up_text r = Ret t ->
  Plain.handler rt w req log =
    (Ret (error_Response 500 (upstream_error (up_status r))),
     (log ++ [Gateway apiKey
                (chat_payload Plain.decisionSystem
                   (Plain.decisionUser (trim text)))])%list) /\
  Grounded.handler rt w req log =
    (Ret (error_Response 500 (upstream_error (up_status r))),
     (log ++ [Gateway apiKey
                (chat_payload (Grounded.decisionSystem (today w))
                   (Grounded.decisionUser (trim text)))])%list) /\
  (up_status r = 429%Z ->
   upstream_error (up_status r) = "Rate limit exceeded. Please try again later.") /\
  (up_status r = 402%Z ->
   upstream_error (up_status r) = "AI service quota exceeded. Please try again later.") /\
  (up_status r <> 429%Z -> up_status r <> 402%Z ->
   upstream_error (up_status r) = "Failed to analyze content").
Proof.
  intros C K Hn Hok Ht.
  rewrite (Plain_handler_validated rt w req text log C).
  rewrite (Grounded_handler_validated rt w req text log C).
  rewrite K. unfold try_catch, bind, Plain.callGemini, Grounded.callGemini, bind.
  rewrite !(gateway_reply_refused w apiKey _ _ t r log Hn Hok Ht).
  split; [reflexivity |]. split; [reflexivity |].
  unfold upstream_error. split; [| split].
  - intros ->. reflexivity.
  - intros ->. reflexivity.
  - intros N1 N2.
    apply Z.eqb_neq in N1, N2. rewrite N1, N2. reflexivity.
Qed.

Definition throttled : World :=
  {| SERPAPI_KEY := Some "serp-key";
     LOVABLE_API_KEY := Some "gateway-key";
     today := "2026-02-06";
     net := fun _ =>
       Resolved {| up_status := 429;
                   up_text := Ret "slow down";
                   up_json := Throw (ErrorObj "SyntaxError" "Unexpected token") |} |}.

Lemma decision_failure_is_500_witness :
  Plain.handler sample_runtime throttled (post election_claim) [] =
    (Ret (error_Response 500 "Rate limit exceeded. Please try again later."),
     [Gateway "gateway-key"
        (chat_payload Plain.decisionSystem
           (Plain.decisionUser "The minister resigned this morning"))]).
Proof.
  apply (decision_failure_is_500 sample_runtime throttled (post election_claim)
           "The minister resigned this morning" "gateway-key" "slow down"
           {| up_status := 429;
              up_text := Ret "slow down";
              up_json := Throw (ErrorObj "SyntaxError" "Unexpected token") |} []).
  - exact election_claim_carries.
  - reflexivity.
  - reflexivity.
  - reflexivity.
  - reflexivity.
Defined.

(** When the gateway answers the decision call with a success status but
    no usable content (no choices, no message, an empty text), either
    handler answers 500 with [Invalid AI response] and makes no further
    call. *)
Theorem empty_decision_is_500 (rt : Runtime) (w : World) (req : Request)
    (text apiKey : string) (r : upstream) (data : value) (log : list call) :
  carries req text ->
  configured (LOVABLE_API_KEY w) = Some apiKey ->
  net w (List.length log) = Resolved r ->
  up_ok r = true ->
  up_json r = Ret data ->
  nullish data = false ->
  truthy (reply_content data) = false ->
  Plain.handler rt w req log =
    (Ret (error_Response 500 "Invalid AI response"),
     (log ++ [Gateway apiKey
                (chat_payload Plain.decisionSystem
                   (Plain.decisionUser (trim text)))])%list) /\
  Grounded.handler rt w req log =
    (Ret (error_Response 500 "Invalid AI response"),
     (log ++ [Gateway apiKey
                (chat_payload (Grounded.decisionSystem (today w))
                   (Grounded.decisionUser (trim text)))])%list).
Proof.
  intros C K Hn Hok Hj Hd Hc.
  rewrite (Plain_handler_validated rt w req text log C).
  rewrite (Grounded_handler_validated rt w req text log C).
  rewrite K. unfold try_catch, bind, Plain.callGemini, Grounded.callGemini, bind.
  rewrite !(gateway_reply_replied w apiKey _ _ r data log Hn Hok Hj).
  unfold lift. rewrite (get_prop_get_opt _ _ Hd).
  fold (reply_content data). rewrite Hc.
  split; reflexivity.
Qed.

Definition speechless : World :=
  {| SERPAPI_KEY := Some "serp-key";
     LOVABLE_API_KEY := Some "gateway-key";
     today := "2026-02-06";
     net := fun _ =>
       Resolved {| up_status := 200;
                   up_text := Ret "";
                   up_json := Ret (VObj [("choices", VArr [])]) |} |}.

Lemma empty_decision_is_500_witness :
  Plain.handler sample_runtime speechless (post election_claim) [] =
    (Ret (error_Response 500 "Invalid AI response"),
     [Gateway "gateway-key"
        (chat_payload Plain.decisionSystem
           (Plain.decisionUser "The minister resigned this morning"))]) /\
  Grounded.handler sample_runtime speechless (post election_claim) [] =
    (Ret (error_Response 500 "Invalid AI response"),
     [Gateway "gateway-key"
        (chat_payload (Grounded.decisionSystem "2026-02-06")
           (Grounded.decisionUser "The minister resigned this morning"))]).
Proof.
  apply (empty_decision_is_500 sample_runtime speechless (post election_claim)
           "The minister resigned this morning" "gateway-key"
           {| up_status := 200;
              up_text := Ret "";
              up_json := Ret (VObj [("choices", VArr [])]) |}
           (VObj [("choices", VArr [])]) []).
  - exact election_claim_carries.
  - reflexivity.
  - reflexivity.
  - reflexivity.
  - reflexivity.
  - reflexivity.
  - reflexivity.
Defined.

(** * The shape of a successful response *)

(** [JSON.parse] returns JSON values. *)
Definition parses_json (rt : Runtime) : Prop :=
  forall s v, JSON_parse rt s = Ret v -> is_json v = true.

(** The four sanitized fields, in the order of the object literal. *)
Definition canonical_fields (fields : list (string * value)) : Prop :=
  exists v z e flags,
    fields = [ ("verdict", v);
               ("confidence", VNum (of_Z z));
               ("explanation", VStr e);
               ("redFlags", VArr flags) ] /\
    In v verdicts /\
    (0 <= z <= 100)%Z /\
    Forall (fun f => exists s, f = VStr s) flags.

(** A verdict response: the canonical fields followed by the source
    mode and the sources, the two related by [coherent]. *)
Definition verdict_response (coherent : string -> list value -> Prop)
    (r : Response) : Prop :=
  exists fields mode srcs,
    body r = Some (VObj (fields ++ [ ("sourceMode", VStr mode);
                                     ("sources", VArr srcs) ])%list) /\
    canonical_fields fields /\
    coherent mode srcs.

Definition plain_modes (mode : string) (srcs : list value) : Prop :=
  (mode = "static" /\ srcs = []) \/
  (mode = "live-web" /\ (List.length srcs <= 5)%nat).

Definition grounded_modes (mode : string) (srcs : list value) : Prop :=
  (mode = "static" /\ srcs = []) \/
  (mode = "grounded" /\ srcs <> []) \/
  (mode = "live-web" /\ (List.length srcs <= 5)%nat).

Lemma returns_bind_from {A B} (Q : A -> Prop) (P : B -> Prop) (m : M A)
    (k : A -> M B) :
  returns Q m -> (forall a, Q a -> returns P (k a)) -> returns P (bind m k).
Proof.
  intros Hm H log b log'. unfold bind.
  destruct (m log) as [[a | e] l] eqn:E; [| discriminate].
  apply H. apply (Hm _ _ _ E).
Qed.

Section Shapes.

Variable rt : Runtime.
Variable w : World.
Hypothesis parses : parses_json rt.

Lemma parseAnalysis_is_json (explanation : string) (content : value) :
  is_json (parseAnalysis rt explanation content) = true.
Proof.
  unfold parseAnalysis, otry.
  destruct content; try reflexivity.
  destruct (JSON_parse rt (jsonStr s)) as [v | e] eqn:E; [| reflexivity].
  apply (parses _ _ E).
Qed.

Lemma sanitize_canonical (analysis : value) (fields : list (string * value)) :
  is_json analysis = true ->
  sanitize analysis = Ret fields ->
  canonical_fields fields.
Proof.
  intros J H.
  assert (N : nullish analysis = false).
  { destruct analysis; try reflexivity; discriminate H. }
  rewrite (sanitize_fields _ N) in H. injection H as <-.
  destruct (sanitizeConfidence_range _ (json_field_not_nan analysis "confidence" J))
    as [z [Ez Rz]].
  assert (E : exists e, sanitizeExplanation (get_opt analysis "explanation") = VStr e).
  { unfold sanitizeExplanation.
    destruct (typeof (get_opt analysis "explanation") =? "string") eqn:T.
    - apply typeof_string in T. exact T.
    - eauto. }
  destruct E as [e Ee].
  assert (F : exists flags,
             sanitizeRedFlags (get_opt analysis "redFlags") = VArr flags /\
             Forall (fun f => exists s, f = VStr s) flags).
  { destruct (get_opt analysis "redFlags");
      try (exists []; split; [reflexivity | constructor]).
    eexists. split; [reflexivity |].
    apply Forall_forall. intros x Hx. apply filter_In in Hx as [_ Hx].
    apply typeof_string, Hx. }
  destruct F as [flags [Ef Ff]].
  exists (sanitizeVerdict (get_opt analysis "verdict")), z, e, flags.
  rewrite Ez, Ee, Ef. split; [reflexivity |].
  split; [apply sanitizeVerdict_in |]. split; assumption.
Qed.

Definition when_200 (P : Response -> Prop) (r : Response) : Prop :=
  status r = 200%Z -> P r.

Lemma when_200_error (P : Response -> Prop) (st : Z) (msg : string) :
  st <> 200%Z -> when_200 P (error_Response st msg).
Proof. intros N H. contradiction. Qed.

Lemma serpSearch_at_most_5 (missing query : string) :
  returns (fun s => (List.length (sources s) <= 5)%nat)
    (serpSearch rt w missing query).
Proof.
  unfold serpSearch. destruct (configured (SERPAPI_KEY w)) as [key |].
  - apply returns_bind. intros res. destruct (negb (up_ok res)).
    + apply returns_bind. intros t. apply returns_ret. simpl. lia.
    + apply returns_bind. intros data.
      apply returns_bind. intros found. cbv zeta.
      apply returns_lift_bind. intros top Hs.
      apply returns_bind. intros numbered.
      apply returns_lift_bind. intros srcs Hm.
      apply returns_ret. cbn [sources].
      apply (sliced_map_length _ _ _ _ Hs Hm).
  - apply returns_ret. simpl. lia.
Qed.

Lemma Plain_gather_modes (needs : bool) (userInput : string) :
  returns (fun ev => plain_modes (Plain.sourceMode ev) (Plain.found ev))
    (Plain.gather rt w needs userInput).
Proof.
  unfold Plain.gather. destruct needs.
  - apply (returns_bind_from (fun s => (List.length (sources s) <= 5)%nat));
      [apply serpSearch_at_most_5 |].
    intros search L. destruct (truthy (error search)); apply returns_ret.
    + left. split; reflexivity.
    + right. split; [reflexivity | exact L].
  - apply returns_ret. left. split; reflexivity.
Qed.

Lemma Plain_analyze_shape (req : Request) :
  returns (when_200 (verdict_response plain_modes)) (Plain.analyze rt w req).
Proof.
  unfold Plain.analyze.
  apply returns_bind. intros parsed.
  apply returns_bind. intros text.
  destruct (invalid_text text);
    [apply returns_ret, when_200_error; discriminate |].
  destruct (configured (LOVABLE_API_KEY w)) as [apiKey |]; [| apply returns_throw].
  cbv zeta.
  apply returns_bind. intros [msg | decision u];
    [apply returns_ret, when_200_error; discriminate |].
  apply returns_bind. intros needs.
  apply (returns_bind_from _ _ _ _ (Plain_gather_modes needs _)).
  intros ev Hev.
  apply returns_bind. intros [msg | content u'];
    [apply returns_ret, when_200_error; discriminate |].
  unfold Plain.conclude. cbv zeta.
  apply returns_lift_bind. intros fields Hs.
  apply returns_ret. intros _.
  exists fields, (Plain.sourceMode ev), (Plain.found ev).
  split; [reflexivity |]. split; [| exact Hev].
  apply (sanitize_canonical _ _ (parseAnalysis_is_json _ _) Hs).
Qed.

Lemma Grounded_fallback_shape (apiKey userInput : string) (needs : bool) :
  returns (when_200 (verdict_response grounded_modes))
    (Grounded.fallbackAnalysis rt w apiKey userInput needs).
Proof.
  unfold Grounded.fallbackAnalysis.
  apply (returns_bind_from
           (fun ev => (snd ev = "static" /\ snd (fst ev) = []) \/
                      (snd ev = "live-web" /\
                       (List.length (snd (fst ev)) <= 5)%nat))).
  - destruct needs; [| apply returns_ret; left; split; reflexivity].
    apply (returns_bind_from (fun s => (List.length (sources s) <= 5)%nat));
      [apply serpSearch_at_most_5 |].
    intros search L. destruct (negb (truthy (error search))); apply returns_ret.
    + right. split; [reflexivity | exact L].
    + left. split; reflexivity.
  - intros ev Hev. cbv zeta.
    apply returns_bind. intros [msg | content gs];
      [apply returns_ret, when_200_error; discriminate |].
    unfold Grounded.fallback_conclude. cbv zeta.
    apply returns_lift_bind. intros fields Hs.
    apply returns_ret. intros _.
    exists fields, (snd ev), (List.map Grounded.retitle (snd (fst ev))).
    split; [reflexivity |].
    split; [apply (sanitize_canonical _ _ (parseAnalysis_is_json _ _) Hs) |].
    destruct Hev as [[-> E] | [-> L]].
    + left. rewrite E. split; reflexivity.
    + right. right. split; [reflexivity |]. rewrite length_map. exact L.
Qed.

Lemma Grounded_analyze_shape (req : Request) :
  returns (when_200 (verdict_response grounded_modes)) (Grounded.analyze rt w req).
Proof.
  unfold Grounded.analyze.
  apply returns_bind. intros parsed.
  apply returns_bind. intros text.
  destruct (invalid_text text);
    [apply returns_ret, when_200_error; discriminate |].
  destruct (configured (LOVABLE_API_KEY w)) as [apiKey |]; [| apply returns_throw].
  cbv zeta.
  apply returns_bind. intros [msg | decision u];
    [apply returns_ret, when_200_error; discriminate |].
  apply returns_bind. intros needs.
  apply returns_bind. intros [msg | content gs];
    [apply Grounded_fallback_shape |].
  unfold Grounded.conclude. cbv zeta.
  apply returns_lift_bind. intros fields Hs.
  apply returns_ret. intros _.
  eexists fields, _, _.
  split; [reflexivity |].
  split; [apply (sanitize_canonical _ _ (parseAnalysis_is_json _ _) Hs) |].
  destruct gs as [| g gs]; cbn [List.length Nat.ltb Nat.leb].
  - left. split; reflexivity.
  - right. left. split; [reflexivity | discriminate].
Qed.

End Shapes.

(** Every 200 response of the first handler to a request that is not a
    preflight is a verdict response: the four sanitized fields in order
    (verdict one of the three, confidence an integer from 0 to 100,
    explanation a string, red flags strings), then [sourceMode] and
    [sources], which are either static and empty or live-web with at most
    five sources. *)
Theorem Plain_success_is_canonical (rt : Runtime) (w : World) (req : Request)
    (log log' : list call) (resp : Response) :
  parses_json rt ->
  method req <> "OPTIONS" ->
  Plain.handler rt w req log = (Ret resp, log') ->
  status resp = 200%Z ->
  verdict_response plain_modes resp.
Proof.
  intros PJ Hm H S. apply String.eqb_neq in Hm.
  unfold Plain.handler in H. rewrite Hm in H. unfold try_catch in H.
  destruct (Plain.analyze rt w req log) as [[r | e] l] eqn:E.
  - injection H as <- _. apply (Plain_analyze_shape rt w PJ req _ _ _ E S).
  - injection H as <- _. discriminate S.
Qed.

(** The same for the third handler, whose sources are empty in static
    mode, not empty in grounded mode, and at most five in live-web mode. *)
Theorem Grounded_success_is_canonical (rt : Runtime) (w : World)
    (req : Request) (log log' : list call) (resp : Response) :
  parses_json rt ->
  method req <> "OPTIONS" ->
  Grounded.handler rt w req log = (Ret resp, log') ->
  status resp = 200%Z ->
  verdict_response grounded_modes resp.
Proof.
  intros PJ Hm H S. apply String.eqb_neq in Hm.
  unfold Grounded.handler in H. rewrite Hm in H. unfold try_catch in H.
  destruct (Grounded.analyze rt w req log) as [[r | e] l] eqn:E.
  - injection H as <- _. apply (Grounded_analyze_shape rt w PJ req _ _ _ E S).
  - injection H as <- _. discriminate S.
Qed.

Lemma sample_runtime_parses_json : parses_json sample_runtime.
Proof.
  intros s v. unfold sample_runtime, JSON_parse.
  destruct (s =? "{}"); [intros [= <-]; reflexivity |].
  destruct (s =? "null"); [intros [= <-]; reflexivity | discriminate].
Defined.

Definition response_of (run : outcome Response * list call) : Response :=
  match fst run with
  | Ret r => r
  | Throw _ => error_Response 500 ""
  end.

Lemma Plain_success_is_canonical_witness :
  verdict_response plain_modes
    (response_of (Plain.handler sample_runtime searching_world
                    (post election_claim) [])).
Proof.
  apply (Plain_success_is_canonical sample_runtime searching_world
           (post election_claim) []
           (snd (Plain.handler sample_runtime searching_world
                   (post election_claim) []))).
  - exact sample_runtime_parses_json.
  - discriminate.
  - vm_compute. reflexivity.
  - reflexivity.
Defined.

Lemma Grounded_success_is_canonical_witness :
  verdict_response grounded_modes
    (response_of (Grounded.handler sample_runtime searching_world
                    (post election_claim) [])).
Proof.
  apply (Grounded_success_is_canonical sample_runtime searching_world
           (post election_claim) []
           (snd (Grounded.handler sample_runtime searching_world
                   (post election_claim) []))).
  - exact sample_runtime_parses_json.
  - discriminate.
  - vm_compute. reflexivity.
  - vm_compute. reflexivity.
Defined.

(** * Whole runs *)

(** A claim the classifier does not mark for live search is answered by
    the first handler with exactly two gateway calls, the decision and
    the verdict asked with the static prompt; no search is made even when
    a search key is configured. *)
Theorem static_claim_is_not_searched (rt : Runtime) (w : World) (req : Request)
    (text apiKey decision : string) (verdict : value) :
  carries req text ->
  configured (LOVABLE_API_KEY w) = Some apiKey ->
  answers w 0 (VStr decision) ->
  includes sentinel decision = false ->
  answers w 1 verdict ->
  nullish (parseAnalysis rt Plain.parse_default verdict) = false ->
  exists fields,
    sanitize (parseAnalysis rt Plain.parse_default verdict) = Ret fields /\
    Plain.handler rt w req [] =
    (Ret (ok_Response (fields ++ [ ("sourceMode", VStr "static");
                                   ("sources", VArr []) ])%list),
     [ Gateway apiKey
         (chat_payload Plain.decisionSystem (Plain.decisionUser (trim text)));
       Gateway apiKey
         (chat_payload Plain.analysisSystem
            ("Analyze this news content for credibility:" ++ nl ++ nl ++
             dq ++ trim text ++ dq)) ]).
Proof.
  intros C K Hdec Hsen Hver Hcand.
  rewrite (Plain_handler_validated rt w req text [] C), K.
  unfold try_catch.
  unfold bind at 1.
  rewrite (Plain_callGemini_answers w _ _ _ (VStr decision) [] Hdec).
  cbn [app].
  unfold bind at 1, lift at 1.
  rewrite (Plain_needsLiveSearch_text decision), Hsen.
  unfold bind at 1. cbn [Plain.gather]. unfold ret at 1.
  unfold bind at 1.
  rewrite (Plain_callGemini_answers w _ _ _ verdict [_] Hver).
  unfold Plain.conclude, bind, lift.
  rewrite (sanitize_fields _ Hcand).
  eexists. split; reflexivity.
Qed.

Definition static_configured_world : World :=
  {| SERPAPI_KEY := Some "serp-key";
     LOVABLE_API_KEY := Some "gateway-key";
     today := "2026-02-06";
     net := fun i =>
       match i with
       | O => gateway_answer (VStr "STATIC_ANALYSIS_OK")
       | _ => gateway_answer (VStr "{}")
       end |}.

Lemma gateway_answer_answers (w : World) (i : nat) (content : value) :
  net w i = gateway_answer content ->
  truthy content = true ->
  answers w i content.
Proof.
  intros E T. eexists. eexists. split; [exact E |].
  split; [reflexivity |]. split; [reflexivity |].
  split; [reflexivity |]. split; [reflexivity | exact T].
Defined.

Lemma static_claim_is_not_searched_witness :
  exists fields,
    sanitize (parseAnalysis sample_runtime Plain.parse_default (VStr "{}"))
      = Ret fields /\
    Plain.handler sample_runtime static_configured_world (post election_claim) [] =
    (Ret (ok_Response (fields ++ [ ("sourceMode", VStr "static");
                                   ("sources", VArr []) ])%list),
     [ Gateway "gateway-key"
         (chat_payload Plain.decisionSystem
            (Plain.decisionUser (trim "The minister resigned this morning")));
       Gateway "gateway-key"
         (chat_payload Plain.analysisSystem
            ("Analyze this news content for credibility:" ++ nl ++ nl ++
             dq ++ trim "The minister resigned this morning" ++ dq)) ]).
Proof.
  apply (static_claim_is_not_searched sample_runtime static_configured_world
           (post election_claim) "The minister resigned this morning"
           "gateway-key" "STATIC_ANALYSIS_OK" (VStr "{}")).
  - exact election_claim_carries.
  - reflexivity.
  - apply gateway_answer_answers; reflexivity.
  - reflexivity.
  - apply gateway_answer_answers; reflexivity.
  - reflexivity.
Defined.

(** ** The search results the first handler shows *)




(** The text a field of a result gives to the evidence: itself, or [d]
    when it is missing or empty. *)
Definition text_or (v : value) (d : string) : string :=
  string_of (or_else v (VStr d)).

(** The entry of the evidence block for the result at index [i]: its
    number, title, snippet and link, on three lines. *)
Definition evidence_entry (i : nat) (r : value) : string :=
  NilEmpty.string_of_uint (Nat.to_uint (i + 1)) ++ ". "
  ++ text_or (get_opt r "title") "Untitled" ++ nl
  ++ text_or (get_opt r "snippet") "" ++ nl
  ++ text_or (get_opt r "link") "".

Fixpoint evidence_entries (i : nat) (l : list value) : list string :=
  match l with
  | [] => []
  | r :: rest => evidence_entry i r :: evidence_entries (S i) rest
  end.

(** The evidence block of a reply: the entries of its first five
    results, numbered from 1, an empty line between two of them. *)
Definition evidence_block (results : list value) : string :=
  join (nl ++ nl) (evidence_entries 0 (firstn 5 results)).

Section SearchResults.

Variable rt : Runtime.
Variable w : World.






End SearchResults.





(** ** The fallback of the third handler *)

(** The [i]-th outbound call is a gateway call that succeeds with
    [content] and grounding metadata yielding the sources [gs]. *)
Definition answers_grounded (w : World) (i : nat) (content : value)
    (gs : list value) : Prop :=
  exists r data,
    net w i = Resolved r /\ up_ok r = true /\ up_json r = Ret data /\
    nullish data = false /\ reply_content data = content /\
    truthy content = true /\
    Grounded.groundedSources_of data (first_opt (get_opt data "choices")) = Ret gs.

Section GroundedRuns.

Variable rt : Runtime.
Variable w : World.

Lemma Grounded_callGemini_answers (apiKey system user : string)
    (content : value) (gs : list value) (log : list call) :
  answers_grounded w (List.length log) content gs ->
  Grounded.callGemini w apiKey system user log =
  (Ret (GContent content gs),
   (log ++ [Gateway apiKey (chat_payload system user)])%list).
Proof.
  intros [r [data [Hn [Hok [Hj [Hd [Hc [Ht Hg]]]]]]]].
  unfold Grounded.callGemini. unfold bind at 1.
  rewrite (gateway_reply_replied w apiKey system user r data log Hn Hok Hj).
  unfold bind, lift. rewrite (get_prop_get_opt _ _ Hd).
  fold (reply_content data). rewrite Hc, Ht. cbn [negb]. rewrite Hg.
  reflexivity.
Qed.

Lemma Grounded_callGemini_refused (apiKey system user t : string)
    (r : upstream) (log : list call) :
  net w (List.length log) = Resolved r ->
  up_ok r = false ->
  up_text r = Ret t ->
  Grounded.callGemini w apiKey system user log =
  (Ret (GError (upstream_error (up_status r))),
   (log ++ [Gateway apiKey (chat_payload system user)])%list).
Proof.
  intros Hn Hok Ht. unfold Grounded.callGemini. unfold bind at 1.
  rewrite (gateway_reply_refused w apiKey system user t r log Hn Hok Ht).
  reflexivity.
Qed.

End GroundedRuns.

(** When the gateway answers the grounded verdict call of the third
    handler with a failure status, the handler does not answer with that
    error: it asks for the verdict a second time, with the fallback
    prompt.  If the claim needed no live search, or no search key is
    configured, the run is three gateway calls and the answer to the
    third is sanitized and sent with status 200, [sourceMode] static and
    no sources. *)
Theorem grounded_failure_falls_back (rt : Runtime) (w : World) (req : Request)
    (text apiKey decision t : string) (r : upstream) (verdict : value)
    (gs0 gs2 : list value) :
  carries req text ->
  configured (LOVABLE_API_KEY w) = Some apiKey ->
  answers_grounded w 0 (VStr decision) gs0 ->
  net w 1 = Resolved r ->
  up_ok r = false ->
  up_text r = Ret t ->
  includes sentinel decision = false \/ configured (SERPAPI_KEY w) = None ->
  answers_grounded w 2 verdict gs2 ->
  nullish (parseAnalysis rt Grounded.fallback_parse_default verdict) = false ->
  exists fields,
    sanitize (parseAnalysis rt Grounded.fallback_parse_default verdict)
      = Ret fields /\
    Grounded.handler rt w req [] =
    (Ret (ok_Response (fields ++ [ ("sourceMode", VStr "static");
                                   ("sources", VArr []) ])%list),
     [ Gateway apiKey
         (chat_payload (Grounded.decisionSystem (today w))
            (Grounded.decisionUser (trim text)));
       Gateway apiKey
         (chat_payload (Grounded.analysisSystem (today w))
            (Grounded.analysisUser (trim text)));
       Gateway apiKey
         (chat_payload (Grounded.fallbackSystem (today w) "")
            (Grounded.fallbackUser "" (trim text))) ]).
Proof.
  intros C K Hdec Hn Hok Ht Hstatic Hver Hcand.
  rewrite (Grounded_handler_validated rt w req text [] C), K.
  unfold try_catch.
  unfold bind at 1.
  rewrite (Grounded_callGemini_answers w _ _ _ (VStr decision) gs0 [] Hdec).
  cbn [app].
  unfold bind at 1, lift at 1. cbn [Grounded.needsLiveSearch Method.includes].
  unfold bind at 1.
  rewrite (Grounded_callGemini_refused w _ _ _ t r [_] Hn Hok Ht).
  cbn [app].
  assert (E : forall log,
             (if includes sentinel decision
              then
                let* search := Grounded.runLiveSearch rt w (trim text) in
                if negb (truthy (error search))
                then ret (snippets search, sources search, "live-web")
                else ret ("", [], "static")
              else ret ("", @nil value, "static")) log =
             (Ret ("", [], "static"), log)).
  { intros log. destruct Hstatic as [-> | S]; [reflexivity |].
    destruct (includes sentinel decision); [| reflexivity].
    unfold Grounded.runLiveSearch, serpSearch, bind. rewrite S. reflexivity. }
  unfold Grounded.fallbackAnalysis.
  unfold bind at 1. rewrite E. cbv zeta. cbn [fst snd].
  unfold bind at 1.
  rewrite (Grounded_callGemini_answers w _ _ _ verdict gs2 [_; _] Hver).
  unfold Grounded.fallback_conclude, bind, lift.
  rewrite (sanitize_fields _ Hcand).
  eexists. split; reflexivity.
Qed.

Definition failing_grounded_world : World :=
  {| SERPAPI_KEY := None;
     LOVABLE_API_KEY := Some "gateway-key";
     today := "2026-02-06";
     net := fun i =>
       match i with
       | O => gateway_answer (VStr "LIVE_SEARCH_REQUIRED")
       | S O => Resolved {| up_status := 503; up_text := Ret "unavailable";
                            up_json := Throw (ErrorObj "SyntaxError" "Unexpected token") |}
       | _ => gateway_answer (VStr "{}")
       end |}.

Lemma gateway_answer_answers_grounded (w : World) (i : nat) (content : value) :
  net w i = gateway_answer content ->
  truthy content = true ->
  answers_grounded w i content [].
Proof.
  intros E T. eexists. eexists. split; [exact E |].
  split; [reflexivity |]. split; [reflexivity |].
  split; [reflexivity |]. split; [reflexivity |].
  split; [exact T | reflexivity].
Defined.

Lemma grounded_failure_falls_back_witness :
  exists fields,
    sanitize (parseAnalysis sample_runtime Grounded.fallback_parse_default (VStr "{}"))
      = Ret fields /\
    Grounded.handler sample_runtime failing_grounded_world (post election_claim) [] =
    (Ret (ok_Response (fields ++ [ ("sourceMode", VStr "static");
                                   ("sources", VArr []) ])%list),
     [ Gateway "gateway-key"
         (chat_payload (Grounded.decisionSystem "2026-02-06")
            (Grounded.decisionUser (trim "The minister resigned this morning")));
       Gateway "gateway-key"
         (chat_payload (Grounded.analysisSystem "2026-02-06")
            (Grounded.analysisUser (trim "The minister resigned this morning")));
       Gateway "gateway-key"
         (chat_payload (Grounded.fallbackSystem "2026-02-06" "")
            (Grounded.fallbackUser "" (trim "The minister resigned this morning"))) ]).
Proof.
  apply (grounded_failure_falls_back sample_runtime failing_grounded_world
           (post election_claim) "The minister resigned this morning"
           "gateway-key" "LIVE_SEARCH_REQUIRED" "unavailable"
           {| up_status := 503; up_text := Ret "unavailable";
              up_json := Throw (ErrorObj "SyntaxError" "Unexpected token") |}
           (VStr "{}") [] []).
  - exact election_claim_carries.
  - reflexivity.
  - apply gateway_answer_answers_grounded; reflexivity.
  - reflexivity.
  - reflexivity.
  - reflexivity.
  - right. reflexivity.
  - apply gateway_answer_answers_grounded; reflexivity.
  - reflexivity.
Defined.

(** * Second handler: the whole pipeline

    [callGeminiWithSearch] around the search and the merge modelled in
    [ToolCalling], and the handler that calls it. *)

Module SearchPipeline.

Import ToolCalling.

Definition corsHeaders : list (string * string) :=
  [ ("Access-Control-Allow-Origin", "*");
    ("Access-Control-Allow-Headers",
     "authorization, x-client-info, apikey, content-type, x-supabase-client-platform, x-supabase-client-platform-version, x-supabase-client-runtime, x-supabase-client-runtime-version") ].

Definition jsonHeaders : list (string * string) :=
  (corsHeaders ++ [("Content-Type", "application/json")])%list.

Definition searchToolDef : value :=
  VObj [ ("type", VStr "function");
         ("function",
          VObj [ ("name", VStr "web_search");
                 ("description",
                  VStr "Search the web for current information to fact-check a claim. Call this for each distinct claim that needs verification.");
                 ("parameters",
                  VObj [ ("type", VStr "object");
                         ("properties",
                          VObj [ ("query",
                                  VObj [ ("type", VStr "string");
                                         ("description",
                                          VStr "The search query to verify the claim") ]) ]);
                         ("required", VArr [VStr "query"]);
                         ("additionalProperties", VBool false) ]) ]) ].

Definition systemPrompt (today : string) : string := lines
  [ "Today's real date is " ++ today ++ ". You are an expert fact-checker.";
    "You MUST use the web_search tool to verify any claims before making a verdict. Search for the key factual claims in the text.";
    "Do NOT rely on training data alone — always search first." ].

Definition firstPayload (today userInput : string) : value :=
  VObj [ ("model", VStr "google/gemini-3-flash-preview");
         ("messages",
          VArr [ VObj [("role", VStr "system"); ("content", VStr (systemPrompt today))];
                 VObj [("role", VStr "user");
                       ("content", VStr ("Fact-check this:" ++ nl ++ dq ++ userInput ++ dq))] ]);
         ("tools", VArr [searchToolDef]);
         ("tool_choice",
          VObj [ ("type", VStr "function");
                 ("function", VObj [("name", VStr "web_search")]) ]) ].

Definition analysisSystem (today : string) : string := lines
  [ "Today's real date is " ++ today ++ ". You are an expert fact-checker.";
    "You have been given LIVE web search results below. Base your verdict ONLY on this evidence and the user's claim.";
    "If the evidence is insufficient or contradictory, verdict MUST be " ++ dq
      ++ "uncertain" ++ dq ++ ".";
    "";
    "Respond with valid JSON exactly in this format (no markdown, no code fences):";
    "{";
    "  " ++ dq ++ "verdict" ++ dq ++ ": " ++ dq ++ "real" ++ dq ++ " | "
         ++ dq ++ "fake" ++ dq ++ " | " ++ dq ++ "uncertain" ++ dq ++ ",";
    "  " ++ dq ++ "confidence" ++ dq ++ ": <number 0-100>,";
    "  " ++ dq ++ "explanation" ++ dq ++ ": " ++ dq
         ++ "<clear explanation grounded in the search evidence>" ++ dq ++ ",";
    "  " ++ dq ++ "redFlags" ++ dq ++ ": [" ++ dq ++ "<flag1>" ++ dq ++ ", "
         ++ dq ++ "<flag2>" ++ dq ++ "]";
    "}" ].

Definition analysisUser (userInput evidenceText : string) : string :=
  "Claim to fact-check:" ++ nl ++ dq ++ userInput ++ dq ++ nl ++ nl ++
  "Live web search evidence:" ++ nl ++
  (if evidenceText =? "" then "No results found — mark as uncertain."
   else evidenceText).

Definition parse_default : string :=
  "Unable to fully parse analysis. Please try again.".

(** [s.replace(/```(?:json)?\s*/g, "")], read from left to right: at a
    fence, the fence, a [json] tag right after it and the white space
    that follows are dropped ([pending] counts the bytes of fence, tag or
    white-space character still to drop, [ws] says that white space is
    being dropped); any other character is kept. *)
Fixpoint strip_tagged_from (pending : nat) (ws : bool) (s : string) : string :=
  match s with
  | EmptyString => EmptyString
  | String c r =>
      match pending with
      | S k => strip_tagged_from k ws r
      | O =>
          match (if ws then ws_width s else O) with
          | S k => strip_tagged_from k true r
          | O =>
              if prefix fence s then
                strip_tagged_from
                  (if prefix "json" (substring 3 (String.length s) s) then 6 else 2)
                  true r
              else String c (strip_tagged_from 0 false r)
          end
      end
  end.

Definition strip_tagged (s : string) : string := strip_tagged_from 0 false s.

(** [s.replace(/```/g, "")] *)
Fixpoint remove_fences_from (pending : nat) (s : string) : string :=
  match s with
  | EmptyString => EmptyString
  | String c r =>
      match pending with
      | S k => remove_fences_from k r
      | O =>
          if prefix fence s then remove_fences_from 2 r
          else String c (remove_fences_from 0 r)
      end
  end.

Definition remove_fences (s : string) : string := remove_fences_from 0 s.

Definition cleaned (content : string) : string :=
  trim (remove_fences (strip_tagged content)).

(** The record as it is serialized in the response. *)
Definition source_value (s : Source) : value :=
  VObj [("title", title s); ("url", url s); ("snippet", snippet s)].

Section WithRuntime.

Variable rt : Runtime.
Variable w : World.

(** The body of the [try] around one tool call: the query it proposes,
    if it has one. *)
Definition proposed_query (tc : value) : outcome (option value) :=
  let+ f := get_prop tc "function" in
  let+ a := get_prop f "arguments" in
  let+ args := (if typeof a =? "string" then JSON_parse rt (string_of a)
                else Ret a) in
  let+ q := get_prop args "query" in
  Ret (if truthy q then Some q else None).

(** One round of the loop over the tool calls; a call whose arguments do
    not parse, or that has none, is skipped. *)
Definition push_query (acc : list value) (tc : value) : list value :=
  match proposed_query tc with
  | Ret (Some q) => (acc ++ [q])%list
  | _ => acc
  end.

(** [searchQueries], with the default search when the model proposed
    none. *)
Definition searchQueries_of (toolCalls : list value) (userInput : string)
    : list value :=
  match fold_left push_query toolCalls [] with
  | [] => [VStr (slice0 200 userInput)]
  | proposed => proposed
  end.

Fixpoint searchEach (queries : list value) (st : merged) : M merged :=
  match queries with
  | [] => ret st
  | query :: rest =>
      let* results := performWebSearch_of rt w query in
      let* st' := lift (foldM (push_unique rt) results st) in
      searchEach rest st'
  end.

Definition callGeminiWithSearch (apiKey userInput today : string)
    : M (gemini_result (list Source)) :=
  let* firstRes := fetch w (Gateway apiKey (firstPayload today userInput)) in
  if negb (up_ok firstRes) then
    let* errText := lift (up_text firstRes) in
    if (up_status firstRes =? 429)%Z then
      ret (GError "Rate limit exceeded. Please try again later.")
    else if (up_status firstRes =? 402)%Z then
      ret (GError "AI service quota exceeded. Please try again later.")
    else ret (GError "Failed to analyze content")
  else
    let* firstData := lift (up_json firstRes) in
    let* choices := lift (get_prop firstData "choices") in
    let firstChoice := first_opt choices in
    let toolCalls :=
      coalesce (get_opt (get_opt firstChoice "message") "tool_calls") (VArr []) in
    let* visited := lift (Method.iterate toolCalls) in
    let searchQueries := searchQueries_of visited userInput in
    let* st := searchEach (firstn 3 searchQueries) nothing_merged in
    let* analysisRes :=
      fetch w (Gateway apiKey
                 (chat_payload (analysisSystem today)
                    (analysisUser userInput (evidenceText st)))) in
    if negb (up_ok analysisRes) then
      let* errText := lift (up_text analysisRes) in
      ret (GError "Failed to analyze content")
    else
      let* analysisData := lift (up_json analysisRes) in
      let* answered := lift (get_prop analysisData "choices") in
      let content := get_opt (get_opt (first_opt answered) "message") "content" in
      if negb (truthy content) then ret (GError "Invalid AI response")
      else ret (GContent content (topSources st)).

(** The [try { ... JSON.parse(cleaned) } catch { default }] block. *)
Definition parseCleaned (content : value) : value :=
  otry (match content with
        | VStr c => JSON_parse rt (cleaned c)
        | _ => Throw (TypeError "content.replace is not a function")
        end)
       (fun _ => uncertain_default parse_default).

Definition error_Response (st : Z) (msg : string) : Response :=
  new_Response (error_body msg) (Some st) jsonHeaders.

Definition conclude (found : list Source) (content : value) : M Response :=
  let analysis := parseCleaned content in
  let* fields := lift (sanitize analysis) in
  ret (new_Response
         (Some (VObj (fields ++
                      [("sources", VArr (List.map source_value found))])%list))
         None jsonHeaders).

Definition analyze (req : Request) : M Response :=
  let* parsed := lift (req_json req) in
  let* text := lift (get_prop parsed "text") in
  if invalid_text text then
    ret (error_Response 400 "Please provide text to analyze")
  else
    match configured (LOVABLE_API_KEY w) with
    | None => throw (ErrorObj "Error" "AI service is not configured")
    | Some apiKey =>
        let userInput := trim (string_of text) in
        let* result := callGeminiWithSearch apiKey userInput (today w) in
        match result with
        | GError msg => ret (error_Response 500 msg)
        | GContent content found => conclude found content
        end
    end.

Definition handler (req : Request) : M Response :=
  if method req =? "OPTIONS" then ret (new_Response None None corsHeaders)
  else
    try_catch (analyze req)
      (fun e => ret (error_Response 500 (error_message e))).

End WithRuntime.

End SearchPipeline.

Example cleaned_cases :
  SearchPipeline.cleaned ("```json" ++ nl ++ "{}" ++ nl ++ "```") = "{}" /\
  SearchPipeline.cleaned "```{}```" = "{}" /\
  SearchPipeline.cleaned ("Here: ```json {} ``` done") = "Here: {} done" /\
  SearchPipeline.cleaned "````json" = "`json" /\
  SearchPipeline.cleaned "`` ``` `" = "`` `".
Proof. repeat split; reflexivity. Qed.

(** * Properties of the second handler *)

Section PipelineFacts.

Import ToolCalling.

Variable rt : Runtime.
Variable w : World.

Definition pipeline_cors_and_status (r : Response) : Prop :=
  allow_origin_any r /\ In (status r) [200%Z; 400%Z; 500%Z].

Lemma SearchPipeline_analyze_cors (req : Request) :
  returns pipeline_cors_and_status (SearchPipeline.analyze rt w req).
Proof.
  unfold SearchPipeline.analyze, SearchPipeline.callGeminiWithSearch.
  repeat first
    [ returns_step
    | progress cbv zeta
    | progress unfold SearchPipeline.conclude ];
  (split; [reflexivity | simpl; auto]).
Qed.

End PipelineFacts.

(** Whatever the request, the runtime and the network do, the second
    handler returns a response, with status 200, 400 or 500 and
    [Access-Control-Allow-Origin: *]; no exception leaves it. *)
Theorem SearchPipeline_every_response_allows_any_origin (rt : Runtime)
    (w : World) (req : Request) (log : list call) :
  exists resp log',
    SearchPipeline.handler rt w req log = (Ret resp, log') /\
    allow_origin_any resp /\
    In (status resp) [200%Z; 400%Z; 500%Z].
Proof.
  unfold SearchPipeline.handler. destruct (method req =? "OPTIONS").
  - eexists _, _. split; [reflexivity |]. split; [reflexivity | simpl; auto].
  - apply (try_catch_total pipeline_cors_and_status
             (SearchPipeline.analyze rt w req)
             (fun e => SearchPipeline.error_Response 500 (error_message e))).
    + apply SearchPipeline_analyze_cors.
    + intros e. split; [reflexivity | simpl; auto].
Qed.

(** The second handler answers a preflight with status 200, an empty
    body and CORS headers that allow any origin and, among the headers
    it lists, authorization, content-type and apikey; no call is made. *)
Theorem SearchPipeline_options_preflight (rt : Runtime) (w : World)
    (req : Request) (log : list call) :
  method req = "OPTIONS" ->
  exists resp,
    SearchPipeline.handler rt w req log = (Ret resp, log) /\
    status resp = 200%Z /\
    body resp = None /\
    permissive_cors resp.
Proof.
  intros E. exists (new_Response None None SearchPipeline.corsHeaders).
  unfold SearchPipeline.handler. rewrite E. cbn [String.eqb Ascii.eqb Bool.eqb].
  repeat split; try reflexivity.
  eexists. split; [reflexivity |].
  intros t [<- | [<- | [<- | []]]]; vm_compute; tauto.
Qed.

Lemma SearchPipeline_options_preflight_witness :
  exists resp,
    SearchPipeline.handler sample_runtime offline preflight [] = (Ret resp, []) /\
    status resp = 200%Z /\
    body resp = None /\
    permissive_cors resp.
Proof.
  apply (SearchPipeline_options_preflight sample_runtime offline preflight []).
  reflexivity.
Defined.

(** What the second handler answers before it calls anyone, to a
    request that is not a preflight.  A body that is no JSON is answered
    500 with the message of the error, and so is a body without fields
    to read ([null]); a body other than [null] whose [text] is missing,
    not a string, or blank after trimming is answered 400 with
    [{ error: "Please provide text to analyze" }]; a body with a valid
    text, when no gateway key is configured, is answered 500 with
    [AI service is not configured].  In each case the log of outbound
    calls is as it was. *)
Theorem SearchPipeline_rejects_before_calling (rt : Runtime) (w : World)
    (req : Request) (log : list call) :
  method req <> "OPTIONS" ->
  match req_json req with
  | Throw e =>
      SearchPipeline.handler rt w req log =
      (Ret (SearchPipeline.error_Response 500 (error_message e)), log)
  | Ret parsed =>
      (nullish parsed = true ->
       exists msg,
         SearchPipeline.handler rt w req log =
         (Ret (SearchPipeline.error_Response 500 msg), log)) /\
      (nullish parsed = false ->
       (forall s, get_opt parsed "text" = VStr s -> trim s = EmptyString) ->
       SearchPipeline.handler rt w req log =
       (Ret (SearchPipeline.error_Response 400 "Please provide text to analyze"),
        log)) /\
      (forall s,
         get_opt parsed "text" = VStr s -> trim s <> EmptyString ->
         configured (LOVABLE_API_KEY w) = None ->
         SearchPipeline.handler rt w req log =
         (Ret (SearchPipeline.error_Response 500 "AI service is not configured"),
          log))
  end.
Proof.
  intros Hm. apply String.eqb_neq in Hm.
  unfold SearchPipeline.handler. rewrite Hm.
  unfold try_catch, SearchPipeline.analyze, bind, lift.
  destruct (req_json req) as [parsed | e]; [| reflexivity].
  split; [| split].
  - intros N. destruct parsed; try discriminate N; eexists; reflexivity.
  - intros N B. rewrite (get_prop_get_opt _ _ N).
    rewrite (proj2 (invalid_text_iff _) B). reflexivity.
  - intros s E T K.
    assert (N : nullish parsed = false)
      by (destruct parsed; try reflexivity; discriminate E).
    rewrite (get_prop_get_opt _ _ N).
    destruct (invalid_text (get_opt parsed "text")) eqn:V.
    + contradiction (T (proj1 (invalid_text_iff _) V s E)).
    + rewrite K. reflexivity.
Qed.

(** The four cases on concrete requests: a body that is no JSON, the
    body [null], a text of wide white space, and a valid text where the
    gateway key is the empty string. *)
Definition truncated_body : Request :=
  {| method := "POST";
     req_json := Throw (ErrorObj "SyntaxError" "Unexpected end of JSON input") |}.

Lemma SearchPipeline_rejects_before_calling_witness :
  SearchPipeline.handler sample_runtime offline truncated_body [] =
  (Ret (SearchPipeline.error_Response 500 "Unexpected end of JSON input"), []) /\
  (exists msg,
     SearchPipeline.handler sample_runtime offline (post VNull) [] =
     (Ret (SearchPipeline.error_Response 500 msg), [])) /\
  SearchPipeline.handler sample_runtime offline
    (post (VObj [("text", VStr wide_blank)])) [] =
  (Ret (SearchPipeline.error_Response 400 "Please provide text to analyze"), []) /\
  SearchPipeline.handler sample_runtime keyless (post election_claim) [] =
  (Ret (SearchPipeline.error_Response 500 "AI service is not configured"), []).
Proof.
  split; [| split; [| split]].
  - apply (SearchPipeline_rejects_before_calling sample_runtime offline
             truncated_body []).
    discriminate.
  - destruct (SearchPipeline_rejects_before_calling sample_runtime offline
                (post VNull) []) as [H _]; [discriminate |].
    apply H. reflexivity.
  - destruct (SearchPipeline_rejects_before_calling sample_runtime offline
                (post (VObj [("text", VStr wide_blank)])) []) as [_ [H _]];
      [discriminate |].
    apply H; [reflexivity |].
    intros s E. vm_compute in E. injection E as <-. reflexivity.
  - destruct (SearchPipeline_rejects_before_calling sample_runtime keyless
                (post election_claim) []) as [_ [_ H]]; [discriminate |].
    apply (H "The minister resigned this morning");
      [reflexivity | discriminate | reflexivity].
Defined.

(** When the gateway answers the first call of the second handler, the
    one that asks for search queries, with a failure status, the handler
    answers 500 with the message of that status and makes no other
    call. *)
Theorem SearchPipeline_first_call_failure (rt : Runtime) (w : World)
    (req : Request) (text apiKey t : string) (r : upstream) (log : list call) :
  carries req text ->
  configured (LOVABLE_API_KEY w) = Some apiKey ->
  net w (List.length log) = Resolved r ->
  up_ok r = false ->
  up_text r = Ret t ->
  SearchPipeline.handler rt w req log =
    (Ret (SearchPipeline.error_Response 500 (upstream_error (up_status r))),
     (log ++ [Gateway apiKey
                (SearchPipeline.firstPayload (today w) (trim text))])%list).
Proof.
  intros [Hm [parsed [Hj [Hn [Ht Hb]]]]] K Hnet Hok Htext.
  apply String.eqb_neq in Hm.
  unfold SearchPipeline.handler. rewrite Hm.
  unfold try_catch, SearchPipeline.analyze.
  unfold bind at 1, lift at 1. rewrite Hj.
  unfold bind at 1, lift at 1.
  rewrite (get_prop_get_opt _ _ Hn), Ht, (valid_text _ Hb), K.
  cbv zeta. unfold SearchPipeline.callGeminiWithSearch.
  unfold bind, fetch, lift. cbn [string_of]. rewrite Hnet, Hok. cbn [negb].
  rewrite Htext. unfold upstream_error.
  destruct (up_status r =? 429)%Z; [reflexivity |].
  destruct (up_status r =? 402)%Z; reflexivity.
Qed.

Lemma SearchPipeline_first_call_failure_witness :
  SearchPipeline.handler sample_runtime throttled (post election_claim) [] =
    (Ret (SearchPipeline.error_Response 500
            "Rate limit exceeded. Please try again later."),
     [Gateway "gateway-key"
        (SearchPipeline.firstPayload "2026-02-06"
           (trim "The minister resigned this morning"))]).
Proof.
  apply (SearchPipeline_first_call_failure sample_runtime throttled
           (post election_claim) "The minister resigned this morning"
           "gateway-key" "slow down"
           {| up_status := 429;
              up_text := Ret "slow down";
              up_json := Throw (ErrorObj "SyntaxError" "Unexpected token") |} []).
  - exact election_claim_carries.
  - reflexivity.
  - reflexivity.
  - reflexivity.
  - reflexivity.
Defined.

(** ** The sources of a successful response *)

(** No two records of the list have URLs that [===] holds equal. *)
Definition distinct_urls (l : list ToolCalling.Source) : Prop :=
  ForallOrdPairs
    (fun a b =>
       ToolCalling.strict_equals (ToolCalling.url a) (ToolCalling.url b) = false)
    l.

Section DistinctSources.

Import ToolCalling.

Variable rt : Runtime.
Variable w : World.

Lemma ForallOrdPairs_snoc {A} (R : A -> A -> Prop) (l : list A) (r : A) :
  ForallOrdPairs R l -> Forall (fun a => R a r) l ->
  ForallOrdPairs R (l ++ [r]).
Proof.
  induction 1 as [| a l Ha Hl IH]; intros F; simpl.
  - constructor; constructor.
  - inversion F as [| ? ? Far Flr]; subst. constructor.
    + apply Forall_app. split; [exact Ha | constructor; [exact Far | constructor]].
    + apply IH, Flr.
Qed.

Lemma ForallOrdPairs_firstn {A} (R : A -> A -> Prop) (n : nat) (l : list A) :
  ForallOrdPairs R l -> ForallOrdPairs R (firstn n l).
Proof.
  intros H. revert n. induction H as [| a l Ha Hl IH]; intros n.
  - rewrite firstn_nil. constructor.
  - destruct n as [| n]; [constructor |]. cbn [firstn]. constructor.
    + rewrite Forall_forall in *. intros x I. apply Ha.
      rewrite <- (firstn_skipn n l). apply in_or_app. left. exact I.
    + apply IH.
Qed.

Lemma push_unique_distinct (st st' : merged) (r : Source) :
  distinct_urls (allSources st) ->
  push_unique rt st r = Ret st' ->
  distinct_urls (allSources st').
Proof.
  intros D. unfold push_unique.
  destruct (existsb (fun s => strict_equals (url s) (url r)) (allSources st)) eqn:E.
  - intros [= <-]. exact D.
  - destruct (render rt r) as [line | e]; [| discriminate].
    intros [= <-]. cbn [allSources].
    apply ForallOrdPairs_snoc; [exact D |].
    apply Forall_forall. intros s I.
    destruct (strict_equals (url s) (url r)) eqn:S; [| reflexivity].
    assert (X : existsb (fun s => strict_equals (url s) (url r)) (allSources st) = true)
      by (apply existsb_exists; eauto).
    congruence.
Qed.

Lemma foldM_push_distinct (results : list Source) :
  forall st st',
    distinct_urls (allSources st) ->
    foldM (push_unique rt) results st = Ret st' ->
    distinct_urls (allSources st').
Proof.
  induction results as [| r results IH]; intros st st' D H.
  - injection H as <-. exact D.
  - cbn [foldM] in H.
    destruct (push_unique rt st r) as [st1 | e] eqn:E; [| discriminate].
    apply (IH st1 st' (push_unique_distinct _ _ _ D E) H).
Qed.

Lemma searchEach_distinct (queries : list value) :
  forall st,
    distinct_urls (allSources st) ->
    returns (fun st' => distinct_urls (allSources st'))
      (SearchPipeline.searchEach rt w queries st).
Proof.
  induction queries as [| query rest IH]; intros st D.
  - apply returns_ret. exact D.
  - cbn [SearchPipeline.searchEach].
    apply returns_bind. intros results.
    apply returns_lift_bind. intros st1 F.
    apply IH. apply (foldM_push_distinct _ _ _ D F).
Qed.

Definition found_ok (res : gemini_result (list Source)) : Prop :=
  match res with
  | GError _ => True
  | GContent _ found => (List.length found <= 8)%nat /\ distinct_urls found
  end.

Lemma callGeminiWithSearch_found (apiKey userInput today : string) :
  returns found_ok (SearchPipeline.callGeminiWithSearch rt w apiKey userInput today).
Proof.
  unfold SearchPipeline.callGeminiWithSearch.
  apply returns_bind. intros firstRes.
  destruct (negb (up_ok firstRes)).
  - apply returns_bind. intros errText.
    destruct (up_status firstRes =? 429)%Z; [apply returns_ret; exact I |].
    destruct (up_status firstRes =? 402)%Z; apply returns_ret; exact I.
  - apply returns_bind. intros firstData.
    apply returns_bind. intros choices. cbv zeta.
    apply returns_bind. intros visited.
    apply (returns_bind_from (fun st => distinct_urls (allSources st))).
    + apply searchEach_distinct. constructor.
    + intros st D.
      apply returns_bind. intros analysisRes.
      destruct (negb (up_ok analysisRes)).
      * apply returns_bind. intros errText. apply returns_ret. exact I.
      * apply returns_bind. intros analysisData.
        apply returns_bind. intros answered. cbv zeta.
        destruct (negb (truthy _)); apply returns_ret; [exact I |].
        split; [apply firstn_le_length | apply ForallOrdPairs_firstn, D].
Qed.

End DistinctSources.

(** A verdict response of the second handler: the canonical fields
    followed by the sources, at most eight records no two of which have
    the same URL. *)
Definition pipeline_response (r : Response) : Prop :=
  exists fields found,
    body r = Some (VObj (fields ++
                         [("sources",
                           VArr (List.map SearchPipeline.source_value found))])%list) /\
    canonical_fields fields /\
    (List.length found <= 8)%nat /\
    distinct_urls found.

Lemma parseCleaned_is_json (rt : Runtime) (content : value) :
  parses_json rt -> is_json (SearchPipeline.parseCleaned rt content) = true.
Proof.
  intros P. unfold SearchPipeline.parseCleaned, otry.
  destruct content; try reflexivity.
  destruct (JSON_parse rt (SearchPipeline.cleaned s)) as [v | e] eqn:E;
    [| reflexivity].
  apply (P _ _ E).
Qed.

Lemma SearchPipeline_analyze_shape (rt : Runtime) (w : World) (req : Request) :
  parses_json rt ->
  returns (when_200 pipeline_response) (SearchPipeline.analyze rt w req).
Proof.
  intros PJ. unfold SearchPipeline.analyze.
  apply returns_bind. intros parsed.
  apply returns_bind. intros text.
  destruct (invalid_text text);
    [apply returns_ret; intros H; discriminate H |].
  destruct (configured (LOVABLE_API_KEY w)) as [apiKey |]; [| apply returns_throw].
  cbv zeta.
  apply (returns_bind_from _ _ _ _ (callGeminiWithSearch_found rt w apiKey _ _)).
  intros [msg | content found] F;
    [apply returns_ret; intros H; discriminate H |].
  unfold SearchPipeline.conclude. cbv zeta.
  apply returns_lift_bind. intros fields Hs.
  apply returns_ret. intros _.
  exists fields, found. split; [reflexivity |].
  split; [apply (sanitize_canonical _ _ (parseCleaned_is_json rt content PJ) Hs) |].
  exact F.
Qed.

(** Every 200 response of the second handler to a request that is not a
    preflight carries the four sanitized fields and then [sources]: at
    most eight records, no two with the same URL. *)
Theorem SearchPipeline_success_is_canonical (rt : Runtime) (w : World)
    (req : Request) (log log' : list call) (resp : Response) :
  parses_json rt ->
  method req <> "OPTIONS" ->
  SearchPipeline.handler rt w req log = (Ret resp, log') ->
  status resp = 200%Z ->
  pipeline_response resp.
Proof.
  intros PJ Hm H S. apply String.eqb_neq in Hm.
  unfold SearchPipeline.handler in H. rewrite Hm in H. unfold try_catch in H.
  destruct (SearchPipeline.analyze rt w req log) as [[r | e] l] eqn:E.
  - injection H as <- _. apply (SearchPipeline_analyze_shape rt w req PJ _ _ _ E S).
  - injection H as <- _. discriminate S.
Qed.

(** A run of the second handler: the model proposes no query, the
    default search returns two results through SerpAPI, the verdict
    comes fenced. *)
Definition pipeline_world : World :=
  {| SERPAPI_KEY := Some "serp-key";
     LOVABLE_API_KEY := Some "gateway-key";
     today := "2026-02-06";
     net := fun i =>
       match i with
       | O => gateway_answer (VStr "no tool call")
       | S O => Resolved {| up_status := 200; up_text := Ret "";
                            up_json := Ret (VObj [("organic_results",
                                                   VArr [organic 1; organic 2; organic 1])]) |}
       | _ => gateway_answer (VStr ("```json" ++ nl ++ "{}" ++ nl ++ "```"))
       end |}.

Example pipeline_run :
  exists resp log,
    SearchPipeline.handler sample_runtime pipeline_world (post election_claim) [] =
    (Ret resp, log) /\
    status resp = 200%Z /\
    body resp =
      Some (VObj [ ("verdict", VStr "uncertain");
                   ("confidence", VNum (of_Z 50));
                   ("explanation", VStr "Analysis complete.");
                   ("redFlags", VArr []);
                   ("sources",
                    VArr [ VObj [ ("title", VStr "Result 1");
                                  ("url", VStr "https://example.org/1");
                                  ("snippet", VStr "...") ];
                           VObj [ ("title", VStr "Result 2");
                                  ("url", VStr "https://example.org/2");
                                  ("snippet", VStr "...") ] ]) ]) /\
    List.length log = 3%nat.
Proof.
  eexists. eexists. split; [vm_compute; reflexivity |].
  split; [reflexivity |]. split; reflexivity.
Qed.

Lemma SearchPipeline_success_is_canonical_witness :
  pipeline_response
    (response_of (SearchPipeline.handler sample_runtime pipeline_world
                    (post election_claim) [])).
Proof.
  apply (SearchPipeline_success_is_canonical sample_runtime pipeline_world
           (post election_claim) []
           (snd (SearchPipeline.handler sample_runtime pipeline_world
                   (post election_claim) []))).
  - exact sample_runtime_parses_json.
  - discriminate.
  - vm_compute. reflexivity.
  - reflexivity.
Defined.

(** ** The cost of a request to the second handler *)

Section PipelineCalls.

Import ToolCalling.

Variable rt : Runtime.
Variable w : World.

Lemma primarySearch_makes (query : string) :
  makes (keyed w) 1 (primarySearch w query).
Proof.
  unfold primarySearch. destruct (configured (SERPAPI_KEY w)) as [key |] eqn:K;
    [| apply makes_ret].
  apply (makes_try _ 1 0); [| intros e; apply makes_ret].
  apply (makes_bind _ 1 0); [apply makes_fetch, K |].
  intros res. makes_pure.
Qed.

Lemma fallbackSearch_makes (query : string) :
  makes (keyed w) 1 (fallbackSearch rt w query).
Proof.
  unfold fallbackSearch. destruct (configured (LOVABLE_API_KEY w)) as [key |] eqn:K;
    [| apply makes_ret].
  apply (makes_try _ 1 0); [| intros e; apply makes_ret].
  apply (makes_bind _ 1 0); [apply makes_fetch, K |].
  intros res. makes_pure.
Qed.

Lemma performWebSearch_makes (query : string) :
  makes (keyed w) 2 (performWebSearch rt w query).
Proof.
  unfold performWebSearch.
  apply (makes_bind _ 1 1); [apply primarySearch_makes |].
  intros [results |]; [apply makes_ret | apply fallbackSearch_makes].
Qed.

Lemma searchEach_makes (queries : list value) :
  forall st,
    makes (keyed w) (2 * List.length queries)
      (SearchPipeline.searchEach rt w queries st).
Proof.
  induction queries as [| query rest IH]; intros st; [apply makes_ret |].
  cbn [SearchPipeline.searchEach List.length].
  replace (2 * S (List.length rest))%nat with (2 + 2 * List.length rest)%nat by lia.
  apply makes_bind.
  - unfold ToolCalling.performWebSearch_of.
    destruct (to_string rt query) as [q | e]; [| apply makes_ret].
    destruct (well_formed q); [apply performWebSearch_makes |].
    eapply makes_mono; [apply fallbackSearch_makes | lia].
  - intros results. apply makes_bind_lift. intros st'. apply IH.
Qed.

Lemma callGeminiWithSearch_makes (apiKey userInput today : string) :
  configured (LOVABLE_API_KEY w) = Some apiKey ->
  makes (keyed w) 8 (SearchPipeline.callGeminiWithSearch rt w apiKey userInput today).
Proof.
  intros K. unfold SearchPipeline.callGeminiWithSearch.
  apply (makes_bind _ 1 7); [apply makes_fetch, K |].
  intros firstRes. destruct (negb (up_ok firstRes)); [makes_pure |].
  apply makes_bind_lift. intros firstData.
  apply makes_bind_lift. intros choices. cbv zeta.
  apply makes_bind_lift. intros visited.
  apply (makes_bind _ 6 1).
  - eapply makes_mono; [apply searchEach_makes |].
    pose proof (firstn_le_length 3 (SearchPipeline.searchQueries_of rt visited userInput)).
    lia.
  - intros st.
    apply (makes_bind _ 1 0); [apply makes_fetch, K |].
    intros analysisRes. makes_pure.
Qed.

End PipelineCalls.

(** A request costs the second handler at most eight outbound calls (one
    to get the queries, at most two for each of at most three searches,
    one for the verdict), whatever happens upstream, and each call
    carries the key configured for its service. *)
Theorem SearchPipeline_calls_bounded_and_keyed (rt : Runtime) (w : World)
    (req : Request) :
  makes (keyed w) 8 (SearchPipeline.handler rt w req).
Proof.
  unfold SearchPipeline.handler.
  destruct (method req =? "OPTIONS"); [apply makes_ret |].
  apply (makes_try _ 8 0); [| intros e; apply makes_ret].
  unfold SearchPipeline.analyze.
  apply makes_bind_lift. intros parsed.
  apply makes_bind_lift. intros text.
  destruct (invalid_text text); [apply makes_ret |].
  destruct (configured (LOVABLE_API_KEY w)) as [apiKey |] eqn:K;
    [| apply makes_throw].
  cbv zeta.
  apply (makes_bind _ 8 0); [apply callGeminiWithSearch_makes, K |].
  intros [msg | content found]; [apply makes_ret |].
  unfold SearchPipeline.conclude. makes_pure.
Qed.

(** ** The search queries *)

Section Queries.

Variable rt : Runtime.

(** What the loop takes for the arguments [a] of a tool call: the value
    its JSON text parses to when [a] is text, [a] itself when it is not. *)
Definition read_as (a args : value) : Prop :=
  match a with
  | VStr s => JSON_parse rt s = Ret args
  | _ => args = a
  end.

(** The tool call [tc] names the query [q]: the arguments of its
    [function], read as above, have [q] for their [query], and [q] is
    truthy. *)
Definition names_query (tc q : value) : Prop :=
  nullish tc = false /\
  nullish (get_opt tc "function") = false /\
  exists args,
    read_as (get_opt (get_opt tc "function") "arguments") args /\
    nullish args = false /\
    get_opt args "query" = q /\
    truthy q = true.

(** The tool call names no query: it has no [function], its arguments
    are text that does not parse, the arguments have no properties (they
    are missing, or [null]), or their [query] is missing or falsy. *)
Definition names_nothing (tc : value) : Prop :=
  nullish tc = true \/
  nullish (get_opt tc "function") = true \/
  (exists s e,
     get_opt (get_opt tc "function") "arguments" = VStr s /\
     JSON_parse rt s = Throw e) \/
  (exists args,
     read_as (get_opt (get_opt tc "function") "arguments") args /\
     (nullish args = true \/ truthy (get_opt args "query") = false)).

(** The queries a list of tool calls names, in the order of the calls. *)
Inductive named_by : list value -> list value -> Prop :=
| named_done : named_by [] []
| named_query (tc q : value) (rest qs : list value) :
    names_query tc q -> named_by rest qs -> named_by (tc :: rest) (q :: qs)
| named_skip (tc : value) (rest qs : list value) :
    names_nothing tc -> named_by rest qs -> named_by (tc :: rest) qs.

Lemma get_prop_nullish (v : value) (k : string) :
  nullish v = true -> exists e, get_prop v k = Throw e.
Proof. destruct v; try discriminate; intros _; eexists; reflexivity. Qed.

Lemma read_as_arguments (a args : value) :
  read_as a args ->
  (if typeof a =? "string" then JSON_parse rt (string_of a) else Ret a) = Ret args.
Proof.
  destruct a; cbn [read_as typeof string_of]; intros H;
    try (subst args; reflexivity).
  exact H.
Qed.

Lemma push_query_names (acc : list value) (tc q : value) :
  names_query tc q ->
  SearchPipeline.push_query rt acc tc = (acc ++ [q])%list.
Proof.
  intros [Ntc [Nf [args [R [Na [Q T]]]]]].
  unfold SearchPipeline.push_query, SearchPipeline.proposed_query.
  rewrite (get_prop_get_opt _ _ Ntc). cbn [obind].
  rewrite (get_prop_get_opt _ _ Nf). cbn [obind].
  rewrite (read_as_arguments _ _ R). cbn [obind].
  rewrite (get_prop_get_opt _ _ Na). cbn [obind].
  rewrite Q, T. reflexivity.
Qed.

Lemma push_query_skips (acc : list value) (tc : value) :
  names_nothing tc -> SearchPipeline.push_query rt acc tc = acc.
Proof.
  unfold SearchPipeline.push_query, SearchPipeline.proposed_query, names_nothing.
  intros H.
  destruct (nullish tc) eqn:Ntc.
  { destruct (get_prop_nullish tc "function" Ntc) as [e ->]. reflexivity. }
  rewrite (get_prop_get_opt _ _ Ntc). cbn [obind].
  destruct (nullish (get_opt tc "function")) eqn:Nf.
  { destruct (get_prop_nullish _ "arguments" Nf) as [e ->]. reflexivity. }
  rewrite (get_prop_get_opt _ _ Nf). cbn [obind].
  destruct H as [H | [H | [[s [e [A P]]] | [args [R [Na | Q]]]]]];
    try discriminate H.
  - rewrite A. cbn [typeof string_of]. rewrite String.eqb_refl, P. reflexivity.
  - rewrite (read_as_arguments _ _ R). cbn [obind].
    destruct (get_prop_nullish args "query" Na) as [e ->]. reflexivity.
  - rewrite (read_as_arguments _ _ R). cbn [obind].
    destruct (nullish args) eqn:Na.
    + destruct (get_prop_nullish args "query" Na) as [e ->]. reflexivity.
    + rewrite (get_prop_get_opt _ _ Na). cbn [obind]. rewrite Q. reflexivity.
Qed.

Lemma push_query_named (toolCalls named : list value) :
  named_by toolCalls named ->
  forall acc,
    fold_left (SearchPipeline.push_query rt) toolCalls acc = (acc ++ named)%list.
Proof.
  induction 1 as [| tc q rest qs N _ IH | tc rest qs N _ IH]; intros acc;
    cbn [fold_left].
  - rewrite app_nil_r. reflexivity.
  - rewrite (push_query_names _ _ _ N), IH, <- app_assoc. reflexivity.
  - rewrite (push_query_skips _ _ N). apply IH.
Qed.

Ltac euclid := zify; Z.to_euclidean_division_equations; lia.

Lemma N_of_byte (n : N) : (n < 256)%N -> N_of_ascii (ascii_of_N n) = n.
Proof. apply N_ascii_embedding. Qed.

Lemma ltb_true (a b : N) : (a < b)%N -> (a <? b)%N = true.
Proof. apply N.ltb_lt. Qed.

Lemma ltb_false (a b : N) : (b <= a)%N -> (a <? b)%N = false.
Proof. apply N.ltb_ge. Qed.

(** Reading back what [of_point] wrote gives the code point. *)
Lemma points_of_point (p : N) (r : string) :
  (p < 2097152)%N ->
  points_from 0 0 (of_point p ++ r) = p :: points_from 0 0 r.
Proof.
  intros B. unfold of_point, byte.
  destruct (N.ltb_spec p 128) as [L1 | L1].
  { cbn [append points_from]. rewrite !N_of_byte by lia.
    rewrite ltb_true by lia. reflexivity. }
  destruct (N.ltb_spec p 2048) as [L2 | L2].
  { cbn [append points_from]. rewrite !N_of_byte by euclid.
    rewrite (ltb_false (192 + p / 64) 192) by euclid.
    rewrite (ltb_true (192 + p / 64) 224) by euclid.
    f_equal. euclid. }
  destruct (N.ltb_spec p 65536) as [L3 | L3].
  { cbn [append points_from]. rewrite !N_of_byte by euclid.
    rewrite (ltb_false (224 + p / 4096) 192) by euclid.
    rewrite (ltb_false (224 + p / 4096) 224) by euclid.
    rewrite (ltb_true (224 + p / 4096) 240) by euclid.
    f_equal. euclid. }
  cbn [append points_from]. rewrite !N_of_byte by euclid.
  rewrite (ltb_false (240 + p / 262144) 192) by euclid.
  rewrite (ltb_false (240 + p / 262144) 224) by euclid.
  rewrite (ltb_false (240 + p / 262144) 240) by euclid.
  f_equal. euclid.
Qed.

Definition in_range (p : N) : Prop := (p < 2097152)%N.

Lemma points_concat (ps : list N) :
  Forall in_range ps ->
  points (String.concat EmptyString (List.map of_point ps)) = ps.
Proof.
  unfold points. induction 1 as [| p ps R _ IH]; [reflexivity |].
  destruct ps as [| q ps].
  - cbn [List.map String.concat]. rewrite <- (append_empty_r (of_point p)).
    apply (points_of_point p EmptyString R).
  - change (String.concat EmptyString (List.map of_point (p :: q :: ps)))
      with (of_point p ++ String.concat EmptyString (List.map of_point (q :: ps))).
    rewrite (points_of_point p _ R), IH. reflexivity.
Qed.

(** What is still to come of a sequence leaves room for its bits. *)
Definition room (pending : nat) (acc : N) : Prop :=
  match pending with
  | 0%nat => True
  | 1%nat => (acc < 32768)%N
  | 2%nat => (acc < 512)%N
  | 3%nat => (acc < 8)%N
  | _ => False
  end.

Lemma points_from_in_range (s : string) :
  forall pending acc,
    room pending acc -> Forall in_range (points_from pending acc s).
Proof.
  induction s as [| c r IH]; intros pending acc R; [constructor |].
  assert (Hb : (N_of_ascii c < 256)%N) by apply N_ascii_bounded.
  cbn [points_from].
  destruct pending as [| [| [| [| k]]]]; cbn [room] in R; try contradiction.
  - destruct (N.ltb_spec (N_of_ascii c) 192);
      [constructor; [unfold in_range; lia | apply IH; exact I] |].
    destruct (N.ltb_spec (N_of_ascii c) 224); [apply IH; cbn [room]; euclid |].
    destruct (N.ltb_spec (N_of_ascii c) 240); apply IH; cbn [room]; euclid.
  - constructor; [unfold in_range; euclid | apply IH; exact I].
  - apply IH. cbn [room]. euclid.
  - apply IH. cbn [room]. euclid.
Qed.

Lemma take_units_in_range (ps : list N) :
  Forall in_range ps -> forall n, Forall in_range (take_units n ps).
Proof.
  induction 1 as [| p ps R _ IH]; intros n; [destruct n; constructor |].
  destruct n as [| k]; [constructor |]. cbn [take_units].
  destruct (N.ltb_spec p 65536); [constructor; [exact R | apply IH] |].
  destruct k as [| k']; [| constructor; [exact R | apply IH]].
  constructor; [| constructor]. unfold in_range in *. euclid.
Qed.

Lemma take_units_width (ps : list N) :
  Forall in_range ps ->
  forall n, (list_sum (List.map width (take_units n ps)) <= n)%nat.
Proof.
  unfold list_sum.
  induction 1 as [| p ps R _ IH]; intros n; [destruct n; simpl; lia |].
  destruct n as [| k]; [simpl; lia |]. cbn [take_units].
  destruct (N.ltb_spec p 65536) as [L | L].
  - cbn [List.map fold_right]. unfold width at 1. rewrite (ltb_true _ _ L).
    specialize (IH k). lia.
  - destruct k as [| k'].
    + cbn [List.map fold_right]. unfold width. unfold in_range in R.
      rewrite ltb_true by euclid. lia.
    + cbn [List.map fold_right]. unfold width at 1. rewrite (ltb_false _ _ L).
      specialize (IH k'). lia.
Qed.

(** A slice has no more code units than were asked for. *)
Lemma slice0_units (n : nat) (s : string) : (units (slice0 n s) <= n)%nat.
Proof.
  pose proof (points_from_in_range s 0 0 I) as R.
  unfold units, slice0.
  rewrite points_concat; [apply take_units_width, R |].
  apply take_units_in_range, R.
Qed.

(** Text below U+0080, where a byte is a code unit. *)
Fixpoint ascii_text (s : string) : bool :=
  match s with
  | String c r => (N_of_ascii c <? 128)%N && ascii_text r
  | EmptyString => true
  end.

Lemma slice0_ascii (s : string) :
  ascii_text s = true -> forall n, slice0 n s = substring 0 n s.
Proof.
  unfold slice0, points.
  induction s as [| c r IH]; intros A n; [destruct n; reflexivity |].
  cbn [ascii_text] in A. apply andb_true_iff in A as [Ac Ar].
  apply N.ltb_lt in Ac.
  cbn [points_from].
  replace (N_of_ascii c <? 192)%N with true by (symmetry; apply N.ltb_lt; lia).
  destruct n as [| k]; [reflexivity |].
  cbn [take_units].
  replace (N_of_ascii c <? 65536)%N with true by (symmetry; apply N.ltb_lt; lia).
  cbn [List.map substring]. unfold of_point at 1.
  replace (N_of_ascii c <? 128)%N with true by (symmetry; apply N.ltb_lt; lia).
  unfold byte. rewrite ascii_N_embedding, <- (IH Ar k).
  destruct (List.map of_point (take_units k (points_from 0 0 r))); reflexivity.
Qed.

End Queries.

(** The queries the second handler searches for are the [query]
    arguments that the model's tool calls name, in the order of the
    calls: the arguments are parsed when they are JSON text, and a tool
    call without function, with arguments that do not parse, or without
    a truthy query is skipped.  When no tool call names a query, the one
    query is the first 200 UTF-16 code units of the user's text: of a
    text below U+0080, its first 200 characters. *)
Theorem searchQueries_proposed_or_default (rt : Runtime)
    (toolCalls named : list value) (userInput : string) :
  named_by rt toolCalls named ->
  SearchPipeline.searchQueries_of rt toolCalls userInput =
  match named with
  | [] => [VStr (slice0 200 userInput)]
  | _ :: _ => named
  end /\
  (units (slice0 200 userInput) <= 200)%nat /\
  (ascii_text userInput = true ->
   slice0 200 userInput = substring 0 200 userInput).
Proof.
  intros N. split; [| split].
  - unfold SearchPipeline.searchQueries_of.
    rewrite (push_query_named rt _ _ N []). cbn [app].
    destruct named; reflexivity.
  - apply slice0_units.
  - intros A. apply (slice0_ascii userInput A).
Qed.

(** Three tool calls, of which the first has arguments that do not
    parse and the second has no function: the third gives the query. *)
Definition tool_runtime : Runtime :=
  {| JSON_parse := fun s =>
       if s =? "{q}" then Ret (VObj [("query", VStr "minister resignation")])
       else Throw (ErrorObj "SyntaxError" "Unexpected token");
     ToString := fun _ => Ret "[object Object]" |}.

Definition sample_tool_calls : list value :=
  [ VObj [("function", VObj [("arguments", VStr "not json")])];
    VObj [("id", VStr "call_2")];
    VObj [("function", VObj [("name", VStr "web_search");
                             ("arguments", VStr "{q}")])] ].

Lemma sample_tool_calls_named :
  named_by tool_runtime sample_tool_calls [VStr "minister resignation"].
Proof.
  apply named_skip.
  { right. right. left. eexists _, _. split; reflexivity. }
  apply named_skip.
  { right. left. reflexivity. }
  apply named_query; [| apply named_done].
  split; [reflexivity |]. split; [reflexivity |].
  eexists. repeat split; reflexivity.
Qed.

Lemma searchQueries_proposed_or_default_witness :
  SearchPipeline.searchQueries_of tool_runtime sample_tool_calls
    "The minister resigned this morning" =
  [VStr "minister resignation"] /\
  slice0 200 "The minister resigned this morning" =
  "The minister resigned this morning".
Proof.
  destruct (searchQueries_proposed_or_default tool_runtime sample_tool_calls
              [VStr "minister resignation"] "The minister resigned this morning"
              sample_tool_calls_named) as [Q [_ D]].
  split; [exact Q | apply D; reflexivity].
Defined.

(** An object as arguments is taken as it is, a query that is not text
    is kept as it is, and an empty query is skipped. *)
Example object_arguments_are_read :
  SearchPipeline.searchQueries_of tool_runtime
    [ VObj [("function", VObj [("arguments", VObj [("query", VNum (of_Z 7))])])];
      VObj [("function", VObj [("arguments", VObj [("query", VStr "")])])] ]
    "The minister resigned this morning" =
  [VNum (of_Z 7)].
Proof. reflexivity. Qed.

(** Without a usable tool call the text itself is searched for, cut
    after 200 code units: a character outside the basic plane counts for
    two, and the cut can leave the first half of one. *)
Example default_query_is_the_text :
  SearchPipeline.searchQueries_of tool_runtime [VNull]
    "The minister resigned this morning" =
  [VStr "The minister resigned this morning"].
Proof. reflexivity. Qed.

Example slice0_counts_code_units :
  slice0 4 "Voilà, tout" = "Voil" /\
  slice0 6 "Voilà, tout" = "Voilà," /\
  slice0 3 "a😀b" = "a😀" /\
  points (slice0 2 "a😀b") = [97; 55357]%N.
Proof. repeat split; reflexivity. Qed.

(** ** The merged evidence *)

(** The result lists the searches of a run return, one for each query,
    each search made after the one before, and the log after the last. *)
Fixpoint searched (rt : Runtime) (w : World) (queries : list value)
    (log : list call) : list (list ToolCalling.Source) * list call :=
  match queries with
  | [] => ([], log)
  | query :: rest =>
      match ToolCalling.performWebSearch_of rt w query log with
      | (Ret results, log1) =>
          let (resultss, log') := searched rt w rest log1 in
          (results :: resultss, log')
      | (Throw _, log1) => ([], log1)
      end
  end.

(** The [i]-th outbound call of the run is a gateway call that succeeds
    with a message whose tool calls are [toolCalls] (none, when it has
    no [tool_calls]). *)
Definition proposes (w : World) (i : nat) (toolCalls : list value) : Prop :=
  exists r data,
    net w i = Resolved r /\ up_ok r = true /\ up_json r = Ret data /\
    nullish data = false /\
    Method.iterate
      (coalesce (get_opt (get_opt (first_opt (get_opt data "choices")) "message")
                   "tool_calls")
         (VArr [])) = Ret toolCalls.

Section MergedRun.

Import ToolCalling MergeFacts.

Variable rt : Runtime.
Variable w : World.

Lemma performWebSearch_of_total (query : value) (log : list call) :
  exists results log',
    ToolCalling.performWebSearch_of rt w query log = (Ret results, log').
Proof.
  unfold ToolCalling.performWebSearch_of.
  destruct (to_string rt query) as [q | e]; [| eexists _, _; reflexivity].
  destruct (well_formed q).
  - unfold performWebSearch, bind.
    destruct (primarySearch_total w q log) as [p [log1 [E _]]]. rewrite E.
    destruct p as [results |]; [eexists _, _; reflexivity |].
    destruct (fallbackSearch_total rt w q log1) as [l [log2 [F _]]].
    eexists _, _. exact F.
  - destruct (fallbackSearch_total rt w q log) as [l [log2 [F _]]].
    eexists _, _. exact F.
Qed.

(** The loop over the queries ends in the merge of what its searches
    returned. *)
Lemma searchEach_merges (queries : list value) :
  forall st log,
    forallb (forallb typed) (fst (searched rt w queries log)) = true ->
    SearchPipeline.searchEach rt w queries st log =
    (foldM (fun st results => foldM (push_unique rt) results st)
       (fst (searched rt w queries log)) st,
     snd (searched rt w queries log)).
Proof.
  induction queries as [| query rest IH]; intros st log T; [reflexivity |].
  cbn [searched SearchPipeline.searchEach] in *.
  destruct (performWebSearch_of_total query log) as [results [log1 E]].
  unfold bind at 1. rewrite E in *.
  destruct (searched rt w rest log1) as [resultss log'] eqn:S.
  cbn [fst snd forallb] in *. apply andb_true_iff in T as [Tr Tl].
  destruct (push_all rt results Tr st) as [new [F _]].
  unfold bind at 1, lift at 1. rewrite F. cbn [foldM obind]. rewrite F.
  cbn [obind]. specialize (IH {| allSources := (allSources st ++ new)%list;
                                 allSnippets := (allSnippets st ++ List.map line_of new)%list |}
                              log1).
  rewrite S in IH. apply IH, Tl.
Qed.

End MergedRun.

(** C6: in a run of [callGeminiWithSearch] that gets as far as the
    verdict (the gateway answers the first call with the tool calls
    [toolCalls] and the last with [verdict]), whatever lists of records
    made of strings the searches for the first three queries return, the
    evidence is their merge: no URL occurs twice in it; every entry is
    the first record with its URL among all results taken in query order
    (so it carries the first-seen title and snippet); the entries stand
    in the order in which the results came; no returned URL is lost.
    Its first 8 entries, rendered one line each, are the evidence of the
    verdict prompt, and they are the sources the function returns. *)
Theorem merged_evidence_unique_ordered_capped (rt : Runtime) (w : World)
    (apiKey userInput today : string) (log : list call)
    (toolCalls : list value) (verdict : value) :
  let asked := (log ++ [Gateway apiKey (SearchPipeline.firstPayload today userInput)])%list in
  let queries := firstn 3 (SearchPipeline.searchQueries_of rt toolCalls userInput) in
  let resultss := fst (searched rt w queries asked) in
  let searched_log := snd (searched rt w queries asked) in
  proposes w (List.length log) toolCalls ->
  forallb (forallb MergeFacts.typed) resultss = true ->
  answers w (List.length searched_log) verdict ->
  exists st,
    ToolCalling.mergeResults rt resultss = Ret st /\
    NoDup (List.map ToolCalling.url (ToolCalling.allSources st)) /\
    (forall r, In r (ToolCalling.allSources st) ->
               find (MergeFacts.same_url r) (List.concat resultss) = Some r) /\
    subsequence (ToolCalling.allSources st) (List.concat resultss) /\
    (forall r, In r (List.concat resultss) ->
               In (ToolCalling.url r)
                  (List.map ToolCalling.url (ToolCalling.allSources st))) /\
    (List.length (firstn 8 (ToolCalling.allSources st)) <= 8)%nat /\
    SearchPipeline.callGeminiWithSearch rt w apiKey userInput today log =
    (Ret (GContent verdict (firstn 8 (ToolCalling.allSources st))),
     (searched_log ++
      [Gateway apiKey
         (chat_payload (SearchPipeline.analysisSystem today)
            (SearchPipeline.analysisUser userInput
               (join nl (List.map MergeFacts.line_of
                           (firstn 8 (ToolCalling.allSources st))))))])%list).
Proof.
  intros asked queries resultss searched_log
         [r1 [data1 [Hn1 [Hok1 [Hj1 [Hd1 Hv]]]]]] T
         [r2 [data2 [Hn2 [Hok2 [Hj2 [Hd2 [Hc Ht]]]]]]].
  destruct (mergeResults_unique_ordered_capped rt resultss T)
    as [st [M [U [F [O [A [_ [_ [_ Ev]]]]]]]]].
  exists st. split; [exact M |]. split; [exact U |]. split; [exact F |].
  split; [exact O |]. split; [exact A |]. split; [apply firstn_le_length |].
  subst resultss searched_log queries asked.
  unfold SearchPipeline.callGeminiWithSearch.
  unfold bind at 1, fetch at 1. rewrite Hn1, Hok1. cbn [negb].
  unfold bind at 1, lift at 1. rewrite Hj1.
  unfold bind at 1, lift at 1. rewrite (get_prop_get_opt _ _ Hd1).
  cbv zeta.
  unfold bind at 1, lift at 1. rewrite Hv.
  unfold bind at 1.
  rewrite (searchEach_merges rt w _ ToolCalling.nothing_merged _ T).
  unfold ToolCalling.mergeResults in M. rewrite M.
  unfold bind at 1, fetch at 1. rewrite Hn2, Hok2. cbn [negb].
  unfold bind at 1, lift at 1. rewrite Hj2.
  unfold bind at 1, lift at 1. rewrite (get_prop_get_opt _ _ Hd2).
  cbv zeta. fold (reply_content data2). rewrite Hc, Ht. cbn [negb].
  unfold ToolCalling.topSources in Ev. rewrite Ev. reflexivity.
Qed.

(** A run in which the model proposes two queries whose results overlap:
    the second search returns again the first URL of the first, under
    another title. *)
Definition two_searches : World :=
  {| SERPAPI_KEY := Some "serp-key";
     LOVABLE_API_KEY := Some "gateway-key";
     today := "2026-02-06";
     net := fun i =>
       match i with
       | 0%nat =>
           Resolved
             {| up_status := 200; up_text := Ret "";
                up_json :=
                  Ret (VObj [ ("choices",
                               VArr [ VObj [ ("message",
                                 VObj [ ("tool_calls",
                                         VArr [ VObj [("function", VObj [("arguments",
                                                   VObj [("query", VStr "minister resigned")])])];
                                                VObj [("function", VObj [("arguments",
                                                   VObj [("query", VStr "cabinet statement")])])] ]) ]) ] ]) ]) |}
       | 1%nat =>
           Resolved
             {| up_status := 200; up_text := Ret "";
                up_json :=
                  Ret (VObj [("organic_results", VArr [organic 1; organic 2])]) |}
       | 2%nat =>
           Resolved
             {| up_status := 200; up_text := Ret "";
                up_json :=
                  Ret (VObj [("organic_results",
                              VArr [ VObj [ ("title", VStr "Same page, other title");
                                            ("link", VStr "https://example.org/1");
                                            ("snippet", VStr "again") ];
                                     organic 3 ])]) |}
       | _ => gateway_answer (VStr "{}")
       end |}.

Definition two_searches_calls : list value :=
  [ VObj [("function", VObj [("arguments", VObj [("query", VStr "minister resigned")])])];
    VObj [("function", VObj [("arguments", VObj [("query", VStr "cabinet statement")])])] ].

Definition two_searches_evidence : list ToolCalling.Source :=
  [ src "Result 1" "https://example.org/1" "...";
    src "Result 2" "https://example.org/2" "...";
    src "Result 3" "https://example.org/3" "..." ].

Lemma merged_evidence_unique_ordered_capped_witness :
  SearchPipeline.callGeminiWithSearch sample_runtime two_searches
    "gateway-key" "The minister resigned this morning" "2026-02-06" [] =
  (Ret (GContent (VStr "{}") two_searches_evidence),
   [ Gateway "gateway-key" (SearchPipeline.firstPayload "2026-02-06" "The minister resigned this morning");
     SerpApi "minister resigned" "serp-key" (Some 5%nat);
     SerpApi "cabinet statement" "serp-key" (Some 5%nat);
     Gateway "gateway-key"
       (chat_payload (SearchPipeline.analysisSystem "2026-02-06")
          (SearchPipeline.analysisUser "The minister resigned this morning"
             (join nl (List.map MergeFacts.line_of two_searches_evidence)))) ]).
Proof.
  destruct (merged_evidence_unique_ordered_capped sample_runtime two_searches
              "gateway-key" "The minister resigned this morning" "2026-02-06" []
              two_searches_calls (VStr "{}"))
    as [st [M [_ [_ [_ [_ [_ E]]]]]]].
  - eexists _, _. repeat split; reflexivity.
  - reflexivity.
  - eexists _, _. repeat split; reflexivity.
  - injection M as <-. exact E.
Defined.

(** * Code fences around the verdict *)

Section Fences.

Definition backtick : ascii := "`"%char.

Fixpoint no_backtick (s : string) : bool :=
  match s with
  | String c r => negb (Ascii.eqb c backtick) && no_backtick r
  | EmptyString => true
  end.

Lemma prefix_fence_cons (c : ascii) (r : string) :
  Ascii.eqb c backtick = false -> prefix fence (String c r) = false.
Proof.
  intros H. unfold fence. cbn [prefix].
  destruct (ascii_dec "`"%char c) as [E | _]; [| reflexivity].
  subst c. discriminate H.
Qed.

Lemma substring_all (m : nat) (s : string) :
  (String.length s <= m)%nat -> substring 0 m s = s.
Proof.
  revert m. induction s as [| c s IH]; intros m L.
  - destruct m; reflexivity.
  - destruct m as [| m]; simpl in *; [lia |]. rewrite IH by lia. reflexivity.
Qed.

Lemma substring_skip (x r : string) (m : nat) :
  (String.length r <= m)%nat -> substring (String.length x) m (x ++ r) = r.
Proof.
  intros L. induction x as [| c x IH]; cbn [String.length append].
  - apply substring_all, L.
  - cbn [substring]. exact IH.
Qed.

Lemma length_app_string (x r : string) :
  String.length (x ++ r) = (String.length x + String.length r)%nat.
Proof. induction x as [| c x IH]; simpl; [reflexivity | rewrite IH; reflexivity]. Qed.

Lemma substring_drop (x r : string) :
  substring (String.length x) (String.length (x ++ r)) (x ++ r) = r.
Proof. apply substring_skip. rewrite length_app_string. lia. Qed.

End Fences.

Section FencedAnswers.

Lemma split_on_none (sep s : string) :
  includes sep s = false -> split_on sep s = None.
Proof.
  induction s as [| c s IH]; cbn [includes split_on]; intros H;
    apply orb_false_iff in H as [P I]; rewrite P; [reflexivity |].
  rewrite (IH I). reflexivity.
Qed.

Lemma split_on_found (pre rest : string) :
  no_backtick pre = true ->
  split_on fence (pre ++ fence ++ rest) = Some (pre, rest).
Proof.
  induction pre as [| c pre IH]; intros N.
  - change (EmptyString ++ fence ++ rest) with (fence ++ rest).
    destruct (fence ++ rest) eqn:E; [discriminate E |].
    cbn [split_on]. rewrite <- E. rewrite prefix_app.
    rewrite (substring_drop fence rest). reflexivity.
  - cbn [no_backtick] in N. apply andb_true_iff in N as [Nc Np].
    apply negb_true_iff in Nc.
    change (String c pre ++ fence ++ rest) with (String c (pre ++ fence ++ rest)).
    cbn [split_on]. rewrite (prefix_fence_cons _ _ Nc), (IH Np). reflexivity.
Qed.

Lemma strip_prefix_app (p r : string) : strip_prefix p (p ++ r) = r.
Proof. unfold strip_prefix. rewrite prefix_app. apply substring_drop. Qed.

Lemma ws_byte_low (c : ascii) :
  ws_byte c = false -> ascii_ws (code c) = false /\ (code c < 128)%nat.
Proof.
  unfold ws_byte. intros H. apply orb_false_iff in H as [A L].
  apply Nat.leb_gt in L. split; assumption.
Qed.

(** A byte that no white-space character contains ends the search for
    one. *)
Lemma ws_width_app (b r : string) (c : ascii) :
  ws_byte c = false -> ws_width (b ++ String c r) = ws_width b.
Proof.
  intros H. destruct (ws_byte_low c H) as [A L].
  assert (W2l : forall x, ws2 (code c) x = false).
  { intros x. destruct (ws2 (code c) x) eqn:E; [| reflexivity].
    apply ws2_bytes in E. lia. }
  assert (W2r : forall a, ws2 a (code c) = false).
  { intros a. destruct (ws2 a (code c)) eqn:E; [| reflexivity].
    apply ws2_bytes in E. lia. }
  assert (W3a : forall y x, ws3 (code c) y x = false).
  { intros y x. destruct (ws3 (code c) y x) eqn:E; [| reflexivity].
    apply ws3_bytes in E. lia. }
  assert (W3b : forall a x, ws3 a (code c) x = false).
  { intros a x. destruct (ws3 a (code c) x) eqn:E; [| reflexivity].
    apply ws3_bytes in E. lia. }
  assert (W3c : forall a y, ws3 a y (code c) = false).
  { intros a y. destruct (ws3 a y (code c)) eqn:E; [| reflexivity].
    apply ws3_bytes in E. lia. }
  destruct b as [| a [| d [| e b]]]; cbn [append ws_width].
  - rewrite A. destruct r as [| x [| y r]]; rewrite ?W2l, ?W3a; reflexivity.
  - destruct (ascii_ws (code a)); [reflexivity |]. rewrite W2r.
    destruct r; rewrite ?W3b; reflexivity.
  - destruct (ascii_ws (code a)); [reflexivity |].
    destruct (ws2 (code a) (code d)); [reflexivity |].
    rewrite W3c. reflexivity.
  - reflexivity.
Qed.

Lemma drop_ws_app (r : string) (c : ascii) :
  ws_byte c = false ->
  forall b pending,
    (pending <= String.length b)%nat ->
    drop_ws pending (b ++ String c r) = drop_ws pending b ++ String c r.
Proof.
  intros H. induction b as [| d b IH]; intros pending L.
  - cbn [String.length] in L. replace pending with 0%nat by lia.
    pose proof (ws_width_app EmptyString r c H) as W.
    cbn [append ws_width] in W.
    cbn [append drop_ws ws_width]. rewrite W. reflexivity.
  - cbn [String.length] in L.
    change (String d b ++ String c r) with (String d (b ++ String c r)).
    destruct pending as [| k]; cbn [drop_ws].
    + change (String d (b ++ String c r)) with (String d b ++ String c r).
      rewrite (ws_width_app _ _ _ H).
      pose proof (ws_width_le (String d b)) as W. cbn [String.length] in W.
      destruct (ws_width (String d b)) as [| k]; [reflexivity |].
      apply IH. lia.
    + apply IH. lia.
Qed.

Lemma trimStart_app (b r : string) (c : ascii) :
  ws_byte c = false ->
  trimStart (b ++ String c r) = trimStart b ++ String c r.
Proof.
  intros H. apply (drop_ws_app r c H b 0). lia.
Qed.

Lemma no_backtick_drop_ws (b : string) :
  no_backtick b = true ->
  forall pending, no_backtick (drop_ws pending b) = true.
Proof.
  induction b as [| c b IH]; intros N pending; [reflexivity |].
  pose proof N as N'.
  cbn [no_backtick] in N'. apply andb_true_iff in N' as [_ N'].
  destruct pending as [| k]; cbn [drop_ws]; [| apply IH, N'].
  destruct (ws_width (String c b)); [exact N | apply IH, N'].
Qed.

Lemma no_backtick_trimStart (b : string) :
  no_backtick b = true -> no_backtick (trimStart b) = true.
Proof. intros N. apply (no_backtick_drop_ws b N). Qed.

Lemma drop_ws_fixed (b : string) :
  forall pending, drop_ws 0 (drop_ws pending b) = drop_ws pending b.
Proof.
  induction b as [| c b IH]; intros pending; [destruct pending; reflexivity |].
  destruct pending as [| k]; cbn [drop_ws]; [| apply IH].
  destruct (ws_width (String c b)) eqn:E; [| apply IH].
  cbn [drop_ws]. rewrite E. reflexivity.
Qed.

Lemma trimStart_idempotent (b : string) : trimStart (trimStart b) = trimStart b.
Proof. apply drop_ws_fixed. Qed.

Lemma trim_trimStart (b : string) : trim (trimStart b) = trim b.
Proof. unfold trim. rewrite trimStart_idempotent. reflexivity. Qed.

End FencedAnswers.

(** What the first and the third handler hand to [JSON.parse]: an
    answer without backticks is parsed as it is, trimmed; of an answer
    that wraps its JSON in a fence, with or without the [json] tag and
    with prose before and after, the text inside the fence is parsed,
    trimmed (the text before the fence and the text inside hold no
    backtick). *)
Theorem jsonStr_unwraps (pre body tail : string) (tagged : bool) :
  no_backtick pre = true ->
  no_backtick body = true ->
  (tagged = false -> prefix "json" (body ++ fence ++ tail) = false) ->
  jsonStr (pre ++ fence ++ (if tagged then "json" else "") ++ body ++ fence ++ tail)
    = trim body /\
  jsonStr body = trim body.
Proof.
  intros Np Nb Ht. split.
  - unfold jsonStr, match_fenced.
    rewrite (split_on_found pre _ Np).
    assert (E : strip_prefix "json"
                  ((if tagged then "json" else "") ++ body ++ fence ++ tail) =
                body ++ fence ++ tail).
    { destruct tagged.
      - apply strip_prefix_app.
      - change (EmptyString ++ body ++ fence ++ tail) with (body ++ fence ++ tail).
        unfold strip_prefix. rewrite (Ht eq_refl). reflexivity. }
    rewrite E.
    change (fence ++ tail) with (String backtick (String backtick (String backtick tail))).
    rewrite trimStart_app by reflexivity.
    change (String backtick (String backtick (String backtick tail)))
      with (fence ++ tail).
    rewrite (split_on_found _ _ (no_backtick_trimStart _ Nb)).
    apply trim_trimStart.
  - unfold jsonStr, match_fenced. rewrite split_on_none; [reflexivity |].
    clear Np Ht. induction body as [| c body IH]; [reflexivity |].
    cbn [no_backtick] in Nb. apply andb_true_iff in Nb as [Nc Nb].
    apply negb_true_iff in Nc.
    cbn [includes]. rewrite (prefix_fence_cons _ _ Nc), (IH Nb). reflexivity.
Qed.

Lemma jsonStr_unwraps_witness :
  jsonStr ("Here it is: " ++ fence ++ (if true then "json" else "") ++
           (nl ++ "{}" ++ nl) ++ fence ++ " as asked")
    = trim (nl ++ "{}" ++ nl) /\
  jsonStr (nl ++ "{}" ++ nl) = trim (nl ++ "{}" ++ nl).
Proof.
  apply (jsonStr_unwraps "Here it is: " (nl ++ "{}" ++ nl) " as asked" true).
  - reflexivity.
  - reflexivity.
  - discriminate.
Defined.

Section CleanedAnswers.

Import SearchPipeline.

(** [starts n s]: [s] starts with [n] backticks. *)
Fixpoint starts (n : nat) (s : string) : bool :=
  match n with
  | O => true
  | S k =>
      match s with
      | String c r => Ascii.eqb c backtick && starts k r
      | EmptyString => false
      end
  end.

Lemma ascii_dec_backtick {A} (c : ascii) (x y : A) :
  (if ascii_dec "`"%char c then x else y) = (if Ascii.eqb c backtick then x else y).
Proof.
  destruct (ascii_dec "`"%char c) as [<- | N]; [reflexivity |].
  destruct (Ascii.eqb c backtick) eqn:E; [| reflexivity].
  apply Ascii.eqb_eq in E. subst c. contradiction N. reflexivity.
Qed.

Lemma prefix_backticks (n : nat) (p s : string) :
  (forall k, starts k p = (k <=? n)%nat) -> String.length p = n ->
  prefix p s = starts n s.
Proof.
  revert p s. induction n as [| n IH]; intros p s H L.
  - destruct p; [destruct s; reflexivity | discriminate L].
  - destruct p as [| a p]; [discriminate L |].
    injection L as L.
    assert (Ha : Ascii.eqb a backtick = true).
    { specialize (H 1%nat). cbn [starts] in H. rewrite andb_true_r in H. exact H. }
    apply Ascii.eqb_eq in Ha. subst a.
    destruct s as [| c s]; [reflexivity |].
    cbn [prefix starts]. rewrite ascii_dec_backtick.
    destruct (Ascii.eqb c backtick); [| reflexivity].
    cbn [andb]. apply IH; [| exact L].
    intros k. specialize (H (S k)). cbn [starts] in H. exact H.
Qed.

Lemma prefix_fence_starts (s : string) : prefix fence s = starts 3 s.
Proof.
  apply prefix_backticks; [| reflexivity].
  intros [| [| [| [| k]]]]; reflexivity.
Qed.

Lemma prefix_pair_starts (s : string) : prefix "``" s = starts 2 s.
Proof.
  apply prefix_backticks; [| reflexivity].
  intros [| [| [| k]]]; reflexivity.
Qed.

(** A text that does not start with two backticks is not given two
    leading backticks by the removal of its fences. *)
Lemma remove_fences_head (r : string) :
  starts 2 r = false -> starts 2 (remove_fences_from 0 r) = false.
Proof.
  destruct r as [| c r1]; [reflexivity |].
  cbn [remove_fences_from]. rewrite prefix_fence_starts.
  cbn [starts]. destruct (Ascii.eqb c backtick) eqn:C; cbn [andb];
    [| cbn [starts]; rewrite C; reflexivity].
  destruct r1 as [| d r2]; [intros _; cbn; rewrite C; reflexivity |].
  destruct (Ascii.eqb d backtick) eqn:D; cbn [andb]; [discriminate |].
  intros _. cbn [starts remove_fences_from]. rewrite C, prefix_fence_starts.
  cbn [starts andb]. rewrite D. cbn [andb starts]. rewrite D. reflexivity.
Qed.

Lemma remove_fences_no_fence (s : string) :
  forall pending, includes fence (remove_fences_from pending s) = false.
Proof.
  induction s as [| c r IH]; intros pending; [destruct pending; reflexivity |].
  cbn [remove_fences_from]. destruct pending as [| k]; [| apply IH].
  destruct (prefix fence (String c r)) eqn:F; [apply IH |].
  cbn [includes]. rewrite (IH 0%nat), orb_false_r.
  rewrite prefix_fence_starts in *. cbn [starts] in *.
  destruct (Ascii.eqb c backtick); [| reflexivity].
  cbn [andb] in *. apply remove_fences_head, F.
Qed.

Lemma strip_tagged_plain (b t : string) :
  no_backtick b = true ->
  strip_tagged_from 0 false (b ++ t) = b ++ strip_tagged_from 0 false t.
Proof.
  induction b as [| c b IH]; intros N; [reflexivity |].
  cbn [no_backtick] in N. apply andb_true_iff in N as [Nc Nb].
  apply negb_true_iff in Nc.
  change (String c b ++ t) with (String c (b ++ t)).
  cbn [strip_tagged_from andb]. rewrite (prefix_fence_cons _ _ Nc), (IH Nb).
  reflexivity.
Qed.

Lemma strip_tagged_inner_from (b : string) :
  no_backtick b = true ->
  forall pending,
    (pending <= String.length b)%nat ->
    strip_tagged_from pending true (b ++ fence) = drop_ws pending b.
Proof.
  induction b as [| c b IH]; intros N pending L.
  - cbn [String.length] in L. replace pending with 0%nat by lia. reflexivity.
  - cbn [no_backtick] in N. apply andb_true_iff in N as [Nc Nb].
    apply negb_true_iff in Nc. cbn [String.length] in L.
    change (String c b ++ fence) with (String c (b ++ fence)).
    destruct pending as [| k]; cbn [strip_tagged_from drop_ws];
      [| apply (IH Nb); lia].
    pose proof (ws_width_app (String c b) "``" "`"%char eq_refl) as W.
    change (String c b ++ String "`"%char "``") with (String c (b ++ fence)) in W.
    rewrite W.
    pose proof (ws_width_le (String c b)) as Wl. cbn [String.length] in Wl.
    destruct (ws_width (String c b)) as [| k]; [| apply (IH Nb); lia].
    rewrite (prefix_fence_cons _ _ Nc), (strip_tagged_plain b fence Nb).
    change (strip_tagged_from 0 false fence) with EmptyString.
    rewrite append_empty_r. reflexivity.
Qed.

Lemma strip_tagged_inner (b : string) :
  no_backtick b = true ->
  strip_tagged_from 0 true (b ++ fence) = trimStart b.
Proof.
  intros N. apply (strip_tagged_inner_from b N 0). lia.
Qed.

Lemma strip_tagged_open (r : string) :
  strip_tagged_from 0 false (fence ++ "json" ++ r) = strip_tagged_from 0 true r.
Proof.
  set (s := fence ++ "json" ++ r).
  assert (P1 : prefix fence s = true) by apply prefix_app.
  assert (P2 : prefix "json" (substring 3 (String.length s) s) = true).
  { unfold s.
    change (substring 3 (String.length (fence ++ "json" ++ r)) (fence ++ "json" ++ r))
      with (substring (String.length fence)
              (String.length (fence ++ "json" ++ r)) (fence ++ "json" ++ r)).
    rewrite (substring_drop fence ("json" ++ r)). apply prefix_app. }
  transitivity
    (if prefix fence s then
       strip_tagged_from
         (if prefix "json" (substring 3 (String.length s) s) then 6 else 2)
         true ("``json" ++ r)
     else String "`" (strip_tagged_from 0 false ("``json" ++ r))).
  - reflexivity.
  - rewrite P1, P2. reflexivity.
Qed.

Lemma remove_fences_plain (b : string) :
  no_backtick b = true -> remove_fences b = b.
Proof.
  unfold remove_fences. induction b as [| c b IH]; intros N; [reflexivity |].
  cbn [no_backtick] in N. apply andb_true_iff in N as [Nc Nb].
  apply negb_true_iff in Nc.
  cbn [remove_fences_from]. rewrite (prefix_fence_cons _ _ Nc), (IH Nb).
  reflexivity.
Qed.

End CleanedAnswers.

(** What the second handler hands to [JSON.parse] never contains a code
    fence, whatever the model answered. *)
Theorem cleaned_has_no_fence (content : string) :
  includes fence (SearchPipeline.cleaned content) = false.
Proof.
  unfold SearchPipeline.cleaned.
  rewrite includes_trim; [| reflexivity | discriminate].
  apply remove_fences_no_fence.
Qed.

(** For an answer without backticks, and for such an answer wrapped in a
    fence tagged [json], it is the answer, trimmed. *)
Theorem cleaned_unwraps (body : string) :
  no_backtick body = true ->
  SearchPipeline.cleaned (fence ++ "json" ++ body ++ fence) = trim body /\
  SearchPipeline.cleaned body = trim body.
Proof.
  intros N. unfold SearchPipeline.cleaned, SearchPipeline.strip_tagged. split.
  - assert (E : SearchPipeline.strip_tagged_from 0 false
                  (fence ++ "json" ++ body ++ fence) =
                SearchPipeline.strip_tagged_from 0 true (body ++ fence)).
    { apply strip_tagged_open. }
    rewrite E, (strip_tagged_inner body N).
    rewrite (remove_fences_plain _ (no_backtick_trimStart _ N)).
    apply trim_trimStart.
  - rewrite <- (append_empty_r body) at 1.
    rewrite (strip_tagged_plain body EmptyString N).
    change (SearchPipeline.strip_tagged_from 0 false EmptyString) with EmptyString.
    rewrite append_empty_r, (remove_fences_plain body N). reflexivity.
Qed.

Lemma cleaned_unwraps_witness :
  SearchPipeline.cleaned (fence ++ "json" ++ (nl ++ "{}" ++ nl) ++ fence)
    = trim (nl ++ "{}" ++ nl) /\
  SearchPipeline.cleaned (nl ++ "{}" ++ nl) = trim (nl ++ "{}" ++ nl).
Proof.
  apply (cleaned_unwraps (nl ++ "{}" ++ nl)). reflexivity.
Defined.

(** * Runs that find evidence *)



(** The evidence block of that run. *)
Example evidence_block_of_two :
  evidence_block [organic 1; organic 2] =
  "1. Result 1" ++ nl ++ "..." ++ nl ++ "https://example.org/1" ++ nl ++ nl ++
  "2. Result 2" ++ nl ++ "..." ++ nl ++ "https://example.org/2".
Proof. reflexivity. Qed.

(** A search that finds nothing: the mode is still [live-web], and the
    verdict is asked with the static prompt. *)
Definition fruitless_world : World :=
  {| SERPAPI_KEY := Some "serp-key";
     LOVABLE_API_KEY := Some "gateway-key";
     today := "2026-02-06";
     net := fun i =>
       match i with
       | O => gateway_answer (VStr "LIVE_SEARCH_REQUIRED")
       | S O => Resolved {| up_status := 200; up_text := Ret "";
                            up_json := Ret (VObj [("organic_results", VArr [])]) |}
       | _ => gateway_answer (VStr "{}")
       end |}.

Example live_claim_without_results :
  Plain.handler sample_runtime fruitless_world (post election_claim) [] =
  (Ret (ok_Response [ ("verdict", VStr "uncertain");
                      ("confidence", VNum (of_Z 50));
                      ("explanation", VStr "Analysis complete.");
                      ("redFlags", VArr []);
                      ("sourceMode", VStr "live-web");
                      ("sources", VArr []) ]),
   [ Gateway "gateway-key"
       (chat_payload Plain.decisionSystem
          (Plain.decisionUser "The minister resigned this morning"));
     SerpApi "The minister resigned this morning" "serp-key" None;
     Gateway "gateway-key"
       (chat_payload Plain.analysisSystem
          ("Analyze this news content for credibility:" ++ nl ++ nl ++
           dq ++ "The minister resigned this morning" ++ dq)) ]).
Proof. reflexivity. Qed.

(** ** The keyed search of the second handler *)




